(** * Taskflow backend: tool handlers, tool executor and message numbering

    A shallow embedding of the task tools ([backend/src/tools/*.py]), the
    tool executor ([backend/src/services/agent_service.py]), the message
    numbering of [backend/src/services/conversation_service.py] and the chat
    endpoints of [backend/src/api/chat.py].

    Conventions of the embedding
    - a Python [str] is a [string]; [len] and [str.strip] work on its
      characters, with the white space of [str.isspace] below code point 256;
    - a Python [int] is a [Z], a [datetime] is a [Z] (a point in time) and
      [datetime.isoformat()] is kept symbolic ([VIsoformat]);
    - a [dict] literal returned by a handler is the list of its items in the
      order the literal is written (Python dicts keep insertion order);
    - the [tasks] table is a finite map from primary key to row; the
      [messages] table is the list of its rows in insertion order;
    - [datetime.utcnow()] is an explicit clock reading passed to the call;
    - a store failure is an engine that raises on every statement;
    - [json.loads] is a function passed to the orchestrator, and a JSON
      number is an integer. *)

From Stdlib Require Import ZArith Ascii String.
From stdpp Require Import gmap strings list fin_maps sorting.

Set Warnings "-register-all".
Local Open Scope string_scope.
Local Open Scope list_scope.
Local Open Scope Z_scope.

(** ** Python values *)

Abbreviation datetime := Z (only parsing).

Inductive value : Type :=
| VNone
| VBool (b : bool)
| VInt (n : Z)
| VStr (s : string)
| VIsoformat (t : datetime)
| VList (l : list value)
| VDict (d : list (string * value)).

Abbreviation pydict := (list (string * value)) (only parsing).

(** [d.get(k)] / [k in d] on a dict literal. *)
Fixpoint dict_get (k : string) (d : pydict) : option value :=
  match d with
  | [] => None
  | (k', v) :: d' => if String.eqb k k' then Some v else dict_get k d'
  end.

(** An exception: its class and [str(e)]. *)
Record exn : Type := Exn { exn_class : string; exn_str : string }.

Inductive outcome (A : Type) : Type :=
| Return (a : A)
| Raise (e : exn).
Arguments Return {A} a.
Arguments Raise {A} e.

(** ** [str] operations *)

Module Py.

Definition len (s : string) : Z := Z.of_nat (String.length s).

(** [str.isspace] on one character (code points below 256). *)
Definition isspace (c : ascii) : bool :=
  let n := Z.of_N (N_of_ascii c) in
  ((9 <=? n) && (n <=? 13)) || ((28 <=? n) && (n <=? 32))
  || (n =? 133) || (n =? 160).

Fixpoint lstrip (s : string) : string :=
  match s with
  | EmptyString => EmptyString
  | String c s' => if isspace c then lstrip s' else s
  end.

Fixpoint rstrip (s : string) : string :=
  match s with
  | EmptyString => EmptyString
  | String c s' =>
      match rstrip s' with
      | EmptyString => if isspace c then EmptyString else String c EmptyString
      | r => String c r
      end
  end.

Definition strip (s : string) : string := rstrip (lstrip s).

(** Truthiness of an optional [str]: [None] and [""] are falsy. *)
Definition truthy (s : option string) : bool :=
  match s with
  | None | Some EmptyString => false
  | Some _ => true
  end.

Definition str_eqb (a b : string) : bool := String.eqb a b.

(** ["x" * n] *)
Fixpoint repeat (c : ascii) (n : nat) : string :=
  match n with
  | O => EmptyString
  | S n' => String c (repeat c n')
  end.

End Py.

(** ** Data model ([backend/src/models]) *)

Module Task.
Record t : Type := Build {
  id : Z;
  title : string;
  description : option string;
  completed : bool;
  user_id : Z;
  created_at : datetime;
  updated_at : datetime
}.
End Task.

(** The [tasks] table, keyed by primary key. *)
Abbreviation tasks_table := (gmap Z Task.t) (only parsing).

(** Rows sit under their own primary key, and keys handed out by the store
    are positive. *)
Definition table_wf (rows : tasks_table) : Prop :=
  map_Forall (λ k r, Task.id r = k ∧ 0 < k) rows.

#[global] Instance table_wf_dec (rows : gmap Z Task.t) : Decision (table_wf rows) :=
  map_Forall_dec (λ k r, Task.id r = k ∧ 0 < k) rows.

(** ** Execution context ([tools/mcp_server.py]) *)

Inductive engine : Type :=
| Connected
| Failing (e : exn).

Module MCPContext.
Record t : Type := Build {
  db_engine : engine;
  user_id : Z
}.
End MCPContext.

(** ** Sessions: state over the [tasks] table, with exceptions *)

Definition Session (A : Type) : Type :=
  tasks_table → outcome A * tasks_table.

Definition raise {A} (e : exn) : Session A := λ rows, (Raise e, rows).

#[global] Instance session_ret : MRet Session :=
  λ A (a : A) rows, (Return a, rows).

#[global] Instance session_bind : MBind Session :=
  λ A B (f : A → Session B) (m : Session A) rows,
    match m rows with
    | (Return a, rows') => f a rows'
    | (Raise e, rows') => (Raise e, rows')
    end.

Definition ret {A} (a : A) : Session A := mret a.

(** [try: body except Exception as e: handler(e)] *)
Definition try_except {A} (body : Session A) (handler : exn → Session A)
  : Session A :=
  λ rows,
    match body rows with
    | (Return a, rows') => (Return a, rows')
    | (Raise e, rows') => handler e rows'
    end.

(** Every statement goes through the engine of the context. *)
Definition statement {A} (ctx : MCPContext.t) (q : tasks_table → A * tasks_table)
  : Session A :=
  λ rows,
    match MCPContext.db_engine ctx with
    | Failing e => (Raise e, rows)
    | Connected => let '(a, rows') := q rows in (Return a, rows')
    end.

(** [select(Task).where(Task.id == task_id, Task.user_id == uid)] then
    [.first()] *)
Definition first_owned (uid task_id : Z) (rows : tasks_table) : option Task.t :=
  match rows !! task_id with
  | Some r => if bool_decide (Task.user_id r = uid) then Some r else None
  | None => None
  end.

Definition select_task (ctx : MCPContext.t) (task_id : Z)
  : Session (option Task.t) :=
  statement ctx (λ rows,
    (first_owned (MCPContext.user_id ctx) task_id rows, rows)).

(** [select(Task).where(Task.user_id == uid)] then [.all()] *)
Definition select_tasks_of_user (ctx : MCPContext.t) : Session (list Task.t) :=
  statement ctx (λ rows,
    (filter (λ r, Task.user_id r = MCPContext.user_id ctx)
            ((map_to_list rows).*2), rows)).

(** [session.add(task); session.commit(); session.refresh(task)] for a row
    that was loaded from the table. *)
Definition commit_update (ctx : MCPContext.t) (task : Task.t) : Session Task.t :=
  statement ctx (λ rows, (task, <[Task.id task := task]> rows)).

(** The key the store gives to a new row. *)
Definition fresh_id (rows : tasks_table) : Z :=
  1 + map_fold (λ k _ acc, Z.max k acc) 0 rows.

(** [session.add(task); session.commit(); session.refresh(task)] for a new
    row: the store assigns the primary key. *)
Definition commit_insert (ctx : MCPContext.t) (mk : Z → Task.t) : Session Task.t :=
  statement ctx (λ rows,
    let task := mk (fresh_id rows) in (task, <[Task.id task := task]> rows)).

(** [session.delete(task); session.commit()] *)
Definition commit_delete (ctx : MCPContext.t) (task : Task.t) : Session unit :=
  statement ctx (λ rows, (tt, delete (Task.id task) rows)).

(** ** Tool handlers ([backend/src/tools]) *)

Definition error_result (msg : string) : value :=
  VDict [("status", VStr "error"); ("error", VStr msg)].

Definition task_not_found : value := error_result "Task not found".

Definition opt_str (s : option string) : value :=
  match s with
  | Some s => VStr s
  | None => VNone
  end.

Definition task_dict (task : Task.t) : value :=
  VDict [("id", VInt (Task.id task));
         ("title", VStr (Task.title task));
         ("description", opt_str (Task.description task));
         ("completed", VBool (Task.completed task));
         ("created_at", VIsoformat (Task.created_at task));
         ("updated_at", VIsoformat (Task.updated_at task))].

(** The [except Exception as e] clause shared by five of the handlers. *)
Definition database_error (e : exn) : value :=
  error_result ("Database error: " +:+ exn_str e).

(** [tools/get_task.py] *)
Definition get_task_internal (ctx : MCPContext.t) (task_id : Z) : Session value :=
  try_except
    (if task_id <=? 0 then ret (error_result "Invalid task ID")
     else
       task ← select_task ctx task_id;
       match task with
       | None => ret (error_result "Task not found")
       | Some task =>
           ret (VDict [("status", VStr "success"); ("task", task_dict task)])
       end)
    (λ e, ret (database_error e)).

(** [tools/list_tasks.py] *)
Definition list_tasks_internal (ctx : MCPContext.t) : Session value :=
  try_except
    (tasks ← select_tasks_of_user ctx;
     let task_list := map task_dict tasks in
     let completed_count :=
       Z.of_nat (length (filter (λ r, Task.completed r = true) tasks)) in
     let pending_count :=
       Z.of_nat (length (filter (λ r, Task.completed r = false) tasks)) in
     ret (VDict [("tasks", VList task_list);
                 ("total", VInt (Z.of_nat (length tasks)));
                 ("completed_count", VInt completed_count);
                 ("pending_count", VInt pending_count)]))
    (λ e, ret (VDict [("status", VStr "error");
                      ("error", VStr ("Database error: " +:+ exn_str e));
                      ("tasks", VList []);
                      ("total", VInt 0);
                      ("completed_count", VInt 0);
                      ("pending_count", VInt 0)])).

(** [tools/create_task.py]; the two clock readings are those of
    [created_at=datetime.utcnow()] and [updated_at=datetime.utcnow()]. *)
Definition create_task_internal (ctx : MCPContext.t)
    (title : option string) (description : option string)
    (now_created now_updated : datetime) : Session value :=
  try_except
    (match title with
     | None => ret (error_result "Title is required")
     | Some title =>
         if negb (Py.truthy (Some title)) || Py.str_eqb (Py.strip title) ""
         then ret (error_result "Title is required")
         else
           let title := Py.strip title in
           if 200 <? Py.len title
           then ret (error_result "Title exceeds 200 characters")
           else if Py.truthy description
                   && (2000 <? Py.len (default "" description))
           then ret (error_result "Description exceeds 2000 characters")
           else
             task ← commit_insert ctx (λ new_id,
               Task.Build new_id title
                 (if Py.truthy description then description else None)
                 false (MCPContext.user_id ctx) now_created now_updated);
             ret (VDict [("status", VStr "success"); ("task", task_dict task)])
     end)
    (λ e, ret (database_error e)).

(** [tools/update_task.py] *)
Definition update_task_internal (ctx : MCPContext.t) (task_id : Z)
    (title : option string) (description : option string)
    (now : datetime) : Session value :=
  try_except
    (match title, description with
     | None, None => ret (error_result "No fields provided to update")
     | _, _ =>
         let title := Py.strip <$> title in
         if bool_decide (title = Some "")
         then ret (error_result "Title cannot be empty")
         else if 200 <? Py.len (default "" title)
         then ret (error_result "Title exceeds 200 characters")
         else if 2000 <? Py.len (default "" description)
         then ret (error_result "Description exceeds 2000 characters")
         else
           task ← select_task ctx task_id;
           match task with
           | None => ret (error_result "Task not found")
           | Some task =>
               let task :=
                 Task.Build (Task.id task)
                   (default (Task.title task) title)
                   (match description with
                    | Some d => Some d
                    | None => Task.description task
                    end)
                   (Task.completed task) (Task.user_id task)
                   (Task.created_at task) now in
               task ← commit_update ctx task;
               ret (VDict [("status", VStr "success");
                           ("task", task_dict task)])
           end
     end)
    (λ e, ret (database_error e)).

(** [tools/mark_complete.py] *)
Definition mark_complete_internal (ctx : MCPContext.t) (task_id : Z)
    (now : datetime) : Session value :=
  try_except
    (task ← select_task ctx task_id;
     match task with
     | None => ret (error_result "Task not found")
     | Some task =>
         let task :=
           Task.Build (Task.id task) (Task.title task) (Task.description task)
             (negb (Task.completed task)) (Task.user_id task)
             (Task.created_at task) now in
         task ← commit_update ctx task;
         ret (VDict [("status", VStr "success");
                     ("action", VStr (if Task.completed task
                                      then "marked_complete"
                                      else "marked_incomplete"));
                     ("task", task_dict task)])
     end)
    (λ e, ret (database_error e)).

(** [tools/delete_task.py] *)
Definition delete_task_internal (ctx : MCPContext.t) (task_id : Z)
  : Session value :=
  try_except
    (task ← select_task ctx task_id;
     match task with
     | None => ret (error_result "Task not found")
     | Some task =>
         let task_title := Task.title task in
         commit_delete ctx task;;
         ret (VDict [("status", VStr "success");
                     ("message",
                      VStr ("Task '" +:+ task_title +:+ "' deleted successfully"));
                     ("deleted_task_id", VInt task_id)])
     end)
    (λ e, ret (database_error e)).

(** ** Reading a result *)

Definition dict_of (v : value) : pydict :=
  match v with
  | VDict d => d
  | _ => []
  end.

(** [result["status"]] *)
Definition result_status (v : value) : option value :=
  dict_get "status" (dict_of v).

(** [result["error"]] *)
Definition result_error (v : value) : option value :=
  dict_get "error" (dict_of v).

(** [result["task"][field]] *)
Definition result_task_field (field : string) (v : value) : option value :=
  t ← dict_get "task" (dict_of v); dict_get field (dict_of t).

(** [result["tasks"]] *)
Definition result_tasks (v : value) : list value :=
  match dict_get "tasks" (dict_of v) with
  | Some (VList l) => l
  | _ => []
  end.

(** The arguments of [update_task] that get past its argument checks. *)
Definition update_arguments_accepted (title description : option string) : bool :=
  match title, description with
  | None, None => false
  | _, _ =>
      match title with
      | Some s => negb (Py.str_eqb (Py.strip s) "") && (Py.len (Py.strip s) <=? 200)
      | None => true
      end
      && match description with
         | Some d => Py.len d <=? 2000
         | None => true
         end
  end.


(** ** Tool registry ([tools/__init__.py]) and executor
       ([services/agent_service.py]) *)

(** The readings of the clock one handler call makes. *)
Abbreviation clock := (datetime * datetime)%type (only parsing).

(** *** Calls with arguments of any JSON type

    The arguments of a tool call are what [json.loads] gave, values of any
    JSON type, and Python does not check them against the annotations of
    the handler. The embedding follows such a call as far as the code of the
    repository decides what happens. It does not follow a call in which a
    value of another type than the column's reaches the database driver, or
    in which the interpreter raises with a text of its own making (a value
    without [strip] or [len], [**] applied to a value that is not a
    mapping). Such a call is [None]: nothing is said about it. *)
Definition Call (A : Type) : Type :=
  tasks_table → option (outcome A * tasks_table).

Definition followed {A} (s : Session A) : Call A := λ rows, Some (s rows).

Definition not_followed {A} : Call A := λ _, None.

#[global] Instance call_ret : MRet Call :=
  λ A (a : A) rows, Some (Return a, rows).

#[global] Instance call_bind : MBind Call :=
  λ A B (f : A → Call B) (m : Call A) rows,
    match m rows with
    | Some (Return a, rows') => f a rows'
    | Some (Raise e, rows') => Some (Raise e, rows')
    | None => None
    end.

(** [try: body except Exception as e: handler(e)] around a call. *)
Definition call_try_except {A} (body : Call A) (handler : exn → Call A)
  : Call A :=
  λ rows,
    match body rows with
    | Some (Return a, rows') => Some (Return a, rows')
    | Some (Raise e, rows') => handler e rows'
    | None => None
    end.

(** [bool(v)] *)
Definition value_truthy (v : value) : bool :=
  match v with
  | VNone => false
  | VBool b => b
  | VInt n => negb (n =? 0)
  | VStr s => Py.truthy (Some s)
  | VIsoformat _ => true
  | VList l => match l with [] => false | _ => true end
  | VDict d => match d with [] => false | _ => true end
  end.

(** A registered callable, applied as [tool_func(ctx, **arguments)]. *)
Definition tool_func : Type := MCPContext.t → pydict → clock → Call value.

Definition TypeError (msg : string) : exn := Exn "TypeError" msg.

(** Binding [**arguments] to a signature [(ctx, required, *optional)], the
    context being passed by position. The keywords are taken in the order
    of the dict: one that names [ctx] or no parameter raises; then a missing
    required parameter raises. *)
Definition bind_arguments (fname : string) (required : option string)
    (optional : list string) (arguments : pydict) : Session unit :=
  let params := (option_list required ++ optional)%list in
  match filter (λ k, k ∉ params) (arguments.*1) with
  | k :: _ =>
      if String.eqb k "ctx"
      then raise (TypeError (fname +:+ "() got multiple values for argument '"
                             +:+ k +:+ "'"))
      else raise (TypeError (fname +:+ "() got an unexpected keyword argument '"
                             +:+ k +:+ "'"))
  | [] =>
      match required with
      | Some k =>
          match dict_get k arguments with
          | Some _ => mret tt
          | None =>
              raise (TypeError (fname
                +:+ "() missing 1 required positional argument: '"
                +:+ k +:+ "'"))
          end
      | None => mret tt
      end
  end.

(** [task_id] where the handler uses it in the query only ([mark_complete],
    [delete_task], [update_task]): an [int] is compared with the key; a
    value of any other type is the driver's to judge. *)
Definition key_argument (v : option value) : option Z :=
  match v with
  | Some (VInt n) => Some n
  | _ => None
  end.

(** [title] of [create_task]. The handler tests [not title] before it calls
    [title.strip()]: a falsy value of any type is answered like [None], a
    [str] goes on, a truthy value of another type has no [strip]. *)
Definition create_title_argument (v : option value) : option (option string) :=
  match v with
  | Some (VStr s) => Some (Some s)
  | Some (VIsoformat _) => None
  | Some v => if value_truthy v then None else Some None
  | None => None
  end.

(** [description] of [create_task], [""] when the call leaves it out. The
    handler takes [len(description)] only of a truthy value and stores
    [description if description else None]: a falsy value of any type is
    one without description, a truthy value that is not a [str] has no
    [len] or goes to the driver. *)
Definition create_description_argument (v : option value)
  : option (option string) :=
  match v with
  | None => Some (Some "")
  | Some (VStr d) => Some (Some d)
  | Some (VIsoformat _) => None
  | Some v => if value_truthy v then None else Some None
  end.

(** [title] and [description] of [update_task], [None] when the call leaves
    them out. The handler tests [is not None] and then calls [strip] or
    [len]. *)
Definition update_field_argument (v : option value) : option (option string) :=
  match v with
  | None | Some VNone => Some None
  | Some (VStr s) => Some (Some s)
  | Some _ => None
  end.

Definition call_list_tasks : tool_func := λ ctx arguments _,
  followed (bind_arguments "list_tasks_internal" None [] arguments);;
  followed (list_tasks_internal ctx).

Definition call_create_task : tool_func := λ ctx arguments clk,
  followed (bind_arguments "create_task_internal" (Some "title")
              ["description"] arguments);;
  match create_title_argument (dict_get "title" arguments),
        create_description_argument (dict_get "description" arguments) with
  | Some title, Some description =>
      followed (create_task_internal ctx title description clk.1 clk.2)
  | _, _ => not_followed
  end.

Definition call_mark_complete : tool_func := λ ctx arguments clk,
  followed (bind_arguments "mark_complete_internal" (Some "task_id") []
              arguments);;
  match key_argument (dict_get "task_id" arguments) with
  | Some task_id => followed (mark_complete_internal ctx task_id clk.1)
  | None => not_followed
  end.

Definition call_update_task : tool_func := λ ctx arguments clk,
  followed (bind_arguments "update_task_internal" (Some "task_id")
              ["title"; "description"] arguments);;
  match key_argument (dict_get "task_id" arguments),
        update_field_argument (dict_get "title" arguments),
        update_field_argument (dict_get "description" arguments) with
  | Some task_id, Some title, Some description =>
      followed (update_task_internal ctx task_id title description clk.1)
  | _, _, _ => not_followed
  end.

Definition call_delete_task : tool_func := λ ctx arguments _,
  followed (bind_arguments "delete_task_internal" (Some "task_id") []
              arguments);;
  match key_argument (dict_get "task_id" arguments) with
  | Some task_id => followed (delete_task_internal ctx task_id)
  | None => not_followed
  end.

(** [get_task] tests [isinstance(task_id, int)] itself: a value that is not
    an [int] is answered ["Invalid task ID"]. [False] is the [int] 0 and is
    answered the same; [True] is an [int] that passes the test and reaches
    the query as a [bool]. *)
Definition call_get_task : tool_func := λ ctx arguments _,
  followed (bind_arguments "get_task_internal" (Some "task_id") [] arguments);;
  match dict_get "task_id" arguments with
  | Some (VInt task_id) => followed (get_task_internal ctx task_id)
  | Some (VBool true) => not_followed
  | Some _ => followed (ret (error_result "Invalid task ID"))
  | None => not_followed
  end.

(** [mcp_server.tools] after the [register_tool] calls of
    [tools/__init__.py]. *)
Definition mcp_server_tools : gmap string tool_func :=
  <["get_task" := call_get_task]>
  (<["delete_task" := call_delete_task]>
  (<["update_task" := call_update_task]>
  (<["mark_complete" := call_mark_complete]>
  (<["create_task" := call_create_task]>
  (<["list_tasks" := call_list_tasks]> ∅))))).

(** [MCPServer.get_tool] *)
Definition get_tool (name : string) : option tool_func :=
  mcp_server_tools !! name.

Module AgentService.

(** [AgentService.execute_tool]; [self.mcp_context] is [ctx], and
    [arguments] is whatever the payload decoded to. *)
Definition execute_tool (ctx : MCPContext.t) (tool_name : string)
    (arguments : value) (clk : clock) : Call value :=
  match get_tool tool_name with
  | None =>
      followed (raise (Exn "ValueError" ("Tool '" +:+ tool_name +:+ "' not found")))
  | Some tool_func =>
      call_try_except
        (match arguments with
         | VDict arguments => tool_func ctx arguments clk
         | _ => not_followed
         end)
        (λ e, mret (VDict [("status", VStr "error"); ("error", VStr (exn_str e))]))
  end.

(** A tool call proposed by the model: [tool_call.id],
    [tool_call.function.name] and [tool_call.function.arguments], the
    payload as text or [None]. *)
Record tool_call : Type := ToolCall {
  tool_call_id : string;
  tool_call_name : string;
  tool_call_arguments : option string
}.

(** [choices[0]] of a completion. *)
Record completion : Type := Completion {
  message_content : option string;
  message_tool_calls : list tool_call;
  finish_reason : string
}.

(** [tool_args] of a tool call: [{}] for a missing or empty payload, else
    what [json.loads] returns or raises. *)
Definition decode_arguments (json_loads : string → outcome value)
    (tool_args_str : option string) : outcome value :=
  match tool_args_str with
  | None | Some EmptyString => Return (VDict [])
  | Some tool_args_str => json_loads tool_args_str
  end.

(** The loop [for tool_call in assistant_message.tool_calls] of
    [process_message], from the [i]-th call on; it yields
    [executed_tool_calls]. [duration_ms i] is the time measured around the
    [i]-th call and [clk i] are the readings its handler makes of the
    clock. *)
Fixpoint execute_tool_calls (ctx : MCPContext.t)
    (json_loads : string → outcome value) (duration_ms : nat → Z)
    (clk : nat → clock) (i : nat) (tool_calls : list tool_call)
  : Call (list value) :=
  match tool_calls with
  | [] => mret []
  | tc :: rest =>
      let tool_name := tool_call_name tc in
      tool_args ←
        followed (λ rows,
          (decode_arguments json_loads (tool_call_arguments tc), rows));
      tool_result ← execute_tool ctx tool_name tool_args (clk i);
      executed ←
        execute_tool_calls ctx json_loads duration_ms clk (S i) rest;
      mret (VDict [("tool", VStr tool_name);
                   ("parameters", tool_args);
                   ("result", tool_result);
                   ("duration_ms", VInt (duration_ms i))] :: executed)
  end.

(** [AgentService.process_message], given what the completion provider
    answers: [first] is the outcome of the first call (after its retries),
    [final] that of the call made after the tools have run. [model] is
    [self.model]. *)
Definition process_message (ctx : MCPContext.t) (model : string)
    (json_loads : string → outcome value) (duration_ms : nat → Z)
    (clk : nat → clock) (first final : outcome completion) : Call value :=
  call_try_except
    (match first with
     | Raise e => followed (raise e)
     | Return response =>
         match message_tool_calls response with
         | [] =>
             mret (VDict [("content", VStr (default "" (message_content response)));
                          ("tool_calls", VNone);
                          ("model", VStr model);
                          ("finish_reason", VStr (finish_reason response))])
         | tool_calls =>
             executed_tool_calls ←
               execute_tool_calls ctx json_loads duration_ms clk 0%nat tool_calls;
             match final with
             | Raise e => followed (raise e)
             | Return final_response =>
                 mret (VDict [("content",
                               VStr (default "" (message_content final_response)));
                              ("tool_calls",
                               match executed_tool_calls with
                               | [] => VNone
                               | _ => VList executed_tool_calls
                               end);
                              ("model", VStr model);
                              ("finish_reason",
                               VStr (finish_reason final_response))])
             end
         end
     end)
    (λ e, followed (raise e)).

End AgentService.

(** ** Conversations and messages ([models/conversation.py],
       [models/message.py]) *)

Inductive MessageRole : Type := USER | ASSISTANT.

#[global] Instance MessageRole_eq_dec : EqDecision MessageRole.
Proof. solve_decision. Defined.

Definition role_value (r : MessageRole) : string :=
  match r with
  | USER => "user"
  | ASSISTANT => "assistant"
  end.

Module Conversation.
Record t : Type := Build {
  id : Z;
  user_id : Z;
  title : option string;
  created_at : datetime;
  updated_at : datetime;
  deleted_at : option datetime
}.
End Conversation.

Module Message.
Record t : Type := Build {
  id : Z;
  conversation_id : Z;
  role : MessageRole;
  content : string;
  tool_calls : value;
  sequence_number : Z;
  created_at : datetime;
  deleted_at : option datetime
}.
End Message.

(** The [conversations] table by primary key and the [messages] table in
    insertion order. *)
Record chat_db : Type := ChatDb {
  conversations : gmap Z Conversation.t;
  messages : list Message.t
}.

(** [func.max] over a column: [None] when there is no row. *)
Definition func_max (col : list Z) : option Z :=
  foldr (λ x acc, Some (match acc with
                        | None => x
                        | Some y => Z.max x y
                        end)) None col.

(** The primary key a new row of [messages] gets. *)
Definition fresh_message_id (msgs : list Message.t) : Z :=
  1 + default 0 (func_max (Message.id <$> msgs)).

(** The primary key a new row of [conversations] gets. *)
Definition fresh_conversation_id (convs : gmap Z Conversation.t) : Z :=
  1 + map_fold (λ k _ acc, Z.max k acc) 0 convs.

(** [UPDATE messages ... WHERE id = message.id] *)
Definition update_message (m' : Message.t) (msgs : list Message.t)
  : list Message.t :=
  (λ m, if bool_decide (Message.id m = Message.id m') then m' else m) <$> msgs.

(** [ORDER BY sequence_number ASC] and [ORDER BY created_at DESC] *)
Definition sequence_asc (a b : Message.t) : Prop :=
  Message.sequence_number a ≤ Message.sequence_number b.

Definition created_desc (a b : Message.t) : Prop :=
  Message.created_at b ≤ Message.created_at a.

#[global] Instance sequence_asc_dec a b : Decision (sequence_asc a b) :=
  decide (Message.sequence_number a ≤ Message.sequence_number b).

#[global] Instance created_desc_dec a b : Decision (created_desc a b) :=
  decide (Message.created_at b ≤ Message.created_at a).

Module ConversationService.

(** [get_conversation] *)
Definition get_conversation (conversation_id user_id : Z) (db : chat_db)
  : option Conversation.t :=
  match conversations db !! conversation_id with
  | Some c =>
      if bool_decide (Conversation.user_id c = user_id) then Some c else None
  | None => None
  end.

(** [_get_next_sequence_number] *)
Definition _get_next_sequence_number (conversation_id : Z) (db : chat_db) : Z :=
  let max_sequence :=
    func_max (Message.sequence_number <$>
                filter (λ m, Message.conversation_id m = conversation_id)
                       (messages db)) in
  match max_sequence with
  | None => 1
  | Some max_sequence => max_sequence + 1
  end.

(** [create_message]; [now] is read for the message and [now'] for the
    conversation. *)
Definition create_message (conversation_id user_id : Z) (role : MessageRole)
    (content : string) (tool_calls : value) (now now' : datetime)
    (db : chat_db) : option Message.t * chat_db :=
  match get_conversation conversation_id user_id db with
  | None => (None, db)
  | Some conversation =>
      let sequence_number := _get_next_sequence_number conversation_id db in
      let message :=
        Message.Build (fresh_message_id (messages db)) conversation_id role
          content tool_calls sequence_number now None in
      let conversation :=
        Conversation.Build (Conversation.id conversation)
          (Conversation.user_id conversation) (Conversation.title conversation)
          (Conversation.created_at conversation) now'
          (Conversation.deleted_at conversation) in
      (Some message,
       ChatDb (<[Conversation.id conversation := conversation]> (conversations db))
              (messages db ++ [message]))
  end.

(** [soft_delete_message] *)
Definition soft_delete_message (message_id conversation_id user_id : Z)
    (now : datetime) (db : chat_db) : bool * chat_db :=
  match get_conversation conversation_id user_id db with
  | None => (false, db)
  | Some _ =>
      match head (filter (λ m, Message.id m = message_id
                               ∧ Message.conversation_id m = conversation_id)
                         (messages db)) with
      | None => (false, db)
      | Some message =>
          let message :=
            Message.Build (Message.id message) (Message.conversation_id message)
              (Message.role message) (Message.content message)
              (Message.tool_calls message) (Message.sequence_number message)
              (Message.created_at message) (Some now) in
          (true, ChatDb (conversations db) (update_message message (messages db)))
      end
  end.

(** [get_conversation_history] *)
Definition get_conversation_history (conversation_id user_id : Z)
    (include_deleted : bool) (db : chat_db) : list Message.t :=
  match get_conversation conversation_id user_id db with
  | None => []
  | Some _ =>
      let rows :=
        filter (λ m, Message.conversation_id m = conversation_id) (messages db) in
      let rows :=
        if include_deleted then rows
        else filter (λ m, Message.deleted_at m = None) rows in
      merge_sort sequence_asc rows
  end.

End ConversationService.

(** ** Chat endpoints ([api/chat.py]) *)

(** [len(session.exec(message_count_stmt).all())], the count both endpoints
    number a new message from. *)
Definition existing_message_count (conversation_id : Z) (msgs : list Message.t)
  : Z :=
  Z.of_nat (length (filter (λ m, Message.conversation_id m = conversation_id
                                 ∧ Message.deleted_at m = None) msgs)).

(** The last 20 live messages, newest first, then reversed. *)
Definition history_messages (conversation_id : Z) (msgs : list Message.t)
  : list Message.t :=
  reverse (take 20
    (merge_sort created_desc
       (filter (λ m, Message.conversation_id m = conversation_id
                     ∧ Message.deleted_at m = None) msgs))).

(** [format_conversation_history] *)
Definition format_conversation_history (msgs : list Message.t)
  : list (string * string) :=
  (λ m, (role_value (Message.role m), Message.content m)) <$> msgs.

(** The names bound at module level in [api/chat.py]: its imports, then its
    own definitions. None of the Python builtins is called
    [CohereAgentService] either. *)
Definition chat_module_globals : list string :=
  ["APIRouter"; "Depends"; "HTTPException"; "status"; "Request"; "Response";
   "StreamingResponse"; "Session"; "select"; "Dict"; "AsyncGenerator";
   "datetime"; "json"; "logging";
   "get_session"; "get_current_user"; "rate_limit_middleware";
   "Conversation"; "Message"; "MessageRole"; "ChatRequest"; "ChatResponse";
   "AgentService";
   "logger"; "router"; "chat"; "chat_stream"; "list_conversations";
   "get_conversation_messages"].

(** Looking a global name up when the function body runs. *)
Definition load_global (name : string) : outcome unit :=
  if bool_decide (name ∈ chat_module_globals) then Return tt
  else Raise (Exn "NameError" ("name '" +:+ name +:+ "' is not defined")).

Record ChatRequest : Type := Build_ChatRequest {
  request_message : string;
  request_conversation_id : option Z
}.

(** [content[i:i + chunk_size] for i in range(0, len(content), chunk_size)] *)
Fixpoint chunks (fuel : nat) (chunk_size : nat) (content : string) : list string :=
  match fuel with
  | O => []
  | S fuel' =>
      match content with
      | EmptyString => []
      | _ =>
          String.substring 0 chunk_size content
          :: chunks fuel' chunk_size
               (String.substring chunk_size
                  (String.length content - chunk_size) content)
      end
  end.

Definition error_event (msg : string) : value :=
  VDict [("error", VStr msg); ("done", VBool true)].

Definition content_event (chunk : string) : value :=
  VDict [("content", VStr chunk); ("done", VBool false)].

(** The conversation a streaming request works on: the one it names, which
    may be refused with an event, or a new one. *)
Definition stream_conversation (user_id : Z) (request : ChatRequest)
    (now : datetime) (db : chat_db) : value + (Conversation.t * chat_db) :=
  match request_conversation_id request with
  | Some cid =>
      if bool_decide (cid = 0)
      then
        let conversation :=
          Conversation.Build (fresh_conversation_id (conversations db)) user_id
            None now now None in
        inr (conversation,
             ChatDb (<[Conversation.id conversation := conversation]>
                       (conversations db)) (messages db))
      else
        match conversations db !! cid with
        | None => inl (error_event "Conversation not found")
        | Some conversation =>
            if bool_decide (Conversation.user_id conversation ≠ user_id)
            then inl (error_event "Conversation not found")
            else if bool_decide (Conversation.deleted_at conversation ≠ None)
            then inl (error_event "Conversation was deleted")
            else inr (conversation, db)
        end
  | None =>
      let conversation :=
        Conversation.Build (fresh_conversation_id (conversations db)) user_id
          None now now None in
      inr (conversation,
           ChatDb (<[Conversation.id conversation := conversation]>
                     (conversations db)) (messages db))
  end.

(** [event_generator] of [chat_stream], after the path [user_id] has been
    checked against the token. [agent] stands for
    [agent_service.process_message] and answers with the content and the
    tool calls; [utcnow] gives the successive readings of the clock. The
    store itself is taken to answer every statement. The result is the list
    of events sent and the tables left behind. *)
Definition event_generator (user_id : Z) (request : ChatRequest)
    (agent : string → list (string * string) → outcome (string * value))
    (utcnow : nat → datetime) (db : chat_db) : list value * chat_db :=
  match stream_conversation user_id request (utcnow 0%nat) db with
  | inl event => ([event], db)
  | inr (conversation, db) =>
      let cid := Conversation.id conversation in
      let user_seq := existing_message_count cid (messages db) + 1 in
      let user_message :=
        Message.Build (fresh_message_id (messages db)) cid USER
          (request_message request) VNone user_seq (utcnow 1%nat) None in
      let db := ChatDb (conversations db) (messages db ++ [user_message]) in
      let history := history_messages cid (messages db) in
      match load_global "CohereAgentService" with
      | Raise e => ([error_event (exn_str e)], db)
      | Return _ =>
          let conversation_history := format_conversation_history history in
          match agent (request_message request)
                      (removelast conversation_history) with
          | Raise e => ([error_event (exn_str e)], db)
          | Return (content, tool_calls) =>
              let chunk_events : list value :=
                content_event <$> chunks (String.length content) 10 content in
              let assistant_message :=
                Message.Build (fresh_message_id (messages db)) cid ASSISTANT
                  content tool_calls (user_seq + 1) (utcnow 2%nat) None in
              let conversation :=
                Conversation.Build cid (Conversation.user_id conversation)
                  (Conversation.title conversation)
                  (Conversation.created_at conversation) (utcnow 3%nat)
                  (Conversation.deleted_at conversation) in
              ((chunk_events
                 ++ [VDict [("done", VBool true);
                            ("conversation_id", VInt cid);
                            ("message_id", VInt (Message.id assistant_message));
                            ("tool_calls", tool_calls);
                            ("timestamp",
                             VIsoformat (Message.created_at assistant_message))]]
               )%list,
               ChatDb (<[cid := conversation]> (conversations db))
                      (messages db ++ [assistant_message]))
          end
      end
  end.

(** ** Shapes of results *)

(** The result is a dict whose ["status"] is ["success"] or ["error"]. *)
Definition status_envelope (v : value) : Prop :=
  result_status v = Some (VStr "success") ∨ result_status v = Some (VStr "error").

(** The session returns (it does not raise) a result in the envelope. *)
Definition returns_envelope (call : Session value) (rows : gmap Z Task.t) : Prop :=
  ∃ r, (call rows).1 = Return r ∧ status_envelope r.

(** The success shape of [list_tasks]: the four documented keys, and no
    ["status"]. *)
Definition listing_shape (v : value) : Prop :=
  result_status v = None
  ∧ is_Some (dict_get "tasks" (dict_of v))
  ∧ is_Some (dict_get "total" (dict_of v))
  ∧ is_Some (dict_get "completed_count" (dict_of v))
  ∧ is_Some (dict_get "pending_count" (dict_of v)).

(** The failure shape of [list_tasks]: status ["error"] with an error text,
    an empty [tasks] and the three counts at 0. *)
Definition failed_listing_shape (v : value) : Prop :=
  result_status v = Some (VStr "error")
  ∧ is_Some (result_error v)
  ∧ dict_get "tasks" (dict_of v) = Some (VList [])
  ∧ dict_get "total" (dict_of v) = Some (VInt 0)
  ∧ dict_get "completed_count" (dict_of v) = Some (VInt 0)
  ∧ dict_get "pending_count" (dict_of v) = Some (VInt 0).

(** The session returns an error result whose message is
    ["Database error: "] followed by [str(e)]. *)
Definition reports_exception_text (call : Session value) (e : exn)
    (rows : gmap Z Task.t) : Prop :=
  ∃ r, (call rows).1 = Return r
       ∧ result_status r = Some (VStr "error")
       ∧ result_error r = Some (VStr ("Database error: " +:+ exn_str e)).

(** ** Runs of the conversation service *)

Inductive service_call : Type :=
| CreateMessage (conversation_id user_id : Z) (role : MessageRole)
    (content : string) (tool_calls : value) (now now' : datetime)
| SoftDeleteMessage (message_id conversation_id user_id : Z) (now : datetime).

Definition service_step (db : chat_db) (c : service_call) : chat_db :=
  match c with
  | CreateMessage conversation_id user_id role content tool_calls now now' =>
      (ConversationService.create_message conversation_id user_id role content
         tool_calls now now' db).2
  | SoftDeleteMessage message_id conversation_id user_id now =>
      (ConversationService.soft_delete_message message_id conversation_id
         user_id now db).2
  end.

Definition service_run (calls : list service_call) (db : chat_db) : chat_db :=
  foldl service_step db calls.

(** The sequence numbers of a conversation, in insertion order: of all its
    messages, and of those not soft-deleted. *)
Definition sequence_numbers (conversation_id : Z) (msgs : list Message.t)
  : list Z :=
  Message.sequence_number <$>
    filter (λ m, Message.conversation_id m = conversation_id) msgs.

Definition live_sequence_numbers (conversation_id : Z) (msgs : list Message.t)
  : list Z :=
  Message.sequence_number <$>
    filter (λ m, Message.deleted_at m = None)
      (filter (λ m, Message.conversation_id m = conversation_id) msgs).

(** [1, 2, ..., n] *)
Definition numbers_upto (n : nat) : list Z := Z.of_nat <$> seq 1 n.

(** The invariant of the [messages] table: primary keys are distinct and
    every conversation is numbered [1..n] in insertion order. *)
Definition numbered (db : chat_db) : Prop :=
  NoDup (Message.id <$> messages db)
  ∧ ∀ cid, sequence_numbers cid (messages db)
           = numbers_upto (length (sequence_numbers cid (messages db))).

(** ** Reading a listing *)

(** [task["completed"]] of one entry of a listing. *)
Definition dict_completed (d : value) : bool :=
  match dict_get "completed" (dict_of d) with
  | Some (VBool true) => true
  | _ => false
  end.

(** [[task["id"] for task in result["tasks"]]] *)
Definition result_task_ids (v : value) : list value :=
  omap (λ d, dict_get "id" (dict_of d)) (result_tasks v).

(** ** What a user can see of a change *)

(** The rows of every user other than [uid] are the same in both tables:
    none created, none altered, none deleted. *)
Definition others_unchanged (uid : Z) (rows rows' : gmap Z Task.t) : Prop :=
  ∀ k r, Task.user_id r ≠ uid → (rows' !! k = Some r ↔ rows !! k = Some r).

(** A session that keeps the table well formed and the rows of the other
    users unchanged, whatever it returns or raises. *)
Definition confined {A} (uid : Z) (s : Session A) : Prop :=
  ∀ rows, table_wf rows →
          table_wf (s rows).2 ∧ others_unchanged uid rows (s rows).2.

(** Every result the session returns satisfies [P]. *)
Definition yields {A} (P : A → Prop) (s : Session A) : Prop :=
  ∀ rows a, (s rows).1 = Return a → P a.







(** [tool_call["tool"]] of an entry of [executed_tool_calls]. *)
Definition executed_tool (v : value) : option value :=
  dict_get "tool" (dict_of v).

(** [tool_call["parameters"]] of an entry of [executed_tool_calls]. *)
Definition executed_parameters (v : value) : option value :=
  dict_get "parameters" (dict_of v).

(** ** The rest of [ConversationService] *)

Definition updated_desc (a b : Conversation.t) : Prop :=
  Conversation.updated_at b ≤ Conversation.updated_at a.

#[global] Instance updated_desc_dec a b : Decision (updated_desc a b) :=
  decide (Conversation.updated_at b ≤ Conversation.updated_at a).

(** [ConversationService.create_conversation] *)
Definition create_conversation (user_id : Z) (now now' : datetime) (db : chat_db)
  : Conversation.t * chat_db :=
  let conversation :=
    Conversation.Build (fresh_conversation_id (conversations db)) user_id None
      now now' None in
  (conversation,
   ChatDb (<[Conversation.id conversation := conversation]> (conversations db))
          (messages db)).

(** What the store may answer to [ORDER BY updated_at DESC]: the rows in an
    order sorted by [updated_at], newest first. The order among rows of
    equal [updated_at] is the store's choice, query by query. *)
Definition orders_by_updated_desc
    (order_by : list Conversation.t → list Conversation.t) : Prop :=
  ∀ rows, order_by rows ≡ₚ rows ∧ StronglySorted updated_desc (order_by rows).

(** [ConversationService.list_conversations]: the rows of the user in the
    order [order_by] the store gives them for this query, then
    [OFFSET offset] and [LIMIT limit]. *)
Definition list_conversations
    (order_by : list Conversation.t → list Conversation.t)
    (user_id : Z) (limit offset : nat) (db : chat_db)
  : list Conversation.t :=
  take limit
    (drop offset
       (order_by
          (filter (λ c, Conversation.user_id c = user_id)
                  ((map_to_list (conversations db)).*2)))).

(** No two conversations of the user have the same [updated_at]. *)
Definition distinct_updates (user_id : Z) (db : chat_db) : Prop :=
  NoDup (Conversation.updated_at
           <$> filter (λ c, Conversation.user_id c = user_id)
                      ((map_to_list (conversations db)).*2)).

(** [ConversationService.delete_conversation]; the [messages] relationship
    of [Conversation] is declared with [cascade_delete=True], so the
    messages of the conversation go with it. *)
Definition delete_conversation (conversation_id user_id : Z) (db : chat_db)
  : bool * chat_db :=
  match ConversationService.get_conversation conversation_id user_id db with
  | None => (false, db)
  | Some conversation =>
      (true,
       ChatDb (delete (Conversation.id conversation) (conversations db))
              (filter (λ m, Message.conversation_id m
                            ≠ Conversation.id conversation) (messages db)))
  end.

(** [ConversationService.get_message_count] *)
Definition get_message_count (conversation_id user_id : Z) (db : chat_db) : Z :=
  match ConversationService.get_conversation conversation_id user_id db with
  | None => 0
  | Some _ =>
      Z.of_nat (length (filter (λ m, Message.conversation_id m = conversation_id
                                     ∧ Message.deleted_at m = None)
                               (messages db)))
  end.

(** Conversations sit under their own primary key. *)
Definition conversations_wf (db : chat_db) : Prop :=
  map_Forall (λ k c, Conversation.id c = k) (conversations db).

#[global] Instance conversations_wf_dec db : Decision (conversations_wf db).
Proof.
  unfold conversations_wf. apply map_Forall_dec. intros k c. cbn. apply _.
Defined.

(** [message.deleted_at = now] *)
Definition mark_deleted (now : datetime) (m : Message.t) : Message.t :=
  Message.Build (Message.id m) (Message.conversation_id m) (Message.role m)
    (Message.content m) (Message.tool_calls m) (Message.sequence_number m)
    (Message.created_at m) (Some now).

(** ** Input validation ([utils/validation.py]) *)

From stdpp Require Import pretty.

Local Open Scope string_scope.
Local Open Scope list_scope.
Local Open Scope Z_scope.

Definition ValueError (msg : string) : exn := Exn "ValueError" msg.

(** [s.replace(old, new)] for an [old] of one character. *)
Fixpoint replace_char (old : ascii) (new : string) (s : string) : string :=
  match s with
  | EmptyString => EmptyString
  | String c s' =>
      if Ascii.eqb c old then new +:+ replace_char old new s'
      else String c (replace_char old new s')
  end.

Definition quotation_mark : ascii := "034".
Definition apostrophe : ascii := "039".
Definition nul : ascii := "000".
Definition space : ascii := " ".

(** [html.escape(s)]: the five replacements of the standard library, in its
    order, the ampersand first. *)
Definition html_escape (s : string) : string :=
  replace_char apostrophe "&#x27;"
    (replace_char quotation_mark "&quot;"
       (replace_char ">" "&gt;"
          (replace_char "<" "&lt;"
             (replace_char "&" "&amp;" s)))).

(** [re.sub(r'\s+', ' ', s)]: every maximal run of white space becomes one
    space; [in_run] says that the previous character was white space. *)
Fixpoint collapse_whitespace (in_run : bool) (s : string) : string :=
  match s with
  | EmptyString => EmptyString
  | String c s' =>
      if Py.isspace c
      then if in_run then collapse_whitespace true s'
           else String space (collapse_whitespace true s')
      else String c (collapse_whitespace false s')
  end.

(** [sanitize_message_content] *)
Definition sanitize_message_content (content : string) (max_length : Z)
  : outcome string :=
  if negb (Py.truthy (Some content))
  then Raise (ValueError "Message content must be a non-empty string")
  else
    let content := Py.strip content in
    if Py.str_eqb content ""
    then Raise (ValueError "Message content cannot be empty")
    else if max_length <? Py.len content
    then Raise (ValueError ("Message content exceeds " +:+ pretty max_length
                            +:+ " characters"))
    else
      let content := html_escape content in
      let content := replace_char nul "" content in
      Return (collapse_whitespace false content).

(** [validate_conversation_id] *)
Definition validate_conversation_id (conversation_id : option Z)
  : outcome (option Z) :=
  match conversation_id with
  | None => Return None
  | Some n =>
      if n <=? 0 then Raise (ValueError "Conversation ID must be positive")
      else Return (Some n)
  end.

(** [validate_task_title] *)
Definition validate_task_title (title : string) (max_length : Z)
  : outcome string :=
  if negb (Py.truthy (Some title))
  then Raise (ValueError "Title must be a non-empty string")
  else
    let title := Py.strip title in
    if Py.str_eqb title ""
    then Raise (ValueError "Title cannot be empty")
    else if max_length <? Py.len title
    then Raise (ValueError ("Title exceeds " +:+ pretty max_length
                            +:+ " characters"))
    else Return (replace_char nul "" (html_escape title)).

(** [validate_task_description] *)
Definition validate_task_description (description : option string)
    (max_length : Z) : outcome (option string) :=
  match description with
  | None | Some EmptyString => Return None
  | Some description =>
      let description := Py.strip description in
      if Py.str_eqb description ""
      then Return None
      else if max_length <? Py.len description
      then Raise (ValueError ("Description exceeds " +:+ pretty max_length
                              +:+ " characters"))
      else Return (Some (replace_char nul "" (html_escape description)))
  end.

(** The characters of a string. *)
Fixpoint chars (s : string) : list ascii :=
  match s with
  | EmptyString => []
  | String c s' => c :: chars s'
  end.

(** No two white-space characters in a row. *)
Fixpoint single_spaced (s : string) : bool :=
  match s with
  | String c ((String c' _) as s') =>
      negb (Py.isspace c && Py.isspace c') && single_spaced s'
  | _ => true
  end.

(** ** The request model ([schemas/chat.py]) *)

(** [ChatRequest(message=..., conversation_id=...)]: the length bounds of
    the [message] field, then its validator [validate_message]. [None] is
    the validation error of the framework. *)
Definition ChatRequest_validate (message : string) (conversation_id : option Z)
  : option ChatRequest :=
  if (Py.len message <? 1) || (2000 <? Py.len message) then None
  else
    let v := message in
    if negb (Py.truthy (Some v)) || Py.str_eqb (Py.strip v) "" then None
    else Some (Build_ChatRequest (Py.strip v) conversation_id).

(** ** The chat endpoint ([api/chat.py]) *)

(** [c.lower()] on one character (code points below 256). *)
Definition lower_char (c : ascii) : ascii :=
  let n := Z.of_N (N_of_ascii c) in
  if ((65 <=? n) && (n <=? 90))
     || ((192 <=? n) && (n <=? 222) && negb (n =? 215))
  then ascii_of_N (N_of_ascii c + 32)
  else c.

(** [s.lower()] *)
Fixpoint lower (s : string) : string :=
  match s with
  | EmptyString => EmptyString
  | String c s' => String (lower_char c) (lower s')
  end.

(** [needle in hay] *)
Fixpoint contains (needle hay : string) : bool :=
  String.prefix needle hay
  || match hay with
     | EmptyString => false
     | String _ hay' => contains needle hay'
     end.

(** The [detail] chosen for an exception of the agent. *)
Definition agent_error_message (e : exn) : string :=
  let error_message := "Agent processing failed" in
  if contains "rate_limit" (lower (exn_str e))
  then "AI service is currently busy. Please try again in a moment."
  else if contains "api_key" (lower (exn_str e))
          || contains "authentication" (lower (exn_str e))
  then "AI service configuration error. Please contact support."
  else if contains "timeout" (lower (exn_str e))
  then "AI service is taking too long to respond. Please try again."
  else if contains "connection" (lower (exn_str e))
  then "Unable to connect to AI service. Please try again."
  else error_message.

(** What [await asyncio.wait_for(..., timeout=30.0)] gives: the outcome of
    the awaited call, or [asyncio.TimeoutError]. *)
Inductive awaited (A : Type) : Type :=
| Completed (o : outcome A)
| TimedOut.
Arguments Completed {A} o.
Arguments TimedOut {A}.

(** [HTTPException]; of the headers only [X-Error-Details] is kept. *)
Record HTTPException : Type := Build_HTTPException {
  status_code : Z;
  detail : string;
  x_error_details : option string
}.

Record ChatResponse : Type := Build_ChatResponse {
  response_conversation_id : Z;
  response_message_id : Z;
  response_assistant_message : string;
  response_tool_calls : value;
  response_timestamp : datetime
}.

(** The block [try: sanitize_message_content ... validate_conversation_id
    ... except ValueError] of [chat]. *)
Definition chat_validate (chat_request : ChatRequest)
  : HTTPException + string :=
  match sanitize_message_content (request_message chat_request) 2000 with
  | Raise e => inl (Build_HTTPException 400 (exn_str e) None)
  | Return sanitized_message =>
      match validate_conversation_id (request_conversation_id chat_request) with
      | Raise e => inl (Build_HTTPException 400 (exn_str e) None)
      | Return _ => inr sanitized_message
      end
  end.

(** The conversation a [chat] request works on: the one it names, which may
    be refused, or a new one. *)
Definition chat_conversation (user_id : Z) (chat_request : ChatRequest)
    (utcnow : nat → datetime) (db : chat_db)
  : HTTPException + (Conversation.t * chat_db) :=
  let create :=
    let conversation :=
      Conversation.Build (fresh_conversation_id (conversations db)) user_id
        None (utcnow 0%nat) (utcnow 1%nat) None in
    inr (conversation,
         ChatDb (<[Conversation.id conversation := conversation]>
                   (conversations db)) (messages db)) in
  match request_conversation_id chat_request with
  | Some cid =>
      if bool_decide (cid = 0) then create
      else
        match conversations db !! cid with
        | None =>
            inl (Build_HTTPException 404 "Conversation not found"
                   (Some ("conversation_id " +:+ pretty cid
                          +:+ " does not exist")))
        | Some conversation =>
            if bool_decide (Conversation.user_id conversation ≠ user_id)
            then inl (Build_HTTPException 403 "Permission denied"
                        (Some "Conversation belongs to different user"))
            else if bool_decide (Conversation.deleted_at conversation ≠ None)
            then inl (Build_HTTPException 404 "Conversation not found"
                        (Some "Conversation was deleted"))
            else inr (conversation, db)
        end
  | None => create
  end.

(** [chat]. [current_user_id] is [current_user["user_id"]] of the token,
    [allowed] the verdict of the rate limiter, [agent] stands for
    [agent_service.process_message] under [asyncio.wait_for] and answers
    with the content and the tool calls, and [utcnow i] is the reading of
    the clock at the [i]-th [datetime.utcnow()] of the body. The store
    itself is taken to answer every statement. The result is the response
    or the [HTTPException] raised, and the tables left behind. *)
Definition chat (user_id : Z) (chat_request : ChatRequest)
    (current_user_id : Z) (allowed : bool)
    (agent : string → list (string * string) → awaited (string * value))
    (utcnow : nat → datetime) (db : chat_db)
  : (HTTPException + ChatResponse) * chat_db :=
  if negb allowed
  then (inl (Build_HTTPException 429 "Rate limit exceeded" None), db)
  else if bool_decide (current_user_id ≠ user_id)
  then (inl (Build_HTTPException 403 "Permission denied"
               (Some "URL user_id does not match authenticated user")), db)
  else
    match chat_validate chat_request with
    | inl err => (inl err, db)
    | inr sanitized_message =>
        match chat_conversation user_id chat_request utcnow db with
        | inl err => (inl err, db)
        | inr (conversation, db) =>
            let cid := Conversation.id conversation in
            let next_sequence_number :=
              existing_message_count cid (messages db) + 1 in
            let user_message :=
              Message.Build (fresh_message_id (messages db)) cid USER
                (request_message chat_request) VNone next_sequence_number
                (utcnow 2%nat) None in
            let db := ChatDb (conversations db) (messages db ++ [user_message]) in
            let history_messages := history_messages cid (messages db) in
            let conversation_history :=
              format_conversation_history history_messages in
            match agent sanitized_message (removelast conversation_history) with
            | TimedOut =>
                (inl (Build_HTTPException 504
                        "Agent processing timeout - request took longer than 30 seconds"
                        None), db)
            | Completed (Raise e) =>
                (inl (Build_HTTPException 500 (agent_error_message e)
                        (Some (exn_str e))), db)
            | Completed (Return (content, tool_calls)) =>
                let assistant_sequence_number := next_sequence_number + 1 in
                let assistant_message :=
                  Message.Build (fresh_message_id (messages db)) cid ASSISTANT
                    content tool_calls assistant_sequence_number
                    (utcnow 3%nat) None in
                let conversation :=
                  Conversation.Build cid (Conversation.user_id conversation)
                    (Conversation.title conversation)
                    (Conversation.created_at conversation) (utcnow 4%nat)
                    (Conversation.deleted_at conversation) in
                (inr (Build_ChatResponse cid (Message.id assistant_message)
                        content tool_calls
                        (Message.created_at assistant_message)),
                 ChatDb (<[cid := conversation]> (conversations db))
                        (messages db ++ [assistant_message]))
            end
        end
    end.

(** No message of the table is soft-deleted. *)
Definition none_deleted (db : chat_db) : Prop :=
  Forall (λ m, Message.deleted_at m = None) (messages db).

(** A run of [chat] requests, each with its caller, its agent and its
    clock. *)
Record chat_call : Type := ChatCall {
  call_user_id : Z;
  call_request : ChatRequest;
  call_current_user_id : Z;
  call_allowed : bool;
  call_agent : string → list (string * string) → awaited (string * value);
  call_utcnow : nat → datetime
}.

Definition chat_run (calls : list chat_call) (db : chat_db) : chat_db :=
  foldl (λ db c, (chat (call_user_id c) (call_request c)
                       (call_current_user_id c) (call_allowed c)
                       (call_agent c) (call_utcnow c) db).2) db calls.

(** None of the characters the validators escape or remove. *)
Definition markup_free (s : string) : Prop :=
  ∀ x, x ∈ chars s →
       x ≠ "<"%char ∧ x ≠ ">"%char ∧ x ≠ quotation_mark ∧ x ≠ apostrophe
       ∧ x ≠ nul.

(** ** The listing endpoints ([api/chat.py]) *)

Definition created_asc (a b : Message.t) : Prop :=
  Message.created_at a ≤ Message.created_at b.

#[global] Instance created_asc_dec a b : Decision (created_asc a b) :=
  decide (Message.created_at a ≤ Message.created_at b).

Module Api.

(** An entry of ["conversations"]: [id], [title], [created_at],
    [updated_at]. *)
Definition conversation_entry (conv : Conversation.t)
  : Z * option string * datetime * datetime :=
  (Conversation.id conv, Conversation.title conv, Conversation.created_at conv,
   Conversation.updated_at conv).

(** [list_conversations]: the entries and ["total"]. *)
Definition list_conversations (user_id current_user_id : Z) (db : chat_db)
  : HTTPException + (list (Z * option string * datetime * datetime) * Z) :=
  if bool_decide (current_user_id ≠ user_id)
  then inl (Build_HTTPException 403 "Permission denied" None)
  else
    let conversations :=
      merge_sort updated_desc
        (filter (λ c, Conversation.user_id c = user_id
                      ∧ Conversation.deleted_at c = None)
                ((map_to_list (conversations db)).*2)) in
    inr (conversation_entry <$> conversations,
         Z.of_nat (length conversations)).

(** An entry of ["messages"]: [id], [role], [content], [tool_calls],
    [created_at]. *)
Definition message_entry (msg : Message.t)
  : Z * string * string * value * datetime :=
  (Message.id msg, role_value (Message.role msg), Message.content msg,
   Message.tool_calls msg, Message.created_at msg).

(** [get_conversation_messages]: ["conversation_id"], the entries and
    ["total"]. *)
Definition get_conversation_messages (user_id conversation_id
    current_user_id : Z) (db : chat_db)
  : HTTPException
    + (Z * list (Z * string * string * value * datetime) * Z) :=
  if bool_decide (current_user_id ≠ user_id)
  then inl (Build_HTTPException 403 "Permission denied" None)
  else
    match conversations db !! conversation_id with
    | None => inl (Build_HTTPException 404 "Conversation not found" None)
    | Some conversation =>
        if bool_decide (Conversation.user_id conversation ≠ user_id)
        then inl (Build_HTTPException 404 "Conversation not found" None)
        else
          let messages :=
            merge_sort created_asc
              (filter (λ m, Message.conversation_id m = conversation_id
                            ∧ Message.deleted_at m = None) (messages db)) in
          inr (conversation_id, message_entry <$> messages,
               Z.of_nat (length messages))
    end.

End Api.

(** ** The retention job ([jobs/cleanup_conversations.py]) *)

(** [Conversation.deleted_at.is_not(None)] and
    [Conversation.deleted_at < cutoff_date] *)
Definition expired (cutoff_date : datetime) (c : Conversation.t) : Prop :=
  match Conversation.deleted_at c with
  | Some deleted_at => deleted_at < cutoff_date
  | None => False
  end.

#[global] Instance expired_dec cutoff_date c : Decision (expired cutoff_date c).
Proof. unfold expired. destruct (Conversation.deleted_at c); apply _. Defined.

(** [select(Message).where(Message.conversation_id == conversation.id)] *)
Definition messages_of (conversation_id : Z) (db : chat_db) : list Message.t :=
  filter (λ m, Message.conversation_id m = conversation_id) (messages db).

(** One round of the deleting loop: the messages of the conversation are
    counted and deleted, then the conversation itself. *)
Definition delete_with_messages (acc : Z * chat_db)
    (conversation : Conversation.t) : Z * chat_db :=
  let message_count := acc.1 in
  let db := acc.2 in
  let selected := messages_of (Conversation.id conversation) db in
  (message_count + Z.of_nat (length selected),
   ChatDb (delete (Conversation.id conversation) (conversations db))
          (filter (λ m, Message.conversation_id m
                        ≠ Conversation.id conversation) (messages db))).

(** [conversations_to_delete] *)
Definition conversations_to_delete (cutoff_date : datetime) (db : chat_db)
  : list Conversation.t :=
  filter (expired cutoff_date) ((map_to_list (conversations db)).*2).

(** [cleanup_old_conversations]; [cutoff_date] is the reading of the clock
    less 90 days. The result is the dict returned and the tables left
    behind. *)
Definition cleanup_old_conversations (dry_run : bool) (cutoff_date : datetime)
    (db : chat_db) : value * chat_db :=
  let conversations_to_delete := conversations_to_delete cutoff_date db in
  let conversation_count := Z.of_nat (length conversations_to_delete) in
  let counted :=
    if negb dry_run
    then foldl delete_with_messages (0, db) conversations_to_delete
    else (foldl (λ message_count conversation,
                   message_count
                   + Z.of_nat (length (messages_of (Conversation.id conversation)
                                         db)))
                0 conversations_to_delete, db) in
  (VDict [("conversations_deleted", VInt conversation_count);
          ("messages_deleted", VInt counted.1);
          ("cutoff_date", VIsoformat cutoff_date);
          ("dry_run", VBool dry_run)],
   counted.2).

(** [cleanup_orphaned_messages] *)
Definition cleanup_orphaned_messages (db : chat_db) : value * chat_db :=
  let conversation_ids :=
    Conversation.id <$> (map_to_list (conversations db)).*2 in
  let orphaned_messages :=
    filter (λ m, Message.conversation_id m ∉ conversation_ids) (messages db) in
  let count := Z.of_nat (length orphaned_messages) in
  (VDict [("orphaned_messages_deleted", VInt count)],
   ChatDb (conversations db)
          (filter (λ m, Message.conversation_id m ∈ conversation_ids)
                  (messages db))).

(** The conversation [cid] is in the table and has been soft-deleted before
    [cutoff_date]. *)
Definition expired_conversation (cutoff_date : datetime) (db : chat_db)
    (cid : Z) : Prop :=
  match conversations db !! cid with
  | Some c => expired cutoff_date c
  | None => False
  end.

#[global] Instance expired_conversation_dec cutoff_date db cid :
  Decision (expired_conversation cutoff_date db cid).
Proof.
  unfold expired_conversation. destruct (conversations db !! cid); apply _.
Defined.

(** Every message belongs to a conversation of the table. *)
Definition orphan_free (db : chat_db) : Prop :=
  Forall (λ m, is_Some (conversations db !! Message.conversation_id m))
         (messages db).

#[global] Instance orphan_free_dec db : Decision (orphan_free db).
Proof. unfold orphan_free. apply Forall_dec. intros m. apply _. Defined.
(** ** Sample data used by the examples *)

Definition alice : Z := 7.
Definition bob : Z := 8.

Definition alice_ctx : MCPContext.t := MCPContext.Build Connected alice.

Definition milk : Task.t := Task.Build 1 "Buy milk" None false alice 10 10.
Definition report : Task.t :=
  Task.Build 2 "Send report" (Some "quarterly") true bob 11 12.

Definition sample_table : gmap Z Task.t := <[2 := report]> (<[1 := milk]> ∅).


(** A store failure as SQLAlchemy reports it. *)
Definition no_such_table : exn :=
  Exn "OperationalError"
    "(sqlite3.OperationalError) no such table: tasks [SQL: SELECT tasks.id, tasks.title FROM tasks WHERE tasks.user_id = ?]".

Definition broken_ctx : MCPContext.t := MCPContext.Build (Failing no_such_table) alice.

(** One conversation of [alice], three messages, the second soft-deleted. *)
Definition talk : Conversation.t := Conversation.Build 1 alice None 5 5 None.

Definition three_then_delete : list service_call :=
  [CreateMessage 1 alice USER "add milk" VNone 10 10;
   CreateMessage 1 alice ASSISTANT "added" VNone 11 11;
   CreateMessage 1 alice USER "thanks" VNone 12 12;
   SoftDeleteMessage 2 1 alice 13].

Definition sample_chat_db : chat_db :=
  service_run three_then_delete (ChatDb {[1 := talk]} []).

Definition two_messages : list service_call :=
  [CreateMessage 1 alice USER "add milk" VNone 10 10;
   CreateMessage 1 alice ASSISTANT "added" VNone 11 11].

(** An agent that would answer, and a clock. *)
Definition sample_agent (message : string) (history : list (string * string))
  : outcome (string * value) :=
  Return ("I've added 'Buy milk' to your tasks.", VNone).

Definition sample_clock (n : nat) : datetime := 100 + Z.of_nat n.


(** Payloads of tool calls as the provider sends them, and what
    [json.loads] makes of them. *)
Definition quoted (s : string) : string :=
  String quotation_mark (s +:+ String quotation_mark "").

Definition payload_task_1 : string := "{" +:+ quoted "task_id" +:+ ": 1}".
Definition payload_task_2 : string := "{" +:+ quoted "task_id" +:+ ": 2}".
Definition payload_rename_2 : string :=
  "{" +:+ quoted "task_id" +:+ ": 2, " +:+ quoted "title" +:+ ": "
  +:+ quoted "mine now" +:+ "}".
Definition payload_cut_short : string := "{" +:+ quoted "task_id" +:+ ": 1".

Definition JSONDecodeError (msg : string) : exn := Exn "JSONDecodeError" msg.

Definition sample_json_loads (s : string) : outcome value :=
  if String.eqb s payload_task_1 then Return (VDict [("task_id", VInt 1)])
  else if String.eqb s payload_task_2 then Return (VDict [("task_id", VInt 2)])
  else if String.eqb s payload_rename_2
  then Return (VDict [("task_id", VInt 2); ("title", VStr "mine now")])
  else if String.eqb s "[1]" then Return (VList [VInt 1])
  else if String.eqb s payload_cut_short
  then Raise (JSONDecodeError
                "Expecting ',' delimiter: line 1 column 14 (char 13)")
  else Raise (JSONDecodeError "Expecting value: line 1 column 1 (char 0)").

(** The time measured around the [i]-th tool call, and the readings of the
    clock its handler makes. *)
Definition sample_durations (i : nat) : Z := 3 + Z.of_nat i.

Definition sample_clocks (i : nat) : datetime * datetime := (20, 21).

Definition final_reply : AgentService.completion :=
  AgentService.Completion (Some "Done.") [] "stop".

(** The table of [sample_chat_db] before the soft delete. *)
Definition three_messages_db : chat_db :=
  service_run (take 3 three_then_delete) (ChatDb {[1 := talk]} []).

(** Two conversations of [alice] and one of [bob]. *)
Definition several_conversations : chat_db :=
  ChatDb (<[3 := Conversation.Build 3 alice None 7 30 None]>
          (<[2 := Conversation.Build 2 bob None 6 20 None]>
           {[1 := talk]})) [].

(** A conversation of [alice] that she has deleted. *)
Definition with_deleted_conversation : chat_db :=
  ChatDb (<[4 := Conversation.Build 4 alice None 7 30 (Some 31)]>
          (conversations several_conversations)) [].


(** Agents for [chat]: one that answers, one whose provider fails, one that
    does not answer in time. *)
Definition answering_agent (message : string) (history : list (string * string))
  : awaited (string * value) :=
  Completed (Return ("I've added 'Buy milk' to your tasks.", VNone)).

Definition failing_agent (message : string) (history : list (string * string))
  : awaited (string * value) :=
  Completed (Raise (Exn "APIError" "Invalid API_KEY sk-1234 for org-77")).

Definition slow_agent (message : string) (history : list (string * string))
  : awaited (string * value) :=
  TimedOut.

(** Three requests of [alice]: a new conversation, a turn that fails, a
    turn in the conversation just made. *)
Definition three_turns : list chat_call :=
  [ChatCall alice (Build_ChatRequest "add milk" None) alice true
     answering_agent sample_clock;
   ChatCall alice (Build_ChatRequest "and eggs" (Some 1)) alice true
     failing_agent sample_clock;
   ChatCall alice (Build_ChatRequest "thanks" (Some 2)) alice true
     answering_agent sample_clock].

(** A conversation of [alice] deleted long ago and one deleted lately, each
    with messages, beside her live conversation [talk]. *)
Definition retention_db : chat_db :=
  ChatDb (<[3 := Conversation.Build 3 alice None 7 30 (Some 40)]>
          (<[2 := Conversation.Build 2 alice None 6 20 (Some 900)]>
           {[1 := talk]}))
         [Message.Build 1 1 USER "add milk" VNone 1 10 None;
          Message.Build 2 3 USER "old" VNone 1 31 None;
          Message.Build 3 2 USER "recent" VNone 1 21 None;
          Message.Build 4 3 ASSISTANT "older" VNone 2 32 (Some 33)].
(* ===================================================================== *)
(** * Properties *)
(* ===================================================================== *)

(** ** The handlers on the sample table *)

Example strip_both_ends : Py.strip "  Buy milk 	" = "Buy milk".
Proof. reflexivity. Qed.

Example create_buy_milk :
  (create_task_internal alice_ctx (Some "Buy milk") (Some "") 20 20
     sample_table).1
  = Return (VDict [("status", VStr "success");
                   ("task", VDict [("id", VInt 3); ("title", VStr "Buy milk");
                                   ("description", VNone);
                                   ("completed", VBool false);
                                   ("created_at", VIsoformat 20);
                                   ("updated_at", VIsoformat 20)])]).
Proof. reflexivity. Qed.

Example create_empty_title :
  create_task_internal alice_ctx (Some "   ") (Some "") 20 20 sample_table
  = (Return (error_result "Title is required"), sample_table).
Proof. reflexivity. Qed.

Example get_invalid_id :
  get_task_internal alice_ctx (-1) sample_table
  = (Return (error_result "Invalid task ID"), sample_table).
Proof. reflexivity. Qed.

Example delete_then_get :
  get_task_internal alice_ctx 1 (delete_task_internal alice_ctx 1 sample_table).2
  = (Return task_not_found, delete 1 sample_table).
Proof. reflexivity. Qed.

(** A handler exception is turned into a result by the executor. *)
Example execute_tool_bad_arguments :
  AgentService.execute_tool alice_ctx "get_task" (VDict []) (20, 20) sample_table
  = Some (Return (VDict [("status", VStr "error");
                         ("error", VStr "get_task_internal() missing 1 required positional argument: 'task_id'")]),
          sample_table).
Proof. reflexivity. Qed.

(** Two proposed calls both run, in the order proposed. *)
Example two_tool_calls_in_order :
  ∃ r1 r2 rows',
    AgentService.execute_tool_calls alice_ctx sample_json_loads sample_durations
      sample_clocks 0
      [AgentService.ToolCall "call_1" "list_tasks" None;
       AgentService.ToolCall "call_2" "mark_complete" (Some payload_task_1)]
      sample_table
    = Some (Return [VDict [("tool", VStr "list_tasks");
                           ("parameters", VDict []);
                           ("result", r1);
                           ("duration_ms", VInt 3)];
                    VDict [("tool", VStr "mark_complete");
                           ("parameters", VDict [("task_id", VInt 1)]);
                           ("result", r2);
                           ("duration_ms", VInt 4)]], rows')
    ∧ result_status r2 = Some (VStr "success").
Proof. eexists _, _, _. split; [vm_compute; reflexivity|reflexivity]. Qed.

(** ** The session layer *)

Ltac run_session :=
  unfold try_except, mbind, session_bind, ret, mret, session_ret,
    select_task, select_tasks_of_user, commit_update, commit_insert,
    commit_delete, statement in *.

Lemma first_owned_Some uid task_id rows r :
  first_owned uid task_id rows = Some r →
  rows !! task_id = Some r ∧ Task.user_id r = uid.
Proof.
  unfold first_owned. destruct (rows !! task_id) as [r'|]; [|done].
  case_bool_decide; [|done]. by intros [= ->].
Qed.

Lemma first_owned_mine uid task_id rows r :
  rows !! task_id = Some r → Task.user_id r = uid →
  first_owned uid task_id rows = Some r.
Proof. intros Hr Hu. unfold first_owned. rewrite Hr. by rewrite bool_decide_true. Qed.

Lemma first_owned_foreign uid task_id rows r :
  rows !! task_id = Some r → Task.user_id r ≠ uid →
  first_owned uid task_id rows = None.
Proof. intros Hr Hu. unfold first_owned. rewrite Hr. by rewrite bool_decide_false. Qed.

Lemma first_owned_absent uid task_id rows :
  rows !! task_id = None → first_owned uid task_id rows = None.
Proof. intros Hr. unfold first_owned. by rewrite Hr. Qed.

Lemma table_wf_empty : table_wf ∅.
Proof. intros k r. by rewrite lookup_empty. Qed.

Lemma table_wf_insert rows r :
  table_wf rows → 0 < Task.id r → table_wf (<[Task.id r := r]> rows).
Proof.
  intros Hwf Hpos k r'. destruct (decide (Task.id r = k)) as [<-|Hne].
  - rewrite lookup_insert_eq. by intros [= <-].
  - rewrite lookup_insert_ne; [|done]. apply Hwf.
Qed.


Lemma sample_table_wf : table_wf sample_table.
Proof.
  unfold sample_table. apply (table_wf_insert _ report); [|done].
  apply (table_wf_insert _ milk); [|done]. apply table_wf_empty.
Qed.

(** The key of a new row is above every key in use, hence positive and
    free. *)
Lemma fresh_id_above rows :
  0 < fresh_id rows ∧ ∀ k, is_Some (rows !! k) → k < fresh_id rows.
Proof.
  unfold fresh_id.
  apply (map_fold_weak_ind
           (λ acc (m : gmap Z Task.t),
              0 < 1 + acc ∧ ∀ k, is_Some (m !! k) → k < 1 + acc)).
  - split; [lia|]. intros k [r Hr]. by rewrite lookup_empty in Hr.
  - intros i x m acc _ [Hpos Hall]. split; [lia|].
    intros k [r Hr]. destruct (decide (i = k)) as [->|Hne]; [lia|].
    rewrite lookup_insert_ne in Hr by done.
    specialize (Hall k (ex_intro _ r Hr)). lia.
Qed.


(** What [mark_complete] does to a row it has found. *)
Lemma mark_complete_owned ctx task_id now rows task :
  MCPContext.db_engine ctx = Connected →
  first_owned (MCPContext.user_id ctx) task_id rows = Some task →
  mark_complete_internal ctx task_id now rows =
    (let task' :=
       Task.Build (Task.id task) (Task.title task) (Task.description task)
         (negb (Task.completed task)) (Task.user_id task)
         (Task.created_at task) now in
     (Return (VDict [("status", VStr "success");
                     ("action", VStr (if Task.completed task'
                                      then "marked_complete"
                                      else "marked_incomplete"));
                     ("task", task_dict task')]),
      <[Task.id task := task']> rows)).
Proof.
  intros Hc Ho. unfold mark_complete_internal. run_session.
  by rewrite Hc, Ho.
Qed.

Lemma mark_complete_missing ctx task_id now rows :
  MCPContext.db_engine ctx = Connected →
  first_owned (MCPContext.user_id ctx) task_id rows = None →
  mark_complete_internal ctx task_id now rows =
    (Return (error_result "Task not found"), rows).
Proof.
  intros Hc Ho. unfold mark_complete_internal. run_session.
  by rewrite Hc, Ho.
Qed.

(** ** Toggle law *)

(** C6. A [mark_complete] call on a task of the context's user returns the
    task with its completion flag inverted, and a second call on the same
    task returns it with the flag it had at the start, which is also what
    the table then holds. *)
Theorem mark_complete_toggle ctx rows task_id task now1 now2 :
  table_wf rows →
  MCPContext.db_engine ctx = Connected →
  rows !! task_id = Some task →
  Task.user_id task = MCPContext.user_id ctx →
  ∃ r1 rows1 r2 rows2,
    mark_complete_internal ctx task_id now1 rows = (Return r1, rows1)
    ∧ result_status r1 = Some (VStr "success")
    ∧ result_task_field "completed" r1 = Some (VBool (negb (Task.completed task)))
    ∧ mark_complete_internal ctx task_id now2 rows1 = (Return r2, rows2)
    ∧ result_status r2 = Some (VStr "success")
    ∧ result_task_field "completed" r2 = Some (VBool (Task.completed task))
    ∧ Task.completed <$> rows2 !! task_id = Some (Task.completed task).
Proof.
  intros Hwf Hc Hrow Hown.
  destruct (Hwf _ _ Hrow) as [<- _].
  pose proof (first_owned_mine _ _ _ _ Hrow Hown) as Ho.
  rewrite (mark_complete_owned _ _ now1 _ _ Hc Ho). cbn zeta.
  eexists _, _.
  set (task1 := Task.Build _ _ _ _ _ _ now1).
  assert (first_owned (MCPContext.user_id ctx) (Task.id task)
            (<[Task.id task := task1]> rows) = Some task1) as Ho1.
  { apply first_owned_mine; [apply lookup_insert_eq | done]. }
  rewrite (mark_complete_owned _ _ now2 _ _ Hc Ho1). cbn zeta.
  eexists _, _. split_and!; try reflexivity.
  - cbn. by rewrite negb_involutive.
  - change (Task.id task1) with (Task.id task). rewrite lookup_insert_eq. cbn.
    by rewrite negb_involutive.
Qed.

Lemma mark_complete_toggle_witness :
  ∃ r1 rows1 r2 rows2,
    mark_complete_internal alice_ctx 1 20 sample_table = (Return r1, rows1)
    ∧ result_status r1 = Some (VStr "success")
    ∧ result_task_field "completed" r1 = Some (VBool (negb (Task.completed milk)))
    ∧ mark_complete_internal alice_ctx 1 21 rows1 = (Return r2, rows2)
    ∧ result_status r2 = Some (VStr "success")
    ∧ result_task_field "completed" r2 = Some (VBool (Task.completed milk))
    ∧ Task.completed <$> rows2 !! 1 = Some (Task.completed milk).
Proof.
  apply (mark_complete_toggle alice_ctx sample_table 1 milk 20 21).
  - apply (bool_decide_unpack (table_wf sample_table)). vm_compute. exact I.
  - reflexivity.
  - reflexivity.
  - reflexivity.
Defined.

(** ** Frame of [mark_complete] *)

(** C10. A successful [mark_complete] call found a row of the context's
    user under [task_id]; afterwards that row differs from the old one in
    [completed] (inverted) and [updated_at] (the clock reading) only, and
    every other row of the table, of whatever user, is as before. *)
Theorem mark_complete_frame ctx rows task_id now r rows' :
  table_wf rows →
  mark_complete_internal ctx task_id now rows = (Return r, rows') →
  result_status r = Some (VStr "success") →
  ∃ task task',
    rows !! task_id = Some task
    ∧ Task.user_id task = MCPContext.user_id ctx
    ∧ rows' !! task_id = Some task'
    ∧ Task.id task' = Task.id task
    ∧ Task.title task' = Task.title task
    ∧ Task.description task' = Task.description task
    ∧ Task.created_at task' = Task.created_at task
    ∧ Task.user_id task' = Task.user_id task
    ∧ Task.completed task' = negb (Task.completed task)
    ∧ Task.updated_at task' = now
    ∧ ∀ k, k ≠ task_id → rows' !! k = rows !! k.
Proof.
  intros Hwf Hrun Hst.
  destruct (MCPContext.db_engine ctx) as [|e] eqn:Hc.
  - destruct (first_owned (MCPContext.user_id ctx) task_id rows) as [task|] eqn:Ho.
    + rewrite (mark_complete_owned _ _ _ _ _ Hc Ho) in Hrun. cbn zeta in Hrun.
      destruct (first_owned_Some _ _ _ _ Ho) as [Hrow Hu].
      destruct (Hwf _ _ Hrow) as [<- _].
      injection Hrun as <- <-.
      eexists task, _. do 2 (split; [done|]).
      split; [apply lookup_insert_eq|].
      split_and!; try done.
      intros k Hk. by rewrite lookup_insert_ne.
    + rewrite (mark_complete_missing _ _ _ _ Hc Ho) in Hrun.
      injection Hrun as <- <-. discriminate Hst.
  - unfold mark_complete_internal in Hrun. run_session. rewrite Hc in Hrun.
    injection Hrun as <- <-. discriminate Hst.
Qed.

Lemma mark_complete_frame_witness :
  ∃ task task',
    sample_table !! 1 = Some task
    ∧ Task.user_id task = MCPContext.user_id alice_ctx
    ∧ (mark_complete_internal alice_ctx 1 20 sample_table).2 !! 1 = Some task'
    ∧ Task.id task' = Task.id task
    ∧ Task.title task' = Task.title task
    ∧ Task.description task' = Task.description task
    ∧ Task.created_at task' = Task.created_at task
    ∧ Task.user_id task' = Task.user_id task
    ∧ Task.completed task' = negb (Task.completed task)
    ∧ Task.updated_at task' = 20
    ∧ ∀ k, k ≠ 1 →
        (mark_complete_internal alice_ctx 1 20 sample_table).2 !! k
        = sample_table !! k.
Proof.
  eapply (mark_complete_frame alice_ctx sample_table 1 20).
  - apply (bool_decide_unpack (table_wf sample_table)). vm_compute. exact I.
  - vm_compute. reflexivity.
  - vm_compute. reflexivity.
Defined.

(** ** [update_task] without fields *)

(** C7. An [update_task] call that supplies neither a title nor a
    description returns the error result and leaves the table, and so every
    stored task with its [updated_at], exactly as it was; this holds
    whatever the task id, the user and the state of the engine, and also
    when the call comes through the executor with only a [task_id]
    argument. *)
Theorem update_task_no_fields ctx task_id now clk rows :
  update_task_internal ctx task_id None None now rows
    = (Return (error_result "No fields provided to update"), rows)
  ∧ AgentService.execute_tool ctx "update_task"
      (VDict [("task_id", VInt task_id)]) clk rows
    = Some (Return (error_result "No fields provided to update"), rows).
Proof. split; reflexivity. Qed.

(** ** Per-user isolation *)

Lemma get_task_missing ctx task_id rows :
  MCPContext.db_engine ctx = Connected → 0 < task_id →
  first_owned (MCPContext.user_id ctx) task_id rows = None →
  get_task_internal ctx task_id rows = (Return task_not_found, rows).
Proof.
  intros Hc Hpos Ho. unfold get_task_internal.
  destruct (task_id <=? 0) eqn:Hle; [lia|].
  run_session. by rewrite Hc, Ho.
Qed.

Lemma delete_task_missing ctx task_id rows :
  MCPContext.db_engine ctx = Connected →
  first_owned (MCPContext.user_id ctx) task_id rows = None →
  delete_task_internal ctx task_id rows = (Return task_not_found, rows).
Proof.
  intros Hc Ho. unfold delete_task_internal. run_session. by rewrite Hc, Ho.
Qed.

Lemma bool_decide_Some_empty (s : string) :
  bool_decide (Some s = Some "") = Py.str_eqb s "".
Proof.
  unfold Py.str_eqb. destruct (String.eqb_spec s "") as [->|Hne].
  - by rewrite bool_decide_true.
  - rewrite bool_decide_false; [done|]. by intros [= ->].
Qed.

(** With no row to find, [update_task] answers from its arguments alone. *)
Lemma update_task_missing ctx task_id title description now rows1 rows2 :
  MCPContext.db_engine ctx = Connected →
  first_owned (MCPContext.user_id ctx) task_id rows1 = None →
  first_owned (MCPContext.user_id ctx) task_id rows2 = None →
  ∃ r,
    update_task_internal ctx task_id title description now rows1 = (Return r, rows1)
    ∧ update_task_internal ctx task_id title description now rows2 = (Return r, rows2)
    ∧ result_status r = Some (VStr "error")
    ∧ (update_arguments_accepted title description = true → r = task_not_found).
Proof.
  intros Hc Ho1 Ho2. unfold update_task_internal, update_arguments_accepted.
  destruct title as [title|], description as [description|];
    cbv zeta; cbn [fmap option_fmap option_map from_option id];
    rewrite ?bool_decide_Some_empty, ?Z.leb_antisym;
    try (rewrite (bool_decide_false (None = Some "")) by done);
    change (Py.len "") with 0; change (200 <? 0) with false;
    change (2000 <? 0) with false; cbn match.
  all: repeat match goal with
       | |- context [Py.str_eqb ?a ?b] => destruct (Py.str_eqb a b)
       | |- context [?n <? Py.len ?x] => destruct (n <? Py.len x)
       end.
  all: run_session; rewrite ?Hc, ?Ho1, ?Ho2.
  all: eexists; split_and!; [reflexivity..|]; done.
Qed.

(** Listing as one user never shows a row of another user. *)
Lemma list_tasks_only_own ctx rows :
  MCPContext.db_engine ctx = Connected →
  ∃ r,
    list_tasks_internal ctx rows = (Return r, rows)
    ∧ ∀ d, d ∈ result_tasks r →
        ∃ k task, rows !! k = Some task
                  ∧ Task.user_id task = MCPContext.user_id ctx
                  ∧ d = task_dict task.
Proof.
  intros Hc. unfold list_tasks_internal. run_session. rewrite Hc.
  eexists. split; [reflexivity|].
  intros d Hd. cbn in Hd.
  apply list_elem_of_fmap in Hd as (task & -> & Hin).
  apply list_elem_of_filter in Hin as [Hu Hin].
  apply list_elem_of_fmap in Hin as ([k task'] & -> & Hin).
  apply elem_of_map_to_list in Hin. by exists k, task'.
Qed.

(** C1. Let [T] be a stored task whose owner is not the user of the
    context. Listing with that context returns no task that carries the id
    of [T]. [get_task], [mark_complete] and [delete_task] on the id of [T]
    return the "Task not found" error, exactly as they do on the table from
    which [T] has been removed (where the id exists for no user), and leave
    the table as it was. [update_task] on the id of [T] returns, whatever
    its title and description arguments, the same error result as on the
    table without [T] and leaves the table as it was; when the arguments
    get past its argument checks that result is "Task not found". *)
Theorem cross_user_isolation ctx rows T :
  table_wf rows →
  MCPContext.db_engine ctx = Connected →
  rows !! Task.id T = Some T →
  Task.user_id T ≠ MCPContext.user_id ctx →
  let task_id := Task.id T in
  let absent := delete task_id rows in
  (∃ r, list_tasks_internal ctx rows = (Return r, rows)
        ∧ ∀ d, d ∈ result_tasks r → dict_get "id" (dict_of d) ≠ Some (VInt task_id))
  ∧ get_task_internal ctx task_id rows = (Return task_not_found, rows)
  ∧ get_task_internal ctx task_id absent = (Return task_not_found, absent)
  ∧ (∀ now,
       mark_complete_internal ctx task_id now rows = (Return task_not_found, rows)
       ∧ mark_complete_internal ctx task_id now absent
         = (Return task_not_found, absent))
  ∧ delete_task_internal ctx task_id rows = (Return task_not_found, rows)
  ∧ delete_task_internal ctx task_id absent = (Return task_not_found, absent)
  ∧ (∀ title description now, ∃ r,
       update_task_internal ctx task_id title description now rows
         = (Return r, rows)
       ∧ update_task_internal ctx task_id title description now absent
         = (Return r, absent)
       ∧ result_status r = Some (VStr "error")
       ∧ (update_arguments_accepted title description = true
          → r = task_not_found)).
Proof.
  intros Hwf Hc HT Hforeign task_id absent.
  destruct (Hwf _ _ HT) as [_ Hpos].
  pose proof (first_owned_foreign _ _ _ _ HT Hforeign) as Ho.
  assert (first_owned (MCPContext.user_id ctx) task_id absent = None) as Ha.
  { apply first_owned_absent, lookup_delete_eq. }
  split_and!.
  - destruct (list_tasks_only_own ctx rows Hc) as (r & Hrun & Hown).
    exists r. split; [done|]. intros d Hd Hid.
    destruct (Hown d Hd) as (k & task & Hk & Hu & ->).
    cbn in Hid. injection Hid as Hid.
    destruct (Hwf _ _ Hk) as [Hkid _].
    assert (k = task_id) as -> by congruence.
    unfold task_id in Hk. rewrite HT in Hk. injection Hk as <-. done.
  - by apply get_task_missing.
  - by apply get_task_missing.
  - intros now. split; by apply mark_complete_missing.
  - by apply delete_task_missing.
  - by apply delete_task_missing.
  - intros title description now. by apply update_task_missing.
Qed.

Lemma cross_user_isolation_witness :
  let task_id := Task.id report in
  let absent := delete task_id sample_table in
  (∃ r, list_tasks_internal alice_ctx sample_table = (Return r, sample_table)
        ∧ ∀ d, d ∈ result_tasks r → dict_get "id" (dict_of d) ≠ Some (VInt task_id))
  ∧ get_task_internal alice_ctx task_id sample_table
    = (Return task_not_found, sample_table)
  ∧ get_task_internal alice_ctx task_id absent = (Return task_not_found, absent)
  ∧ (∀ now,
       mark_complete_internal alice_ctx task_id now sample_table
       = (Return task_not_found, sample_table)
       ∧ mark_complete_internal alice_ctx task_id now absent
         = (Return task_not_found, absent))
  ∧ delete_task_internal alice_ctx task_id sample_table
    = (Return task_not_found, sample_table)
  ∧ delete_task_internal alice_ctx task_id absent = (Return task_not_found, absent)
  ∧ (∀ title description now, ∃ r,
       update_task_internal alice_ctx task_id title description now sample_table
         = (Return r, sample_table)
       ∧ update_task_internal alice_ctx task_id title description now absent
         = (Return r, absent)
       ∧ result_status r = Some (VStr "error")
       ∧ (update_arguments_accepted title description = true
          → r = task_not_found)).
Proof.
  apply (cross_user_isolation alice_ctx sample_table report).
  - apply (bool_decide_unpack (table_wf sample_table)). vm_compute. exact I.
  - reflexivity.
  - reflexivity.
  - vm_compute. discriminate.
Defined.

(** ** Result envelope *)

Ltac handler_cases :=
  run_session; repeat case_match; simplify_eq/=;
  eexists; (split; [reflexivity|]); ((by left) || (by right)).

Lemma get_task_envelope ctx task_id rows :
  returns_envelope (get_task_internal ctx task_id) rows.
Proof. unfold returns_envelope, get_task_internal. handler_cases. Qed.

Lemma create_task_envelope ctx title description now now' rows :
  returns_envelope (create_task_internal ctx title description now now') rows.
Proof. unfold returns_envelope, create_task_internal. handler_cases. Qed.

Lemma update_task_envelope ctx task_id title description now rows :
  returns_envelope (update_task_internal ctx task_id title description now) rows.
Proof. unfold returns_envelope, update_task_internal. handler_cases. Qed.

Lemma mark_complete_envelope ctx task_id now rows :
  returns_envelope (mark_complete_internal ctx task_id now) rows.
Proof. unfold returns_envelope, mark_complete_internal. handler_cases. Qed.

Lemma delete_task_envelope ctx task_id rows :
  returns_envelope (delete_task_internal ctx task_id) rows.
Proof. unfold returns_envelope, delete_task_internal. handler_cases. Qed.

(** C3, counterexample. The success result of [list_tasks] has no
    ["status"] key at all. *)
Lemma list_tasks_success_without_status :
  ∃ r, (list_tasks_internal alice_ctx sample_table).1 = Return r
       ∧ result_status r = None
       ∧ ¬ status_envelope r.
Proof.
  eexists. split; [vm_compute; reflexivity|]. split; [reflexivity|].
  intros [H|H]; discriminate H.
Qed.

(** C3, as amended. Every call of [create_task], [get_task], [update_task],
    [mark_complete] and [delete_task] returns a dict whose ["status"] is
    ["success"] or ["error"]. [list_tasks] returns such a dict, with status
    ["error"], an error text, [tasks] empty and the three counts at 0, when
    the store fails; when it succeeds it returns a dict with the keys
    [tasks], [total], [completed_count] and [pending_count] and without a
    ["status"] key. *)
Theorem result_envelope ctx rows :
  (∀ title description now now',
     returns_envelope (create_task_internal ctx title description now now') rows)
  ∧ (∀ task_id, returns_envelope (get_task_internal ctx task_id) rows)
  ∧ (∀ task_id title description now,
       returns_envelope (update_task_internal ctx task_id title description now) rows)
  ∧ (∀ task_id now, returns_envelope (mark_complete_internal ctx task_id now) rows)
  ∧ (∀ task_id, returns_envelope (delete_task_internal ctx task_id) rows)
  ∧ ∃ r, (list_tasks_internal ctx rows).1 = Return r
         ∧ match MCPContext.db_engine ctx with
           | Connected => listing_shape r
           | Failing _ => failed_listing_shape r
           end.
Proof.
  split_and!.
  - intros. apply create_task_envelope.
  - intros. apply get_task_envelope.
  - intros. apply update_task_envelope.
  - intros. apply mark_complete_envelope.
  - intros. apply delete_task_envelope.
  - unfold list_tasks_internal. run_session.
    destruct (MCPContext.db_engine ctx); eexists; (split; [reflexivity|]).
    + unfold listing_shape. cbn. eauto 10.
    + unfold failed_listing_shape. cbn. eauto 10.
Qed.

(** ** Store failures *)

(** C4, what the code does. When the store fails with exception [e], each
    handler returns a status-"error" result whose message is
    ["Database error: "] followed by [str(e)] itself: the text of the
    exception is embedded, not replaced by a generic message. *)
Theorem store_failure_embeds_exception_text e uid rows :
  let ctx := MCPContext.Build (Failing e) uid in
  (∀ title description now now',
     Py.truthy title = true → Py.strip (default "" title) = "Buy milk" →
     Py.truthy description = false →
     reports_exception_text
       (create_task_internal ctx title description now now') e rows)
  ∧ (∀ task_id, 0 < task_id →
       reports_exception_text (get_task_internal ctx task_id) e rows)
  ∧ (∀ task_id now,
       reports_exception_text
         (update_task_internal ctx task_id (Some "Buy milk") None now) e rows)
  ∧ (∀ task_id now,
       reports_exception_text (mark_complete_internal ctx task_id now) e rows)
  ∧ (∀ task_id,
       reports_exception_text (delete_task_internal ctx task_id) e rows)
  ∧ reports_exception_text (list_tasks_internal ctx) e rows.
Proof.
  cbv zeta. unfold reports_exception_text. split_and!.
  - intros [title|] description now now' Ht Hs Hd; [|done].
    change (Py.strip title = "Buy milk") in Hs. unfold create_task_internal.
    rewrite Ht, Hs, Hd. by eexists.
  - intros task_id Hpos. unfold get_task_internal.
    destruct (task_id <=? 0) eqn:Hle; [lia|]. by eexists.
  - intros. by eexists.
  - intros. by eexists.
  - intros. by eexists.
  - by eexists.
Qed.

Lemma store_failure_embeds_exception_text_witness :
  (reports_exception_text
     (create_task_internal broken_ctx (Some " Buy milk ") None 1 2)
     no_such_table sample_table)
  ∧ reports_exception_text (get_task_internal broken_ctx 1) no_such_table
      sample_table.
Proof.
  pose proof (store_failure_embeds_exception_text no_such_table alice sample_table)
    as (Hcreate & Hget & _).
  split.
  - apply (Hcreate (Some " Buy milk ") None 1 2); reflexivity.
  - apply (Hget 1). lia.
Defined.

(** The message a user gets to see for the sample failure. *)
Example store_failure_message :
  (delete_task_internal broken_ctx 1 sample_table).1
  = Return (error_result
      "Database error: (sqlite3.OperationalError) no such table: tasks [SQL: SELECT tasks.id, tasks.title FROM tasks WHERE tasks.user_id = ?]").
Proof. reflexivity. Qed.

(** ** Unknown tool names *)

(** C2, what the code does. For a tool name that is not in the registry,
    [execute_tool] raises [ValueError], whatever the arguments; the
    exception leaves [process_message] as well, so a turn in which the model
    proposes such a tool, with a payload that decodes, ends with an
    exception and not with a result. *)
Theorem execute_tool_unknown_raises ctx tool_name arguments clk rows :
  get_tool tool_name = None →
  let e := Exn "ValueError" ("Tool '" +:+ tool_name +:+ "' not found") in
  AgentService.execute_tool ctx tool_name arguments clk rows
  = Some (Raise e, rows)
  ∧ ∀ model json_loads duration_ms clks call_id payload content reason more
      final,
      AgentService.decode_arguments json_loads payload = Return arguments →
      AgentService.process_message ctx model json_loads duration_ms clks
        (Return (AgentService.Completion content
                   (AgentService.ToolCall call_id tool_name payload :: more)
                   reason))
        final rows
      = Some (Raise e, rows).
Proof.
  intros Hnone e.
  assert (AgentService.execute_tool ctx tool_name arguments clk rows
          = Some (Raise e, rows)) as Hexec.
  { unfold AgentService.execute_tool. by rewrite Hnone. }
  split; [done|].
  intros model json_loads duration_ms clks call_id payload content reason more
    final Hdecode.
  unfold AgentService.process_message, call_try_except.
  cbn [AgentService.message_tool_calls AgentService.execute_tool_calls
       AgentService.tool_call_name AgentService.tool_call_arguments].
  unfold mbind, call_bind, followed. rewrite Hdecode.
  unfold AgentService.execute_tool. rewrite Hnone. reflexivity.
Qed.

Lemma execute_tool_unknown_raises_witness :
  let e := Exn "ValueError" "Tool 'nonexistent_tool' not found" in
  AgentService.execute_tool alice_ctx "nonexistent_tool" (VDict []) (0, 0)
    sample_table
  = Some (Raise e, sample_table)
  ∧ ∀ model json_loads duration_ms clks call_id payload content reason more
      final,
      AgentService.decode_arguments json_loads payload = Return (VDict []) →
      AgentService.process_message alice_ctx model json_loads duration_ms clks
        (Return (AgentService.Completion content
                   (AgentService.ToolCall call_id "nonexistent_tool" payload
                    :: more)
                   reason))
        final sample_table
      = Some (Raise e, sample_table).
Proof.
  apply (execute_tool_unknown_raises alice_ctx "nonexistent_tool" (VDict [])
           (0, 0) sample_table).
  vm_compute. reflexivity.
Defined.

(** ** Length boundaries *)

Lemma len_pos_nonempty s : 0 < Py.len s → Py.str_eqb s "" = false.
Proof.
  unfold Py.str_eqb. destruct (String.eqb_spec s "") as [->|]; [|done].
  intros H. by vm_compute in H.
Qed.

Lemma strip_nonempty_truthy s :
  0 < Py.len (Py.strip s) → Py.truthy (Some s) = true.
Proof. destruct s; [|done]. intros H. by vm_compute in H. Qed.

Lemma create_task_accepts ctx title description now now' rows :
  MCPContext.db_engine ctx = Connected →
  0 < Py.len (Py.strip title) ≤ 200 →
  Py.len (default "" description) ≤ 2000 →
  ∃ r rows',
    create_task_internal ctx (Some title) description now now' rows
      = (Return r, rows')
    ∧ result_status r = Some (VStr "success")
    ∧ result_task_field "title" r = Some (VStr (Py.strip title))
    ∧ result_task_field "completed" r = Some (VBool false).
Proof.
  intros Hc [Hlo Hhi] Hd. unfold create_task_internal.
  rewrite (strip_nonempty_truthy _ Hlo), (len_pos_nonempty _ Hlo).
  cbn [negb orb].
  destruct (Z.ltb_spec 200 (Py.len (Py.strip title))); [lia|].
  destruct (Z.ltb_spec 2000 (Py.len (default "" description))); [lia|].
  rewrite andb_false_r. run_session. rewrite Hc. by eexists _, _.
Qed.

Lemma create_task_rejects_title ctx title description now now' rows :
  200 < Py.len (Py.strip title) →
  create_task_internal ctx (Some title) description now now' rows
    = (Return (error_result "Title exceeds 200 characters"), rows).
Proof.
  intros Hlen. assert (0 < Py.len (Py.strip title)) as Hlo by lia.
  unfold create_task_internal.
  rewrite (strip_nonempty_truthy _ Hlo), (len_pos_nonempty _ Hlo).
  cbn [negb orb].
  by destruct (Z.ltb_spec 200 (Py.len (Py.strip title))); [|lia].
Qed.

Lemma create_task_rejects_description ctx title description now now' rows :
  0 < Py.len (Py.strip title) ≤ 200 →
  2000 < Py.len description →
  create_task_internal ctx (Some title) (Some description) now now' rows
    = (Return (error_result "Description exceeds 2000 characters"), rows).
Proof.
  intros [Hlo Hhi] Hd. unfold create_task_internal.
  rewrite (strip_nonempty_truthy _ Hlo), (len_pos_nonempty _ Hlo).
  cbn [negb orb].
  destruct (Z.ltb_spec 200 (Py.len (Py.strip title))); [lia|].
  assert (Py.truthy (Some description) = true) as ->.
  { destruct description; [by vm_compute in Hd|done]. }
  cbn [from_option id andb].
  by destruct (Z.ltb_spec 2000 (Py.len description)); [|lia].
Qed.

Lemma update_task_accepts ctx task_id title description now rows task :
  MCPContext.db_engine ctx = Connected →
  first_owned (MCPContext.user_id ctx) task_id rows = Some task →
  update_arguments_accepted title description = true →
  ∃ r rows',
    update_task_internal ctx task_id title description now rows = (Return r, rows')
    ∧ result_status r = Some (VStr "success")
    ∧ result_task_field "title" r
      = Some (VStr (default (Task.title task) (Py.strip <$> title)))
    ∧ result_task_field "description" r
      = Some (opt_str (match description with
                       | Some d => Some d
                       | None => Task.description task
                       end)).
Proof.
  intros Hc Ho. unfold update_task_internal, update_arguments_accepted.
  destruct title as [title|], description as [description|];
    cbv zeta; cbn [fmap option_fmap option_map from_option id];
    rewrite ?bool_decide_Some_empty, ?Z.leb_antisym;
    try (rewrite (bool_decide_false (None = Some "")) by done);
    change (Py.len "") with 0; change (200 <? 0) with false;
    change (2000 <? 0) with false; cbn match.
  all: repeat match goal with
       | |- context [Py.str_eqb ?a ?b] => destruct (Py.str_eqb a b)
       | |- context [?n <? Py.len ?x] => destruct (n <? Py.len x)
       end.
  all: try (intros; discriminate).
  all: intros _; run_session; rewrite ?Hc, ?Ho; by eexists _, _.
Qed.

Lemma update_task_rejects_title ctx task_id title description now rows :
  200 < Py.len (Py.strip title) →
  update_task_internal ctx task_id (Some title) description now rows
    = (Return (error_result "Title exceeds 200 characters"), rows).
Proof.
  intros Hlen. assert (0 < Py.len (Py.strip title)) as Hlo by lia.
  unfold update_task_internal.
  cbv zeta; cbn [fmap option_fmap option_map from_option id].
  rewrite bool_decide_Some_empty, (len_pos_nonempty _ Hlo).
  by destruct (Z.ltb_spec 200 (Py.len (Py.strip title))); [|lia].
Qed.

Lemma update_task_rejects_description ctx task_id title description now rows :
  match title with
  | Some t => 0 < Py.len (Py.strip t) ≤ 200
  | None => True
  end →
  2000 < Py.len description →
  update_task_internal ctx task_id title (Some description) now rows
    = (Return (error_result "Description exceeds 2000 characters"), rows).
Proof.
  intros Ht Hd. unfold update_task_internal.
  destruct title as [title|];
    cbv zeta; cbn [fmap option_fmap option_map from_option id].
  - destruct Ht as [Hlo Hhi].
    rewrite bool_decide_Some_empty, (len_pos_nonempty _ Hlo).
    destruct (Z.ltb_spec 200 (Py.len (Py.strip title))); [lia|].
    by destruct (Z.ltb_spec 2000 (Py.len description)); [|lia].
  - rewrite (bool_decide_false (None = Some "")) by done.
    change (200 <? Py.len "") with false. cbn match.
    by destruct (Z.ltb_spec 2000 (Py.len description)); [|lia].
Qed.

(** C8. [create_task] accepts a title of exactly 200 characters after
    trimming together with a description of exactly 2000 characters, rejects
    a title of 201 characters and rejects a description of 2001 characters;
    [update_task], on a task of the context's user, does the same for the
    title and the description it is given, one or both. A rejection leaves
    the table as it was. *)
Theorem length_boundaries ctx rows task_id task
    (t200 t201 d2000 d2001 : string) now now' :
  MCPContext.db_engine ctx = Connected →
  rows !! task_id = Some task →
  Task.user_id task = MCPContext.user_id ctx →
  Py.len (Py.strip t200) = 200 →
  Py.len (Py.strip t201) = 201 →
  Py.len d2000 = 2000 →
  Py.len d2001 = 2001 →
  (∃ r rows',
     create_task_internal ctx (Some t200) (Some d2000) now now' rows
       = (Return r, rows')
     ∧ result_status r = Some (VStr "success")
     ∧ result_task_field "title" r = Some (VStr (Py.strip t200)))
  ∧ (∀ description,
       create_task_internal ctx (Some t201) description now now' rows
       = (Return (error_result "Title exceeds 200 characters"), rows))
  ∧ create_task_internal ctx (Some t200) (Some d2001) now now' rows
    = (Return (error_result "Description exceeds 2000 characters"), rows)
  ∧ (∃ r rows',
       update_task_internal ctx task_id (Some t200) (Some d2000) now rows
         = (Return r, rows')
       ∧ result_status r = Some (VStr "success")
       ∧ result_task_field "title" r = Some (VStr (Py.strip t200))
       ∧ result_task_field "description" r = Some (VStr d2000))
  ∧ (∃ r rows',
       update_task_internal ctx task_id (Some t200) None now rows = (Return r, rows')
       ∧ result_status r = Some (VStr "success"))
  ∧ (∃ r rows',
       update_task_internal ctx task_id None (Some d2000) now rows = (Return r, rows')
       ∧ result_status r = Some (VStr "success"))
  ∧ (∀ description,
       update_task_internal ctx task_id (Some t201) description now rows
       = (Return (error_result "Title exceeds 200 characters"), rows))
  ∧ update_task_internal ctx task_id (Some t200) (Some d2001) now rows
    = (Return (error_result "Description exceeds 2000 characters"), rows)
  ∧ update_task_internal ctx task_id None (Some d2001) now rows
    = (Return (error_result "Description exceeds 2000 characters"), rows).
Proof.
  intros Hc Hrow Hown H200 H201 Hd2000 Hd2001.
  pose proof (first_owned_mine _ _ _ _ Hrow Hown) as Ho.
  assert (Py.str_eqb (Py.strip t200) "" = false) as Hne
    by (apply len_pos_nonempty; lia).
  assert (∀ d, update_arguments_accepted (Some t200) d = true
               ↔ Py.len (default "" d) ≤ 2000) as Hacc.
  { intros d. unfold update_arguments_accepted.
    rewrite Hne, H200. destruct d as [d|]; cbn; rewrite ?Z.leb_le; [done|].
    split; [intros _; by vm_compute|done]. }
  split_and!.
  - destruct (create_task_accepts ctx t200 (Some d2000) now now' rows Hc)
      as (r & rows' & Hrun & Hst & Ht & _); [lia|cbn; lia|].
    by exists r, rows'.
  - intros description. apply create_task_rejects_title. lia.
  - apply create_task_rejects_description; lia.
  - destruct (update_task_accepts ctx task_id (Some t200) (Some d2000) now rows
                task Hc Ho) as (r & rows' & Hrun & Hst & Ht & Hd).
    { apply Hacc. cbn. lia. }
    by exists r, rows'.
  - destruct (update_task_accepts ctx task_id (Some t200) None now rows
                task Hc Ho) as (r & rows' & Hrun & Hst & _).
    { apply Hacc. by vm_compute. }
    by exists r, rows'.
  - destruct (update_task_accepts ctx task_id None (Some d2000) now rows
                task Hc Ho) as (r & rows' & Hrun & Hst & _).
    { cbn. apply Z.leb_le. lia. }
    by exists r, rows'.
  - intros description. apply update_task_rejects_title. lia.
  - apply update_task_rejects_description; lia.
  - apply update_task_rejects_description; [done|lia].
Qed.

Lemma length_boundaries_witness :
  let t200 := " " +:+ Py.repeat "A" 200 +:+ " " in
  let t201 := Py.repeat "A" 201 in
  let d2000 := Py.repeat "d" 2000 in
  let d2001 := Py.repeat "d" 2001 in
  (∃ r rows',
     create_task_internal alice_ctx (Some t200) (Some d2000) 20 21 sample_table
       = (Return r, rows')
     ∧ result_status r = Some (VStr "success")
     ∧ result_task_field "title" r = Some (VStr (Py.strip t200)))
  ∧ (∀ description,
       create_task_internal alice_ctx (Some t201) description 20 21 sample_table
       = (Return (error_result "Title exceeds 200 characters"), sample_table))
  ∧ create_task_internal alice_ctx (Some t200) (Some d2001) 20 21 sample_table
    = (Return (error_result "Description exceeds 2000 characters"), sample_table)
  ∧ (∃ r rows',
       update_task_internal alice_ctx 1 (Some t200) (Some d2000) 20 sample_table
         = (Return r, rows')
       ∧ result_status r = Some (VStr "success")
       ∧ result_task_field "title" r = Some (VStr (Py.strip t200))
       ∧ result_task_field "description" r = Some (VStr d2000))
  ∧ (∃ r rows',
       update_task_internal alice_ctx 1 (Some t200) None 20 sample_table
         = (Return r, rows')
       ∧ result_status r = Some (VStr "success"))
  ∧ (∃ r rows',
       update_task_internal alice_ctx 1 None (Some d2000) 20 sample_table
         = (Return r, rows')
       ∧ result_status r = Some (VStr "success"))
  ∧ (∀ description,
       update_task_internal alice_ctx 1 (Some t201) description 20 sample_table
       = (Return (error_result "Title exceeds 200 characters"), sample_table))
  ∧ update_task_internal alice_ctx 1 (Some t200) (Some d2001) 20 sample_table
    = (Return (error_result "Description exceeds 2000 characters"), sample_table)
  ∧ update_task_internal alice_ctx 1 None (Some d2001) 20 sample_table
    = (Return (error_result "Description exceeds 2000 characters"), sample_table).
Proof.
  apply (length_boundaries alice_ctx sample_table 1 milk
           (" " +:+ Py.repeat "A" 200 +:+ " ") (Py.repeat "A" 201)
           (Py.repeat "d" 2000) (Py.repeat "d" 2001) 20 21).
  - reflexivity.
  - reflexivity.
  - reflexivity.
  - vm_compute. reflexivity.
  - vm_compute. reflexivity.
  - vm_compute. reflexivity.
  - vm_compute. reflexivity.
Defined.

(** ** Message numbering *)

Lemma numbers_upto_snoc n :
  numbers_upto (S n) = numbers_upto n ++ [Z.of_nat (S n)].
Proof. unfold numbers_upto. by rewrite seq_S, fmap_app. Qed.

Lemma elem_of_numbers_upto n x : x ∈ numbers_upto n ↔ 1 ≤ x ≤ Z.of_nat n.
Proof.
  unfold numbers_upto. rewrite list_elem_of_fmap. split.
  - intros (k & -> & Hk%elem_of_seq). lia.
  - intros [Hlo Hhi]. exists (Z.to_nat x). split; [lia|].
    apply elem_of_seq. lia.
Qed.

Lemma numbers_upto_sorted n : StronglySorted Z.lt (numbers_upto n).
Proof.
  induction n as [|n IH]; [constructor|].
  rewrite numbers_upto_snoc. apply StronglySorted_app_2; [|done|].
  - intros x1 x2 H1%elem_of_numbers_upto H2%list_elem_of_singleton. lia.
  - repeat constructor.
Qed.

Lemma sorted_sublist {A} (R : relation A) (l1 l2 : list A) :
  l1 `sublist_of` l2 → StronglySorted R l2 → StronglySorted R l1.
Proof.
  induction 1 as [|x l1 l2 Hsub IH|x l1 l2 Hsub IH]; intros Hs; [done|..].
  - apply StronglySorted_cons in Hs as [Hall Hs].
    apply StronglySorted_cons. split; [|by apply IH].
    rewrite Forall_forall in Hall |- *. intros y Hy.
    apply Hall. by eapply elem_of_sublist.
  - apply StronglySorted_cons in Hs as [_ Hs]. by apply IH.
Qed.

Lemma func_max_bound col m :
  func_max col = Some m → m ∈ col ∧ ∀ x, x ∈ col → x ≤ m.
Proof.
  revert m. induction col as [|y col IH]; intros m; [done|].
  change (func_max (y :: col))
    with (Some (match func_max col with None => y | Some y0 => Z.max y y0 end)).
  destruct (func_max col) as [m'|] eqn:Hm; intros [= <-].
  - destruct (IH m' eq_refl) as [Hin Hle]. split.
    + destruct (Z.max_spec y m') as [[_ ->]|[_ ->]]; [by right|by left].
    + intros x [->|Hx]%elem_of_cons; [lia|]. specialize (Hle x Hx). lia.
  - destruct col; [|done]. split; [by left|].
    intros x [->|Hx]%elem_of_cons; [lia|by apply elem_of_nil in Hx].
Qed.

Lemma func_max_numbers_upto n :
  func_max (numbers_upto n) = match n with O => None | _ => Some (Z.of_nat n) end.
Proof.
  destruct n as [|n]; [done|].
  destruct (func_max (numbers_upto (S n))) as [m|] eqn:Hm.
  - destruct (func_max_bound _ _ Hm) as [Hin Hle].
    apply elem_of_numbers_upto in Hin.
    assert (Z.of_nat (S n) ≤ m) by (apply Hle, elem_of_numbers_upto; lia).
    f_equal. lia.
  - rewrite numbers_upto_snoc in Hm. by destruct (numbers_upto n).
Qed.

(** On a conversation numbered [1..n], the next number is [n + 1]. *)
Lemma next_sequence_number_upto conversation_id db n :
  sequence_numbers conversation_id (messages db) = numbers_upto n →
  ConversationService._get_next_sequence_number conversation_id db
  = Z.of_nat n + 1.
Proof.
  intros Hn. unfold ConversationService._get_next_sequence_number.
  fold (sequence_numbers conversation_id (messages db)).
  rewrite Hn, func_max_numbers_upto. destruct n; [done|lia].
Qed.

Lemma sequence_numbers_snoc cid msgs m :
  sequence_numbers cid (msgs ++ [m])
  = sequence_numbers cid msgs
    ++ (if decide (Message.conversation_id m = cid)
        then [Message.sequence_number m] else []).
Proof.
  unfold sequence_numbers. rewrite filter_app, fmap_app. f_equal.
  rewrite filter_cons, filter_nil. by case_decide.
Qed.

Lemma fresh_message_id_new msgs :
  fresh_message_id msgs ∉ Message.id <$> msgs.
Proof.
  unfold fresh_message_id. intros Hin.
  destruct (func_max (Message.id <$> msgs)) as [m|] eqn:Hm.
  - destruct (func_max_bound _ _ Hm) as [_ Hle]. specialize (Hle _ Hin).
    cbn in Hle. lia.
  - destruct (Message.id <$> msgs); [by apply elem_of_nil in Hin|done].
Qed.

Lemma create_message_numbered cid uid role content tool_calls now now' db :
  numbered db →
  numbered (ConversationService.create_message cid uid role content tool_calls
              now now' db).2.
Proof.
  intros [Hids Hseq]. unfold ConversationService.create_message.
  destruct (ConversationService.get_conversation cid uid db); [|done].
  cbv zeta. cbn [snd]. unfold numbered. cbn [messages]. split.
  - rewrite fmap_app. apply NoDup_app. split_and!; [done| |apply NoDup_singleton].
    intros x Hx ->%list_elem_of_singleton. cbn in Hx.
    by apply fresh_message_id_new in Hx.
  - intros cid'. rewrite sequence_numbers_snoc. cbn [Message.conversation_id].
    case_decide as Hc.
    + subst cid'. cbn [Message.sequence_number].
      rewrite (next_sequence_number_upto cid db _ (Hseq cid)).
      rewrite length_app. cbn [length]. rewrite Nat.add_1_r, numbers_upto_snoc.
      rewrite <- Hseq. do 2 f_equal. lia.
    + rewrite !app_nil_r. apply Hseq.
Qed.

Lemma NoDup_fmap_eq {A B} (f : A → B) (l : list A) x y :
  NoDup (f <$> l) → x ∈ l → y ∈ l → f x = f y → x = y.
Proof.
  induction l as [|z l IH]; [by intros _ ?%elem_of_nil|].
  rewrite fmap_cons, NoDup_cons.
  intros [Hz Hl] [->|Hx]%elem_of_cons [->|Hy]%elem_of_cons Hf; [done|..].
  - destruct Hz. rewrite Hf. by apply list_elem_of_fmap_2.
  - destruct Hz. rewrite <- Hf. by apply list_elem_of_fmap_2.
  - by apply IH.
Qed.

Lemma sequence_numbers_fmap (g : Message.t → Message.t) cid msgs :
  (∀ m, m ∈ msgs →
        Message.conversation_id (g m) = Message.conversation_id m
        ∧ Message.sequence_number (g m) = Message.sequence_number m) →
  sequence_numbers cid (g <$> msgs) = sequence_numbers cid msgs.
Proof.
  unfold sequence_numbers. induction msgs as [|m msgs IH]; intros Hg; [done|].
  destruct (Hg m) as [Hc Hs]; [by left|].
  rewrite fmap_cons, !filter_cons, Hc.
  case_decide; rewrite ?fmap_cons, ?Hs, IH; try done.
  all: intros m' Hm'; apply Hg; by right.
Qed.

Lemma soft_delete_message_numbered mid cid uid now db :
  numbered db →
  numbered (ConversationService.soft_delete_message mid cid uid now db).2.
Proof.
  intros [Hids Hseq]. unfold ConversationService.soft_delete_message.
  destruct (ConversationService.get_conversation cid uid db); [|done].
  destruct (head _) as [m|] eqn:Hm; [|done].
  apply head_Some_elem_of, list_elem_of_filter in Hm as [_ Hm].
  cbv zeta. cbn [snd]. unfold numbered. cbn [messages]. unfold update_message. cbn [Message.id].
  set (g := λ m0 : Message.t, if bool_decide (Message.id m0 = Message.id m)
                              then _ else m0).
  assert (∀ x, x ∈ messages db →
            Message.id (g x) = Message.id x
            ∧ Message.conversation_id (g x) = Message.conversation_id x
            ∧ Message.sequence_number (g x) = Message.sequence_number x) as Hg.
  { intros x Hx. unfold g. case_bool_decide as Hid; [|done].
    by rewrite (NoDup_fmap_eq Message.id _ x m Hids Hx Hm Hid). }
  split.
  - rewrite <- list_fmap_compose.
    replace (Message.id ∘ g <$> messages db) with (Message.id <$> messages db);
      [done|].
    apply Forall_fmap_ext_1, Forall_forall. intros x Hx. symmetry.
    by apply Hg.
  - intros cid'. rewrite sequence_numbers_fmap; [apply Hseq|].
    intros x Hx. by destruct (Hg x Hx) as (_ & ? & ?).
Qed.

Lemma service_run_numbered calls db :
  numbered db → numbered (service_run calls db).
Proof.
  revert db. induction calls as [|c calls IH]; intros db Hdb; [done|].
  apply IH. destruct c.
  - by apply create_message_numbered.
  - by apply soft_delete_message_numbered.
Qed.

Lemma filter_all {A} (P : A → Prop) `{!∀ x, Decision (P x)} (l : list A) :
  (∀ x, x ∈ l → P x) → filter P l = l.
Proof.
  induction l as [|x l IH]; intros Hall; [done|].
  rewrite filter_cons_True by (apply Hall; by left).
  f_equal. apply IH. intros y Hy. apply Hall. by right.
Qed.

Lemma live_sublist cid msgs :
  live_sequence_numbers cid msgs `sublist_of` sequence_numbers cid msgs.
Proof. apply fmap_sublist, sublist_filter. Qed.

(** C5, counterexample. With the second of three messages soft-deleted,
    the messages still shown carry the numbers 1 and 3, which is not [1..2];
    and the number the chat endpoints would give to the next message is 3,
    not the maximum plus 1. *)
Lemma soft_delete_leaves_gap :
  Message.sequence_number <$>
    ConversationService.get_conversation_history 1 alice false sample_chat_db
  = [1; 3]
  ∧ live_sequence_numbers 1 (messages sample_chat_db) ≠ numbers_upto 2
  ∧ existing_message_count 1 (messages sample_chat_db) + 1
    ≠ ConversationService._get_next_sequence_number 1 sample_chat_db.
Proof. split_and!; [by vm_compute|by vm_compute|by vm_compute]. Qed.

(** C5, as amended. Start from an empty [messages] table and let the
    conversation service create and soft-delete messages in any order. Then,
    for every conversation: the messages of the conversation, soft-deleted
    ones included, carry exactly the numbers [1..N] in the order they were
    stored; the number [create_message] gives to the next message is the
    maximum of these plus 1, or 1 when there is none; the messages that are
    not soft-deleted carry a strictly increasing subsequence of [1..N]; and
    as long as no message of the conversation is soft-deleted, they carry
    exactly [1..N] and the count the chat endpoints number from, plus 1, is
    that same next number. *)
Theorem message_numbering convs calls cid :
  let db := service_run calls (ChatDb convs []) in
  let all := sequence_numbers cid (messages db) in
  let live := live_sequence_numbers cid (messages db) in
  all = numbers_upto (length all)
  ∧ ConversationService._get_next_sequence_number cid db
    = default 0 (func_max all) + 1
  ∧ (∀ uid role content tool_calls now now',
       match ConversationService.create_message cid uid role content tool_calls
               now now' db with
       | (Some message, _) =>
           Message.sequence_number message = default 0 (func_max all) + 1
       | (None, db') => db' = db
       end)
  ∧ live `sublist_of` all
  ∧ StronglySorted Z.lt live
  ∧ ((∀ m, m ∈ messages db → Message.conversation_id m = cid →
           Message.deleted_at m = None) →
     live = numbers_upto (length live)
     ∧ existing_message_count cid (messages db) + 1
       = ConversationService._get_next_sequence_number cid db).
Proof.
  intros db all live.
  assert (numbered db) as [Hids Hseq].
  { apply service_run_numbered. split; [constructor|done]. }
  assert (ConversationService._get_next_sequence_number cid db
          = default 0 (func_max all) + 1) as Hnext.
  { unfold ConversationService._get_next_sequence_number, all.
    fold (sequence_numbers cid (messages db)).
    by destruct (func_max (sequence_numbers cid (messages db))). }
  split_and!.
  - apply Hseq.
  - done.
  - intros. unfold ConversationService.create_message.
    destruct (ConversationService.get_conversation cid uid db); [|done].
    cbv zeta. cbn [Message.sequence_number]. done.
  - apply live_sublist.
  - eapply sorted_sublist; [apply live_sublist|].
    rewrite Hseq. apply numbers_upto_sorted.
  - intros Hlive.
    assert (filter (λ m, Message.deleted_at m = None)
              (filter (λ m, Message.conversation_id m = cid) (messages db))
            = filter (λ m, Message.conversation_id m = cid) (messages db)) as Hf.
    { apply filter_all. intros m [Hc Hin]%list_elem_of_filter. by apply Hlive. }
    assert (live = all) as Hla
      by (unfold live, live_sequence_numbers; by rewrite Hf).
    split; [rewrite Hla; apply Hseq|].
    rewrite (next_sequence_number_upto cid db _ (Hseq cid)).
    unfold existing_message_count, sequence_numbers.
    rewrite length_fmap, <- Hf, list_filter_filter.
    do 3 f_equal. apply list_filter_iff. intros m. tauto.
Qed.

Lemma message_numbering_witness :
  let db := service_run two_messages (ChatDb {[1 := talk]} []) in
  let live := live_sequence_numbers 1 (messages db) in
  live = numbers_upto (length live)
  ∧ existing_message_count 1 (messages db) + 1
    = ConversationService._get_next_sequence_number 1 db.
Proof.
  pose proof (message_numbering {[1 := talk]} two_messages 1)
    as (_ & _ & _ & _ & _ & Hlive).
  apply Hlive. intros m Hm _. vm_compute in Hm.
  repeat (apply elem_of_cons in Hm as [->|Hm]); [reflexivity..|].
  by apply elem_of_nil in Hm.
Defined.

(** ** The streaming endpoint *)

(** C9, what the code does. [chat_stream] builds its agent from the name
    [CohereAgentService], which [api/chat.py] never imports. So every
    request sends exactly one event, an error event; no content chunk and
    no final event with metadata is sent, and no assistant message is
    stored. For a request whose conversation is accepted, the user message
    has been stored by then and the error is the [NameError]. *)
Theorem chat_stream_name_error user_id request agent utcnow db :
  let out := event_generator user_id request agent utcnow db in
  (∃ msg, out.1 = [error_event msg])
  ∧ filter (λ m, Message.role m = ASSISTANT) (messages out.2)
    = filter (λ m, Message.role m = ASSISTANT) (messages db)
  ∧ ∀ conversation db1,
      stream_conversation user_id request (utcnow 0%nat) db
        = inr (conversation, db1) →
      out.1 = [error_event "name 'CohereAgentService' is not defined"]
      ∧ messages db1 = messages db
      ∧ ∃ user_message,
          messages out.2 = messages db ++ [user_message]
          ∧ Message.role user_message = USER
          ∧ Message.content user_message = request_message request
          ∧ Message.sequence_number user_message
            = existing_message_count (Conversation.id conversation)
                (messages db) + 1.
Proof.
  cbv zeta. unfold event_generator.
  assert (∀ conversation db1,
            stream_conversation user_id request (utcnow 0%nat) db
              = inr (conversation, db1) → messages db1 = messages db) as Hsame.
  { unfold stream_conversation. intros conversation db1.
    repeat case_match; intros [= <- <-]; done. }
  destruct (stream_conversation user_id request (utcnow 0%nat) db)
    as [event|[conversation db1]] eqn:Hconv.
  - split_and!; [|done|intros ?? [=]].
    unfold stream_conversation in Hconv.
    repeat case_match; simplify_eq; by eexists.
  - pose proof (Hsame _ _ eq_refl) as Hm.
    change (load_global "CohereAgentService")
      with (@Raise unit (Exn "NameError"
                           "name 'CohereAgentService' is not defined")).
    cbn [fst snd exn_str messages]. split_and!.
    + by eexists.
    + rewrite Hm, filter_app, filter_cons_False, filter_nil, app_nil_r; done.
    + intros ?? [= <- <-]. split_and!; [done..|].
      eexists. rewrite Hm. split_and!; reflexivity.
Qed.

Lemma chat_stream_name_error_witness :
  let out :=
    event_generator alice (Build_ChatRequest "add milk" None) sample_agent
      sample_clock (ChatDb ∅ []) in
  out.1 = [error_event "name 'CohereAgentService' is not defined"]
  ∧ Message.role <$> messages out.2 = [USER].
Proof.
  pose proof (chat_stream_name_error alice (Build_ChatRequest "add milk" None)
                sample_agent sample_clock (ChatDb ∅ [])) as (_ & _ & Hnew).
  destruct (Hnew _ _ eq_refl) as (Hev & _ & user_message & Hmsgs & Hrole & _).
  split; [exact Hev|]. cbv zeta. rewrite Hmsgs. cbn. by rewrite Hrole.
Defined.

(* ===================================================================== *)
(** * Further properties of the tools *)
(* ===================================================================== *)

Lemma len_nonneg s : 0 ≤ Py.len s.
Proof. unfold Py.len. lia. Qed.

Lemma str_eqb_empty_false s : Py.str_eqb s "" = false → 0 < Py.len s.
Proof. destruct s; [done|]. intros _. unfold Py.len. cbn [String.length]. lia. Qed.

(** What a call of [create_task] that returned can have done. *)
Lemma create_task_inv ctx title description now now' rows r rows' :
  create_task_internal ctx title description now now' rows = (Return r, rows') →
  (result_status r = Some (VStr "error") ∧ rows' = rows)
  ∨ ∃ t task,
      title = Some t
      ∧ MCPContext.db_engine ctx = Connected
      ∧ 0 < Py.len (Py.strip t) ≤ 200
      ∧ task = Task.Build (fresh_id rows) (Py.strip t)
                 (if Py.truthy description then description else None)
                 false (MCPContext.user_id ctx) now now'
      ∧ (Py.truthy description = true →
         Py.len (default "" description) ≤ 2000)
      ∧ r = VDict [("status", VStr "success"); ("task", task_dict task)]
      ∧ rows' = <[fresh_id rows := task]> rows.
Proof.
  unfold create_task_internal. destruct title as [t|].
  2:{ intros [= <- <-]. by left. }
  destruct (negb (Py.truthy (Some t)) || Py.str_eqb (Py.strip t) "") eqn:Hreq.
  { intros [= <- <-]. by left. }
  apply orb_false_iff in Hreq as [_ Hne%str_eqb_empty_false].
  destruct (Z.ltb_spec 200 (Py.len (Py.strip t))).
  { intros [= <- <-]. by left. }
  destruct (Py.truthy description && (2000 <? Py.len (default "" description)))
    eqn:Hdesc.
  { intros [= <- <-]. by left. }
  run_session. destruct (MCPContext.db_engine ctx) eqn:Hc.
  2:{ intros [= <- <-]. by left. }
  intros [= <- <-]. right. eexists t, _. split_and!; try done; try lia.
  intros Ht. rewrite Ht in Hdesc. cbn in Hdesc. lia.
Qed.

(** What a call of [update_task] that returned can have done. *)
Lemma update_task_inv ctx task_id title description now rows r rows' :
  update_task_internal ctx task_id title description now rows = (Return r, rows') →
  (result_status r = Some (VStr "error") ∧ rows' = rows)
  ∨ ∃ task task',
      update_arguments_accepted title description = true
      ∧ MCPContext.db_engine ctx = Connected
      ∧ first_owned (MCPContext.user_id ctx) task_id rows = Some task
      ∧ task' = Task.Build (Task.id task)
                  (default (Task.title task) (Py.strip <$> title))
                  (match description with
                   | Some d => Some d
                   | None => Task.description task
                   end)
                  (Task.completed task) (Task.user_id task)
                  (Task.created_at task) now
      ∧ r = VDict [("status", VStr "success"); ("task", task_dict task')]
      ∧ rows' = <[Task.id task := task']> rows.
Proof.
  unfold update_task_internal, update_arguments_accepted.
  destruct title as [title|], description as [description|];
    cbv zeta; cbn [fmap option_fmap option_map from_option id];
    rewrite ?bool_decide_Some_empty, ?Z.leb_antisym;
    try (rewrite (bool_decide_false (None = Some "")) by done);
    change (Py.len "") with 0; change (200 <? 0) with false;
    change (2000 <? 0) with false; cbn match.
  all: repeat match goal with
       | |- context [Py.str_eqb ?a ?b] => destruct (Py.str_eqb a b)
       | |- context [?n <? Py.len ?x] => destruct (n <? Py.len x)
       end.
  all: try (intros [= <- <-]; by left).
  all: run_session; destruct (MCPContext.db_engine ctx) eqn:Hc;
    [|intros [= <- <-]; by left].
  all: destruct (first_owned (MCPContext.user_id ctx) task_id rows)
         as [task|] eqn:Ho; [|intros [= <- <-]; by left].
  all: intros [= <- <-]; right; by eexists task, _.
Qed.

(** What a call of [mark_complete] that returned can have done. *)
Lemma mark_complete_inv ctx task_id now rows r rows' :
  mark_complete_internal ctx task_id now rows = (Return r, rows') →
  (result_status r = Some (VStr "error") ∧ rows' = rows)
  ∨ ∃ task task',
      MCPContext.db_engine ctx = Connected
      ∧ first_owned (MCPContext.user_id ctx) task_id rows = Some task
      ∧ task' = Task.Build (Task.id task) (Task.title task)
                  (Task.description task) (negb (Task.completed task))
                  (Task.user_id task) (Task.created_at task) now
      ∧ result_status r = Some (VStr "success")
      ∧ rows' = <[Task.id task := task']> rows.
Proof.
  unfold mark_complete_internal. run_session.
  destruct (MCPContext.db_engine ctx) eqn:Hc; [|intros [= <- <-]; by left].
  destruct (first_owned (MCPContext.user_id ctx) task_id rows)
    as [task|] eqn:Ho; [|intros [= <- <-]; by left].
  intros [= <- <-]. right. by eexists task, _.
Qed.

Lemma mark_complete_owned_inv ctx task_id now rows r rows' :
  mark_complete_internal ctx task_id now rows = (Return r, rows') →
  result_status r = Some (VStr "success") →
  ∃ task,
    MCPContext.db_engine ctx = Connected
    ∧ first_owned (MCPContext.user_id ctx) task_id rows = Some task
    ∧ r = VDict [("status", VStr "success");
                 ("action", VStr (if negb (Task.completed task)
                                  then "marked_complete"
                                  else "marked_incomplete"));
                 ("task", task_dict
                    (Task.Build (Task.id task) (Task.title task)
                       (Task.description task) (negb (Task.completed task))
                       (Task.user_id task) (Task.created_at task) now))]
    ∧ rows' = <[Task.id task :=
                 Task.Build (Task.id task) (Task.title task)
                   (Task.description task) (negb (Task.completed task))
                   (Task.user_id task) (Task.created_at task) now]> rows.
Proof.
  unfold mark_complete_internal. run_session.
  destruct (MCPContext.db_engine ctx) eqn:Hc; [|by intros [= <- <-]].
  destruct (first_owned (MCPContext.user_id ctx) task_id rows)
    as [task|] eqn:Ho; [|by intros [= <- <-]].
  intros [= <- <-] _. by exists task.
Qed.

(** What a call of [delete_task] that returned can have done. *)
Lemma delete_task_inv ctx task_id rows r rows' :
  delete_task_internal ctx task_id rows = (Return r, rows') →
  (result_status r = Some (VStr "error") ∧ rows' = rows)
  ∨ ∃ task,
      MCPContext.db_engine ctx = Connected
      ∧ first_owned (MCPContext.user_id ctx) task_id rows = Some task
      ∧ r = VDict [("status", VStr "success");
                   ("message",
                    VStr ("Task '" +:+ Task.title task
                          +:+ "' deleted successfully"));
                   ("deleted_task_id", VInt task_id)]
      ∧ rows' = delete (Task.id task) rows.
Proof.
  unfold delete_task_internal. run_session.
  destruct (MCPContext.db_engine ctx) eqn:Hc; [|intros [= <- <-]; by left].
  destruct (first_owned (MCPContext.user_id ctx) task_id rows)
    as [task|] eqn:Ho; [|intros [= <- <-]; by left].
  intros [= <- <-]. right. by eexists task.
Qed.

(** [get_task] and [list_tasks] only read. *)
Lemma get_task_reads ctx task_id rows : (get_task_internal ctx task_id rows).2 = rows.
Proof.
  unfold get_task_internal. run_session. by repeat case_match; simplify_eq/=.
Qed.

Lemma list_tasks_reads ctx rows : (list_tasks_internal ctx rows).2 = rows.
Proof.
  unfold list_tasks_internal. run_session. by repeat case_match; simplify_eq/=.
Qed.

(** X1. A successful [create_task] stores exactly one new row, under a key
    that was free: it belongs to the user of the context, is not completed,
    carries the two clock readings, a trimmed title of 1 to 200 characters
    and no description or one of 1 to 2000 characters; the returned id is
    its key and every row that was there is as before. *)
Theorem create_task_stores_owned_task ctx title description now now' rows r rows' :
  create_task_internal ctx title description now now' rows = (Return r, rows') →
  result_status r = Some (VStr "success") →
  ∃ task,
    rows !! Task.id task = None
    ∧ rows' = <[Task.id task := task]> rows
    ∧ result_task_field "id" r = Some (VInt (Task.id task))
    ∧ Task.user_id task = MCPContext.user_id ctx
    ∧ Task.completed task = false
    ∧ Task.created_at task = now ∧ Task.updated_at task = now'
    ∧ Some (Task.title task) = Py.strip <$> title
    ∧ 0 < Py.len (Task.title task) ≤ 200
    ∧ match Task.description task with
      | Some d => description = Some d ∧ 0 < Py.len d ≤ 2000
      | None => Py.truthy description = false
      end
    ∧ ∀ k, k ≠ Task.id task → rows' !! k = rows !! k.
Proof.
  intros Hrun Hst.
  destruct (create_task_inv _ _ _ _ _ _ _ _ Hrun)
    as [[He _]|(t & task & -> & Hc & Hlen & -> & Hd & -> & ->)].
  { rewrite He in Hst. discriminate. }
  eexists. split_and!; try reflexivity; try done.
  - cbn [Task.id]. destruct (rows !! fresh_id rows) as [x|] eqn:Hx; [|done].
    pose proof (proj2 (fresh_id_above rows) _ (ex_intro _ x Hx)). lia.
  - cbn [Task.title]. lia.
  - cbn [Task.title]. lia.
  - cbn [Task.description]. destruct (Py.truthy description) eqn:Ht; [|done].
    destruct description as [[|c d]|]; try done.
    split; [done|]. specialize (Hd eq_refl). cbn [from_option id] in Hd.
    split; [|done]. unfold Py.len. cbn [String.length]. lia.
  - intros k Hk. by rewrite lookup_insert_ne.
Qed.

Lemma create_task_stores_owned_task_witness :
  ∃ task,
    sample_table !! Task.id task = None
    ∧ (create_task_internal alice_ctx (Some " Call mum ") (Some "Sunday") 20 21
         sample_table).2 = <[Task.id task := task]> sample_table
    ∧ result_task_field "id"
        (VDict [("status", VStr "success");
                ("task", task_dict (Task.Build 3 "Call mum" (Some "Sunday") false
                                      alice 20 21))])
      = Some (VInt (Task.id task))
    ∧ Task.user_id task = MCPContext.user_id alice_ctx
    ∧ Task.completed task = false
    ∧ Task.created_at task = 20 ∧ Task.updated_at task = 21
    ∧ Some (Task.title task) = Py.strip <$> Some " Call mum "
    ∧ 0 < Py.len (Task.title task) ≤ 200
    ∧ match Task.description task with
      | Some d => Some "Sunday" = Some d ∧ 0 < Py.len d ≤ 2000
      | None => Py.truthy (Some "Sunday") = false
      end
    ∧ ∀ k, k ≠ Task.id task →
        (create_task_internal alice_ctx (Some " Call mum ") (Some "Sunday") 20 21
           sample_table).2 !! k = sample_table !! k.
Proof.
  eapply (create_task_stores_owned_task alice_ctx (Some " Call mum ")
            (Some "Sunday") 20 21 sample_table).
  - vm_compute. reflexivity.
  - vm_compute. reflexivity.
Defined.

(** X2. A handler changes the table only when it returns success: a call of
    [create_task], [update_task], [mark_complete] or [delete_task] that
    returns an error result leaves every row as it was, and [get_task] and
    [list_tasks] never change the table at all. *)
Theorem failed_calls_change_nothing ctx rows :
  (∀ title description now now' r rows',
     create_task_internal ctx title description now now' rows = (Return r, rows') →
     result_status r = Some (VStr "error") → rows' = rows)
  ∧ (∀ task_id title description now r rows',
       update_task_internal ctx task_id title description now rows
         = (Return r, rows') →
       result_status r = Some (VStr "error") → rows' = rows)
  ∧ (∀ task_id now r rows',
       mark_complete_internal ctx task_id now rows = (Return r, rows') →
       result_status r = Some (VStr "error") → rows' = rows)
  ∧ (∀ task_id r rows',
       delete_task_internal ctx task_id rows = (Return r, rows') →
       result_status r = Some (VStr "error") → rows' = rows)
  ∧ (∀ task_id, (get_task_internal ctx task_id rows).2 = rows)
  ∧ (list_tasks_internal ctx rows).2 = rows.
Proof.
  split_and!.
  - intros * Hrun Hst.
    destruct (create_task_inv _ _ _ _ _ _ _ _ Hrun)
      as [[_ ?]|(t & task & _ & _ & _ & _ & _ & -> & _)]; [done|discriminate].
  - intros * Hrun Hst.
    destruct (update_task_inv _ _ _ _ _ _ _ _ Hrun)
      as [[_ ?]|(task & task' & _ & _ & _ & _ & -> & _)]; [done|discriminate].
  - intros * Hrun Hst.
    destruct (mark_complete_inv _ _ _ _ _ _ Hrun)
      as [[_ ?]|(task & task' & _ & _ & _ & Hs & _)]; [done|congruence].
  - intros * Hrun Hst.
    destruct (delete_task_inv _ _ _ _ _ Hrun)
      as [[_ ?]|(task & _ & _ & -> & _)]; [done|discriminate].
  - intros. apply get_task_reads.
  - apply list_tasks_reads.
Qed.

Lemma failed_calls_change_nothing_witness :
  (update_task_internal alice_ctx 2 (Some "mine now") None 20 sample_table).2
  = sample_table
  ∧ (delete_task_internal alice_ctx 2 sample_table).2 = sample_table.
Proof.
  pose proof (failed_calls_change_nothing alice_ctx sample_table)
    as (_ & Hupd & _ & Hdel & _).
  split.
  - eapply (Hupd 2 (Some "mine now") None 20);
      [vm_compute; reflexivity|reflexivity].
  - eapply (Hdel 2); [vm_compute; reflexivity|reflexivity].
Defined.

(** X3. After a successful [delete_task] the row is gone for good: it was a
    row of the context's user, the table is the old one without that key,
    and [get_task], [mark_complete], [delete_task] and [update_task] (with
    arguments it accepts) on the same id all return "Task not found" and
    change nothing. *)
Theorem delete_task_removes_row ctx task_id rows r rows' :
  table_wf rows →
  delete_task_internal ctx task_id rows = (Return r, rows') →
  result_status r = Some (VStr "success") →
  (∃ task, rows !! task_id = Some task
           ∧ Task.user_id task = MCPContext.user_id ctx)
  ∧ rows' = delete task_id rows
  ∧ rows' !! task_id = None
  ∧ (∀ k, k ≠ task_id → rows' !! k = rows !! k)
  ∧ get_task_internal ctx task_id rows' = (Return task_not_found, rows')
  ∧ delete_task_internal ctx task_id rows' = (Return task_not_found, rows')
  ∧ (∀ now, mark_complete_internal ctx task_id now rows'
            = (Return task_not_found, rows'))
  ∧ (∀ title description now,
       update_arguments_accepted title description = true →
       update_task_internal ctx task_id title description now rows'
       = (Return task_not_found, rows')).
Proof.
  intros Hwf Hrun Hst.
  destruct (delete_task_inv _ _ _ _ _ Hrun)
    as [[He _]|(task & Hc & Ho & _ & ->)]; [congruence|].
  apply first_owned_Some in Ho as [Hrow Hown].
  destruct (Hwf _ _ Hrow) as [-> Hpos].
  assert (first_owned (MCPContext.user_id ctx) task_id (delete task_id rows)
          = None) as Hgone by apply first_owned_absent, lookup_delete_eq.
  split_and!.
  - by exists task.
  - done.
  - apply lookup_delete_eq.
  - intros k Hk. by rewrite lookup_delete_ne.
  - by apply get_task_missing.
  - by apply delete_task_missing.
  - intros. by apply mark_complete_missing.
  - intros title description now Hacc.
    destruct (update_task_missing ctx task_id title description now _ _
                Hc Hgone Hgone) as (r' & Hr & _ & _ & Hnf).
    by rewrite Hr, (Hnf Hacc).
Qed.

Lemma delete_task_removes_row_witness :
  let rows' := (delete_task_internal alice_ctx 1 sample_table).2 in
  (∃ task, sample_table !! 1 = Some task
           ∧ Task.user_id task = MCPContext.user_id alice_ctx)
  ∧ rows' = delete 1 sample_table
  ∧ rows' !! 1 = None
  ∧ (∀ k, k ≠ 1 → rows' !! k = sample_table !! k)
  ∧ get_task_internal alice_ctx 1 rows' = (Return task_not_found, rows')
  ∧ delete_task_internal alice_ctx 1 rows' = (Return task_not_found, rows')
  ∧ (∀ now, mark_complete_internal alice_ctx 1 now rows'
            = (Return task_not_found, rows'))
  ∧ (∀ title description now,
       update_arguments_accepted title description = true →
       update_task_internal alice_ctx 1 title description now rows'
       = (Return task_not_found, rows')).
Proof.
  eapply (delete_task_removes_row alice_ctx 1 sample_table).
  - apply (bool_decide_unpack (table_wf sample_table)). vm_compute. exact I.
  - vm_compute. reflexivity.
  - vm_compute. reflexivity.
Defined.

Lemma accepted_title t description :
  update_arguments_accepted (Some t) description = true →
  0 < Py.len (Py.strip t) ≤ 200.
Proof.
  unfold update_arguments_accepted.
  destruct description; intros [[Hne%negb_true_iff Hle%Z.leb_le]%andb_true_iff
                                  _]%andb_true_iff;
    split; (by apply str_eqb_empty_false) || done.
Qed.

Lemma accepted_description title d :
  update_arguments_accepted title (Some d) = true → Py.len d ≤ 2000.
Proof.
  unfold update_arguments_accepted.
  destruct title; intros [_ Hle%Z.leb_le]%andb_true_iff; done.
Qed.

(** X4. A successful [update_task] rewrites one row of the context's user
    and nothing else: the title becomes the trimmed new title when one is
    given (1 to 200 characters), the description becomes the new description
    when one is given (at most 2000 characters), [updated_at] becomes the
    clock reading; a field that is not given keeps its value, as do the id,
    the owner, the completion flag and [created_at]; every other row of the
    table is as before. *)
Theorem update_task_frame ctx task_id title description now rows r rows' :
  table_wf rows →
  update_task_internal ctx task_id title description now rows = (Return r, rows') →
  result_status r = Some (VStr "success") →
  ∃ task task',
    rows !! task_id = Some task
    ∧ Task.user_id task = MCPContext.user_id ctx
    ∧ rows' !! task_id = Some task'
    ∧ Task.title task' = default (Task.title task) (Py.strip <$> title)
    ∧ Task.description task' = match description with
                               | Some d => Some d
                               | None => Task.description task
                               end
    ∧ Task.updated_at task' = now
    ∧ Task.id task' = Task.id task
    ∧ Task.user_id task' = Task.user_id task
    ∧ Task.completed task' = Task.completed task
    ∧ Task.created_at task' = Task.created_at task
    ∧ (is_Some title → 0 < Py.len (Task.title task') ≤ 200)
    ∧ (∀ d, description = Some d → Py.len d ≤ 2000)
    ∧ ∀ k, k ≠ task_id → rows' !! k = rows !! k.
Proof.
  intros Hwf Hrun Hst.
  destruct (update_task_inv _ _ _ _ _ _ _ _ Hrun)
    as [[He _]|(task & task' & Hacc & Hc & Ho & -> & -> & ->)]; [congruence|].
  apply first_owned_Some in Ho as [Hrow Hown].
  destruct (Hwf _ _ Hrow) as [Hid Hpos].
  eexists task, _. do 2 (split; [done|]).
  split; [rewrite Hid; apply lookup_insert_eq|].
  split_and!; try done.
  - intros [t ->]. cbn [Task.title fmap option_fmap option_map from_option id].
    by eapply accepted_title.
  - intros d ->. by eapply accepted_description.
  - intros k Hk. rewrite Hid. by rewrite lookup_insert_ne.
Qed.

Lemma update_task_frame_witness :
  let rows' :=
    (update_task_internal alice_ctx 1 (Some " Buy oat milk ") None 20
       sample_table).2 in
  ∃ task task',
    sample_table !! 1 = Some task
    ∧ Task.user_id task = MCPContext.user_id alice_ctx
    ∧ rows' !! 1 = Some task'
    ∧ Task.title task'
      = default (Task.title task) (Py.strip <$> Some " Buy oat milk ")
    ∧ Task.description task' = Task.description task
    ∧ Task.updated_at task' = 20
    ∧ Task.id task' = Task.id task
    ∧ Task.user_id task' = Task.user_id task
    ∧ Task.completed task' = Task.completed task
    ∧ Task.created_at task' = Task.created_at task
    ∧ (is_Some (Some " Buy oat milk ") → 0 < Py.len (Task.title task') ≤ 200)
    ∧ (∀ d, None = Some d → Py.len d ≤ 2000)
    ∧ ∀ k, k ≠ 1 → rows' !! k = sample_table !! k.
Proof.
  eapply (update_task_frame alice_ctx 1 (Some " Buy oat milk ") None 20
            sample_table).
  - apply (bool_decide_unpack (table_wf sample_table)). vm_compute. exact I.
  - vm_compute. reflexivity.
  - vm_compute. reflexivity.
Defined.

(** ** Listing *)

Lemma filter_fmap_length {A B} (f : A → B) (P : B → Prop)
    `{!∀ y, Decision (P y)} (l : list A) :
  length (filter P (f <$> l)) = length (filter (λ x, P (f x)) l).
Proof.
  induction l as [|x l IH]; [done|].
  rewrite fmap_cons, !filter_cons. case_decide; cbn; by rewrite IH.
Qed.

Lemma filter_complement_length {A} (P Q : A → Prop)
    `{!∀ x, Decision (P x), !∀ x, Decision (Q x)} (l : list A) :
  (∀ x, P x ↔ ¬ Q x) →
  (length (filter P l) + length (filter Q l) = length l)%nat.
Proof.
  intros HPQ. induction l as [|x l IH]; [done|].
  rewrite !filter_cons.
  destruct (decide (P x)) as [HP|HP], (decide (Q x)) as [HQ|HQ]; cbn.
  - by apply HPQ in HP.
  - lia.
  - lia.
  - destruct HP. by apply HPQ.
Qed.

(** X5. On a reachable store [list_tasks] returns exactly the rows of the
    context's user: a dict is in [tasks] if and only if it is the dict of a
    stored row of that user, no id occurs twice, [total] is the length of
    [tasks], [completed_count] is the number of entries whose [completed] is
    true and [completed_count + pending_count = total]. *)
Theorem list_tasks_exact ctx rows :
  table_wf rows →
  MCPContext.db_engine ctx = Connected →
  ∃ r completed_count pending_count,
    list_tasks_internal ctx rows = (Return r, rows)
    ∧ (∀ d, d ∈ result_tasks r ↔
            ∃ k task, rows !! k = Some task
                      ∧ Task.user_id task = MCPContext.user_id ctx
                      ∧ d = task_dict task)
    ∧ NoDup (result_task_ids r)
    ∧ dict_get "total" (dict_of r)
      = Some (VInt (Z.of_nat (length (result_tasks r))))
    ∧ dict_get "completed_count" (dict_of r) = Some (VInt completed_count)
    ∧ dict_get "pending_count" (dict_of r) = Some (VInt pending_count)
    ∧ completed_count
      = Z.of_nat (length (filter (λ d, dict_completed d = true) (result_tasks r)))
    ∧ completed_count + pending_count = Z.of_nat (length (result_tasks r)).
Proof.
  intros Hwf Hc. unfold list_tasks_internal. run_session. rewrite Hc.
  set (own := filter (λ r, Task.user_id r = MCPContext.user_id ctx)
                (map_to_list rows).*2).
  eexists _, _, _. split; [reflexivity|].
  assert (result_tasks
            (VDict [("tasks", VList (map task_dict own));
                    ("total", VInt (Z.of_nat (length own)));
                    ("completed_count",
                     VInt (Z.of_nat (length (filter (λ r, Task.completed r = true) own))));
                    ("pending_count",
                     VInt (Z.of_nat (length (filter (λ r, Task.completed r = false) own))))])
          = task_dict <$> own) as Htasks by reflexivity.
  rewrite Htasks. split_and!.
  - intros d. rewrite list_elem_of_fmap. split.
    + intros (task & -> & [Hu Hin]%list_elem_of_filter).
      apply list_elem_of_fmap in Hin as ([k task'] & -> & Hin).
      apply elem_of_map_to_list in Hin. by exists k, task'.
    + intros (k & task & Hrow & Hu & ->). exists task. split; [done|].
      apply list_elem_of_filter. split; [done|].
      apply list_elem_of_fmap. exists (k, task). split; [done|].
      by apply elem_of_map_to_list.
  - unfold result_task_ids. rewrite Htasks.
    assert (omap (λ d, dict_get "id" (dict_of d)) (task_dict <$> own)
            = VInt <$> (Task.id <$> own)) as ->.
    { induction own as [|t own IH]; [done|]. cbn. by rewrite IH. }
    apply NoDup_fmap_2; [by intros ?? [=]|].
    eapply sublist_NoDup; [|apply fmap_sublist, sublist_filter].
    assert (Task.id <$> (map_to_list rows).*2 = (map_to_list rows).*1) as ->.
    { rewrite <- list_fmap_compose. apply Forall_fmap_ext_1, Forall_forall.
      intros [k task] Hin%elem_of_map_to_list. by destruct (Hwf _ _ Hin). }
    apply NoDup_fst_map_to_list.
  - cbn. by rewrite length_fmap.
  - reflexivity.
  - reflexivity.
  - rewrite filter_fmap_length. do 2 f_equal.
    apply list_filter_iff. intros t. unfold dict_completed. cbn.
    by destruct (Task.completed t).
  - rewrite length_fmap, <- Nat2Z.inj_add. f_equal.
    apply filter_complement_length. intros t.
    destruct (Task.completed t); naive_solver.
Qed.

Lemma list_tasks_exact_witness :
  ∃ r completed_count pending_count,
    list_tasks_internal alice_ctx sample_table = (Return r, sample_table)
    ∧ (∀ d, d ∈ result_tasks r ↔
            ∃ k task, sample_table !! k = Some task
                      ∧ Task.user_id task = MCPContext.user_id alice_ctx
                      ∧ d = task_dict task)
    ∧ NoDup (result_task_ids r)
    ∧ dict_get "total" (dict_of r)
      = Some (VInt (Z.of_nat (length (result_tasks r))))
    ∧ dict_get "completed_count" (dict_of r) = Some (VInt completed_count)
    ∧ dict_get "pending_count" (dict_of r) = Some (VInt pending_count)
    ∧ completed_count
      = Z.of_nat (length (filter (λ d, dict_completed d = true) (result_tasks r)))
    ∧ completed_count + pending_count = Z.of_nat (length (result_tasks r)).
Proof.
  apply (list_tasks_exact alice_ctx sample_table).
  - apply (bool_decide_unpack (table_wf sample_table)). vm_compute. exact I.
  - reflexivity.
Defined.

(** ** Reading back what was written *)

Lemma get_task_owned ctx task_id rows task :
  MCPContext.db_engine ctx = Connected → 0 < task_id →
  first_owned (MCPContext.user_id ctx) task_id rows = Some task →
  get_task_internal ctx task_id rows
  = (Return (VDict [("status", VStr "success"); ("task", task_dict task)]), rows).
Proof.
  intros Hc Hpos Ho. unfold get_task_internal.
  destruct (task_id <=? 0) eqn:Hle; [lia|].
  run_session. by rewrite Hc, Ho.
Qed.

(** X6. What a successful [create_task], [update_task] or [mark_complete]
    returned is what [get_task] returns right afterwards for the same user
    and id: for [create_task] and [update_task] the very same result, for
    [mark_complete] a result with the same ["task"]. *)
Theorem get_task_after_write ctx rows :
  table_wf rows →
  (∀ title description now now' r rows',
     create_task_internal ctx title description now now' rows = (Return r, rows') →
     result_status r = Some (VStr "success") →
     ∃ new_id, result_task_field "id" r = Some (VInt new_id)
               ∧ get_task_internal ctx new_id rows' = (Return r, rows'))
  ∧ (∀ task_id title description now r rows',
       update_task_internal ctx task_id title description now rows
         = (Return r, rows') →
       result_status r = Some (VStr "success") →
       get_task_internal ctx task_id rows' = (Return r, rows'))
  ∧ (∀ task_id now r rows',
       mark_complete_internal ctx task_id now rows = (Return r, rows') →
       result_status r = Some (VStr "success") →
       ∃ g, get_task_internal ctx task_id rows' = (Return g, rows')
            ∧ result_status g = Some (VStr "success")
            ∧ dict_get "task" (dict_of g) = dict_get "task" (dict_of r)).
Proof.
  intros Hwf. split_and!.
  - intros * Hrun Hst.
    destruct (create_task_inv _ _ _ _ _ _ _ _ Hrun)
      as [[He _]|(t & task & -> & Hc & Hlen & -> & Hd & -> & ->)];
      [congruence|].
    exists (fresh_id rows). split; [done|].
    apply get_task_owned; [done|apply (proj1 (fresh_id_above rows))|].
    apply first_owned_mine; [apply lookup_insert_eq|done].
  - intros * Hrun Hst.
    destruct (update_task_inv _ _ _ _ _ _ _ _ Hrun)
      as [[He _]|(task & task' & _ & Hc & Ho & -> & -> & ->)]; [congruence|].
    apply first_owned_Some in Ho as [Hrow Hown].
    destruct (Hwf _ _ Hrow) as [Hid Hpos]. rewrite Hid.
    apply get_task_owned; [done..|].
    apply first_owned_mine; [apply lookup_insert_eq|done].
  - intros * Hrun Hst.
    destruct (mark_complete_owned_inv ctx task_id now rows r rows' Hrun Hst)
      as (task & Hc & Ho & -> & ->).
    apply first_owned_Some in Ho as [Hrow Hown].
    destruct (Hwf _ _ Hrow) as [Hid Hpos]. rewrite Hid.
    eexists. split.
    { apply get_task_owned; [done..|].
      apply first_owned_mine; [apply lookup_insert_eq|done]. }
    split; reflexivity.
Qed.

Lemma get_task_after_write_witness :
  get_task_internal alice_ctx 1
    (update_task_internal alice_ctx 1 None (Some "2 litres") 20 sample_table).2
  = (Return (VDict [("status", VStr "success");
                    ("task", task_dict (Task.Build 1 "Buy milk" (Some "2 litres")
                                          false alice 10 20))]),
     (update_task_internal alice_ctx 1 None (Some "2 litres") 20 sample_table).2).
Proof.
  pose proof (get_task_after_write alice_ctx sample_table) as Hraw.
  destruct Hraw as (_ & Hupd & _).
  - apply (bool_decide_unpack (table_wf sample_table)). vm_compute. exact I.
  - eapply (Hupd 1 None (Some "2 litres") 20);
      [vm_compute; reflexivity|reflexivity].
Defined.

(* ===================================================================== *)
(** * The executor and the orchestrator *)
(* ===================================================================== *)


Lemma others_unchanged_trans uid rows1 rows2 rows3 :
  others_unchanged uid rows1 rows2 → others_unchanged uid rows2 rows3 →
  others_unchanged uid rows1 rows3.
Proof. intros H12 H23 k r Hu. by rewrite (H23 k r Hu), (H12 k r Hu). Qed.





Lemma confined_bind {A B} uid (m : Session A) (f : A → Session B) :
  confined uid m → (∀ a, confined uid (f a)) → confined uid (m ≫= f).
Proof.
  intros Hm Hf rows Hwf. unfold mbind, session_bind.
  destruct (Hm rows Hwf) as [Hwf1 Ho1].
  destruct (m rows) as [[a|e] rows1]; [|done].
  destruct (Hf a rows1 Hwf1) as [Hwf2 Ho2]. split; [done|].
  by eapply others_unchanged_trans.
Qed.

Lemma confined_try_except {A} uid (body : Session A) handler :
  confined uid body → (∀ e, confined uid (handler e)) →
  confined uid (try_except body handler).
Proof.
  intros Hm Hf rows Hwf. unfold try_except.
  destruct (Hm rows Hwf) as [Hwf1 Ho1].
  destruct (body rows) as [[a|e] rows1]; [done|].
  destruct (Hf e rows1 Hwf1) as [Hwf2 Ho2]. split; [done|].
  by eapply others_unchanged_trans.
Qed.



(** ** Calls *)














(** ** What the executor returns *)

Lemma yields_ret {A} (P : A → Prop) a : P a → yields P (mret a : Session A).
Proof. intros HP rows a' [= <-]. done. Qed.

Lemma yields_raise {A} (P : A → Prop) e : yields P (raise e : Session A).
Proof. intros rows a' [=]. Qed.

Lemma yields_bind {A B} (P : B → Prop) (m : Session A) (f : A → Session B) :
  (∀ a, yields P (f a)) → yields P (m ≫= f).
Proof.
  intros Hf rows b. unfold mbind, session_bind.
  destruct (m rows) as [[a|e] rows1]; [apply Hf|done].
Qed.

Lemma yields_envelope (call : Session value) :
  (∀ rows, returns_envelope call rows) → yields status_envelope call.
Proof.
  intros Henv rows r Hr. destruct (Henv rows) as (r' & Hr' & He).
  rewrite Hr in Hr'. by injection Hr' as ->.
Qed.


(** A followed session that returns results of shape [P], or raises. *)
Lemma followed_yields {A} (P : A → Prop) (s : Session A) rows o rows' :
  yields P s → followed s rows = Some (o, rows') →
  match o with Return a => P a | Raise _ => True end.
Proof.
  intros Hy [= Hrun]. destruct o as [a|e]; [|done].
  apply (Hy rows). by rewrite Hrun.
Qed.







(** ** The tool loop *)

Lemma execute_tool_calls_app ctx json_loads duration_ms clk i before after rows :
  AgentService.execute_tool_calls ctx json_loads duration_ms clk i
    (before ++ after) rows
  = match AgentService.execute_tool_calls ctx json_loads duration_ms clk i
            before rows with
    | Some (Return executed, rows1) =>
        match AgentService.execute_tool_calls ctx json_loads duration_ms clk
                (i + length before) after rows1 with
        | Some (Return executed', rows2) =>
            Some (Return (executed ++ executed'), rows2)
        | other => other
        end
    | other => other
    end.
Proof.
  revert i rows. induction before as [|tc before IH]; intros i rows.
  { cbn. rewrite Nat.add_0_r.
    by destruct (AgentService.execute_tool_calls _ _ _ _ _ after rows)
      as [[[]]|]. }
  cbn [app AgentService.execute_tool_calls length].
  unfold mbind, call_bind, followed.
  destruct (AgentService.decode_arguments json_loads
              (AgentService.tool_call_arguments tc)) as [tool_args|e]; [|done].
  destruct (AgentService.execute_tool ctx (AgentService.tool_call_name tc)
              tool_args (clk i) rows) as [[[tool_result|e] rows1]|]; [|done..].
  rewrite IH. rewrite <- Nat.add_succ_comm.
  destruct (AgentService.execute_tool_calls ctx json_loads duration_ms clk (S i)
              before rows1) as [[[executed|e] rows2]|]; [|done..].
  unfold mret, call_ret.
  destruct (AgentService.execute_tool_calls ctx json_loads duration_ms clk
              (S i + length before) after rows2) as [[[executed'|e] rows3]|];
    reflexivity.
Qed.





(** X10. How a turn ends without a reply. If the provider's first call
    fails, no tool runs, the table is untouched and the exception leaves
    [process_message]. If a payload does not decode, the exception of
    [json.loads] leaves [process_message]: the calls proposed before it
    have run and what they did to the table stays done, the calls proposed
    after it never run, and the provider is not asked again. If the
    provider's call after the tools fails, its exception leaves
    [process_message] too, and again what the tools did stays done. If the
    provider answers without tool calls, the reply is its text with
    [tool_calls] set to [None], and nothing is executed. *)
Theorem process_message_failures ctx model json_loads duration_ms clk rows :
  (∀ e final,
     AgentService.process_message ctx model json_loads duration_ms clk
       (Raise e) final rows = Some (Raise e, rows))
  ∧ (∀ response final,
       AgentService.message_tool_calls response = [] →
       AgentService.process_message ctx model json_loads duration_ms clk
         (Return response) final rows
       = Some (Return (VDict [("content",
                               VStr (default "" (AgentService.message_content
                                                   response)));
                              ("tool_calls", VNone);
                              ("model", VStr model);
                              ("finish_reason",
                               VStr (AgentService.finish_reason response))]),
               rows))
  ∧ (∀ response before tc after e executed rows1 final,
       AgentService.message_tool_calls response = before ++ tc :: after →
       AgentService.execute_tool_calls ctx json_loads duration_ms clk 0 before
         rows = Some (Return executed, rows1) →
       AgentService.decode_arguments json_loads
         (AgentService.tool_call_arguments tc) = Raise e →
       AgentService.process_message ctx model json_loads duration_ms clk
         (Return response) final rows = Some (Raise e, rows1))
  ∧ (∀ response e executed rows1,
       AgentService.message_tool_calls response ≠ [] →
       AgentService.execute_tool_calls ctx json_loads duration_ms clk 0
         (AgentService.message_tool_calls response) rows
       = Some (Return executed, rows1) →
       AgentService.process_message ctx model json_loads duration_ms clk
         (Return response) (Raise e) rows = Some (Raise e, rows1)).
Proof.
  split_and!.
  - done.
  - intros response final Hnone.
    unfold AgentService.process_message, call_try_except. by rewrite Hnone.
  - intros response before tc after e executed rows1 final Htcs Hbefore Hdec.
    assert (AgentService.execute_tool_calls ctx json_loads duration_ms clk 0
              (before ++ tc :: after) rows = Some (Raise e, rows1)) as Hrun.
    { rewrite execute_tool_calls_app, Hbefore.
      cbn [AgentService.execute_tool_calls]. unfold mbind, call_bind, followed.
      by rewrite Hdec. }
    unfold AgentService.process_message, call_try_except. rewrite Htcs.
    destruct (before ++ tc :: after) as [|tc' rest] eqn:Happ.
    { by destruct before. }
    unfold mbind, call_bind. by rewrite Hrun.
  - intros response e executed rows1 Hne Hrun.
    unfold AgentService.process_message, call_try_except.
    destruct (AgentService.message_tool_calls response) as [|tc rest] eqn:Htc;
      [done|].
    unfold mbind, call_bind. by rewrite Hrun.
Qed.

Lemma process_message_failures_witness :
  AgentService.process_message alice_ctx "gpt-4o-mini" sample_json_loads
    sample_durations sample_clocks
    (Return (AgentService.Completion None
               [AgentService.ToolCall "call_1" "mark_complete"
                  (Some payload_task_1);
                AgentService.ToolCall "call_2" "delete_task"
                  (Some payload_cut_short);
                AgentService.ToolCall "call_3" "delete_task"
                  (Some payload_task_1)]
               "tool_calls"))
    (Return final_reply) sample_table
  = Some (Raise (JSONDecodeError
                   "Expecting ',' delimiter: line 1 column 14 (char 13)"),
          <[1 := Task.Build 1 "Buy milk" None true alice 10 20]> sample_table).
Proof.
  pose proof (process_message_failures alice_ctx "gpt-4o-mini"
                sample_json_loads sample_durations sample_clocks sample_table)
    as (_ & _ & Hdecode & _).
  eapply (Hdecode _ [AgentService.ToolCall "call_1" "mark_complete"
                       (Some payload_task_1)]).
  - reflexivity.
  - vm_compute. reflexivity.
  - vm_compute. reflexivity.
Defined.

(* ===================================================================== *)
(** * The conversation service *)
(* ===================================================================== *)

#[local] Instance sequence_asc_total : Total sequence_asc.
Proof. intros a b. unfold sequence_asc. lia. Qed.

#[local] Instance sequence_asc_trans : Transitive sequence_asc.
Proof. intros a b c. unfold sequence_asc. lia. Qed.

#[local] Instance created_desc_total : Total created_desc.
Proof. intros a b. unfold created_desc. lia. Qed.

#[local] Instance created_desc_trans : Transitive created_desc.
Proof. intros a b c. unfold created_desc. lia. Qed.

#[local] Instance updated_desc_total : Total updated_desc.
Proof. intros a b. unfold updated_desc. lia. Qed.

#[local] Instance updated_desc_trans : Transitive updated_desc.
Proof. intros a b c. unfold updated_desc. lia. Qed.

(** X11. For a conversation id that is not a conversation of the user,
    whether it exists for another user or for nobody, the service answers
    the same way and writes nothing: [create_message] returns [None],
    [soft_delete_message] and [delete_conversation] return [False], the
    history is empty and the message count is 0. *)
Theorem conversation_scoping cid uid db :
  (∀ c, conversations db !! cid = Some c → Conversation.user_id c ≠ uid) →
  (∀ role content tool_calls now now',
     ConversationService.create_message cid uid role content tool_calls now now' db
     = (None, db))
  ∧ (∀ mid now,
       ConversationService.soft_delete_message mid cid uid now db = (false, db))
  ∧ delete_conversation cid uid db = (false, db)
  ∧ (∀ include_deleted,
       ConversationService.get_conversation_history cid uid include_deleted db = [])
  ∧ get_message_count cid uid db = 0.
Proof.
  intros Hnot.
  assert (ConversationService.get_conversation cid uid db = None) as Hget.
  { unfold ConversationService.get_conversation.
    destruct (conversations db !! cid) as [c|] eqn:Hc; [|done].
    by rewrite bool_decide_false by by apply Hnot. }
  unfold ConversationService.create_message,
    ConversationService.soft_delete_message, delete_conversation,
    ConversationService.get_conversation_history, get_message_count.
  rewrite Hget. done.
Qed.

Lemma conversation_scoping_witness :
  (∀ role content tool_calls now now',
     ConversationService.create_message 1 bob role content tool_calls now now'
       sample_chat_db = (None, sample_chat_db))
  ∧ (∀ mid now,
       ConversationService.soft_delete_message mid 1 bob now sample_chat_db
       = (false, sample_chat_db))
  ∧ delete_conversation 1 bob sample_chat_db = (false, sample_chat_db)
  ∧ (∀ include_deleted,
       ConversationService.get_conversation_history 1 bob include_deleted
         sample_chat_db = [])
  ∧ get_message_count 1 bob sample_chat_db = 0.
Proof.
  apply (conversation_scoping 1 bob sample_chat_db).
  intros c Hc. vm_compute in Hc. injection Hc as <-. vm_compute. discriminate.
Defined.

(** X12. For the owner of the conversation, [get_conversation_history]
    returns the messages of that conversation and of no other, each one
    once, ordered by ascending sequence number; soft-deleted messages are
    left out unless [include_deleted] is set; and [get_message_count] is
    the length of the history without the soft-deleted messages. *)
Theorem conversation_history_sorted cid uid db c :
  conversations db !! cid = Some c →
  Conversation.user_id c = uid →
  (∀ include_deleted,
     let history :=
       ConversationService.get_conversation_history cid uid include_deleted db in
     StronglySorted sequence_asc history
     ∧ history ≡ₚ filter (λ m, Message.conversation_id m = cid
                               ∧ (include_deleted = true
                                  ∨ Message.deleted_at m = None))
                    (messages db))
  ∧ get_message_count cid uid db
    = Z.of_nat (length (ConversationService.get_conversation_history cid uid
                          false db)).
Proof.
  intros Hc Hu.
  assert (ConversationService.get_conversation cid uid db = Some c) as Hget.
  { unfold ConversationService.get_conversation.
    by rewrite Hc, bool_decide_true. }
  unfold ConversationService.get_conversation_history, get_message_count.
  rewrite Hget. split.
  - intros include_deleted. cbv zeta. split.
    + apply StronglySorted_merge_sort; apply _.
    + rewrite merge_sort_Permutation. destruct include_deleted.
      * erewrite list_filter_iff; [done|]. intros m. intuition (try discriminate).
      * rewrite list_filter_filter.
        erewrite list_filter_iff; [done|]. intros m. intuition (try discriminate).
  - cbv zeta. rewrite merge_sort_Permutation, list_filter_filter.
    do 2 f_equal. apply list_filter_iff. intros m. intuition (try discriminate).
Qed.

Lemma conversation_history_sorted_witness :
  (∀ include_deleted,
     let history :=
       ConversationService.get_conversation_history 1 alice include_deleted
         sample_chat_db in
     StronglySorted sequence_asc history
     ∧ history ≡ₚ filter (λ m, Message.conversation_id m = 1
                               ∧ (include_deleted = true
                                  ∨ Message.deleted_at m = None))
                    (messages sample_chat_db))
  ∧ get_message_count 1 alice sample_chat_db
    = Z.of_nat (length (ConversationService.get_conversation_history 1 alice
                          false sample_chat_db)).
Proof.
  eapply (conversation_history_sorted 1 alice sample_chat_db).
  - vm_compute. reflexivity.
  - reflexivity.
Defined.

Lemma fmap_fixed {A} (g : A → A) (l : list A) :
  (∀ x, x ∈ l → g x = x) → g <$> l = l.
Proof.
  induction l as [|x l IH]; intros Hg; [done|].
  rewrite fmap_cons, Hg by (by left). f_equal. apply IH.
  intros y Hy. apply Hg. by right.
Qed.

(** X13. With distinct primary keys, a [soft_delete_message] that returns
    [True] rewrites exactly one row of [messages], in place: the row with
    the given id in the given conversation, whose [deleted_at] becomes the
    clock reading while all its other fields stay; every other row, the
    order of the rows and the [conversations] table are as before. A call
    that returns [False] changes nothing. *)
Theorem soft_delete_message_effect mid cid uid now db deleted db' :
  NoDup (Message.id <$> messages db) →
  ConversationService.soft_delete_message mid cid uid now db = (deleted, db') →
  if deleted
  then conversations db' = conversations db
       ∧ ∃ before m after,
           messages db = before ++ m :: after
           ∧ Message.id m = mid
           ∧ Message.conversation_id m = cid
           ∧ messages db' = before ++ mark_deleted now m :: after
  else db' = db.
Proof.
  intros Hids. unfold ConversationService.soft_delete_message.
  destruct (ConversationService.get_conversation cid uid db);
    [|by intros [= <- <-]].
  destruct (head _) as [m|] eqn:Hm; [|by intros [= <- <-]].
  intros [= <- <-]. split; [done|].
  apply head_Some_elem_of, list_elem_of_filter in Hm as [[Hid Hconv] Hin].
  destruct (list_elem_of_split _ _ Hin) as (before & after & Hsplit).
  exists before, m, after. split_and!; [done..|].
  cbn [messages]. unfold update_message. cbn [Message.id].
  rewrite Hsplit in Hids |- *.
  rewrite fmap_app, fmap_cons in Hids.
  apply NoDup_app in Hids as (_ & Hbefore & [Hafter _]%NoDup_cons).
  rewrite fmap_app, fmap_cons, bool_decide_true by done.
  f_equal; [|f_equal].
  - apply fmap_fixed. intros x Hx. rewrite bool_decide_false; [done|].
    intros Heq. apply (Hbefore (Message.id x)).
    + by apply list_elem_of_fmap_2.
    + rewrite Heq. by left.
  - apply fmap_fixed. intros x Hx. rewrite bool_decide_false; [done|].
    intros Heq. apply Hafter. rewrite <- Heq. by apply list_elem_of_fmap_2.
Qed.

Lemma soft_delete_message_effect_witness :
  conversations sample_chat_db = conversations three_messages_db
  ∧ ∃ before m after,
      messages three_messages_db = before ++ m :: after
      ∧ Message.id m = 2
      ∧ Message.conversation_id m = 1
      ∧ messages sample_chat_db = before ++ mark_deleted 13 m :: after.
Proof.
  apply (soft_delete_message_effect 2 1 alice 13 three_messages_db true
           sample_chat_db).
  - apply (bool_decide_unpack _). vm_compute. exact I.
  - vm_compute. reflexivity.
Defined.

(** X14. [delete_conversation] by the owner removes the conversation and,
    with it, every one of its messages, and nothing else: the other
    conversations and the messages of the other conversations, in their
    order, stay. Afterwards the conversation is gone for its former owner
    too: the history is empty and [create_message] returns [None]. *)
Theorem delete_conversation_cascades cid uid db c :
  conversations_wf db →
  conversations db !! cid = Some c →
  Conversation.user_id c = uid →
  ∃ db',
    delete_conversation cid uid db = (true, db')
    ∧ conversations db' = delete cid (conversations db)
    ∧ (∀ m, m ∈ messages db' → Message.conversation_id m ≠ cid)
    ∧ (∀ other, other ≠ cid →
         filter (λ m, Message.conversation_id m = other) (messages db')
         = filter (λ m, Message.conversation_id m = other) (messages db))
    ∧ (∀ include_deleted,
         ConversationService.get_conversation_history cid uid include_deleted db'
         = [])
    ∧ (∀ role content tool_calls now now',
         ConversationService.create_message cid uid role content tool_calls
           now now' db' = (None, db')).
Proof.
  intros Hwf Hc Hu. unfold delete_conversation.
  assert (ConversationService.get_conversation cid uid db = Some c) as Hget.
  { unfold ConversationService.get_conversation.
    by rewrite Hc, bool_decide_true. }
  rewrite Hget. rewrite (Hwf _ _ Hc).
  eexists. split; [reflexivity|]. cbn [conversations messages].
  assert (∀ db2, conversations db2 = delete cid (conversations db) →
            ConversationService.get_conversation cid uid db2 = None) as Hgone.
  { intros db2 Hdb2. unfold ConversationService.get_conversation.
    by rewrite Hdb2, lookup_delete_eq. }
  split_and!.
  - done.
  - by intros m [? _]%list_elem_of_filter.
  - intros other Hother. rewrite list_filter_filter.
    apply list_filter_iff. intros m. split; [by intros [? _]|].
    intros Hm. split; [done|]. by rewrite Hm.
  - intros include_deleted.
    unfold ConversationService.get_conversation_history.
    by rewrite Hgone.
  - intros. unfold ConversationService.create_message. by rewrite Hgone.
Qed.

Lemma delete_conversation_cascades_witness :
  ∃ db',
    delete_conversation 1 alice sample_chat_db = (true, db')
    ∧ conversations db' = delete 1 (conversations sample_chat_db)
    ∧ (∀ m, m ∈ messages db' → Message.conversation_id m ≠ 1)
    ∧ (∀ other, other ≠ 1 →
         filter (λ m, Message.conversation_id m = other) (messages db')
         = filter (λ m, Message.conversation_id m = other)
             (messages sample_chat_db))
    ∧ (∀ include_deleted,
         ConversationService.get_conversation_history 1 alice include_deleted db'
         = [])
    ∧ (∀ role content tool_calls now now',
         ConversationService.create_message 1 alice role content tool_calls
           now now' db' = (None, db')).
Proof.
  eapply (delete_conversation_cascades 1 alice sample_chat_db).
  - apply (bool_decide_unpack _). vm_compute. exact I.
  - vm_compute. reflexivity.
  - reflexivity.
Defined.

(** X15. [create_message] by the owner appends exactly one row to
    [messages]: it gets a primary key no other row has, the given
    conversation, role, content and tool calls, the clock reading as
    [created_at] and no [deleted_at]; the rows that were there are
    untouched. Of the conversations only the one written to changes, and
    only in [updated_at]. *)
Theorem create_message_appends cid uid role content tool_calls now now' db c :
  conversations_wf db →
  conversations db !! cid = Some c →
  Conversation.user_id c = uid →
  ∃ m db',
    ConversationService.create_message cid uid role content tool_calls now now' db
    = (Some m, db')
    ∧ messages db' = messages db ++ [m]
    ∧ (Message.id m ∉ (Message.id <$> messages db))
    ∧ Message.conversation_id m = cid
    ∧ Message.role m = role
    ∧ Message.content m = content
    ∧ Message.tool_calls m = tool_calls
    ∧ Message.created_at m = now
    ∧ Message.deleted_at m = None
    ∧ conversations db' !! cid
      = Some (Conversation.Build cid (Conversation.user_id c)
                (Conversation.title c) (Conversation.created_at c) now'
                (Conversation.deleted_at c))
    ∧ ∀ other, other ≠ cid →
               conversations db' !! other = conversations db !! other.
Proof.
  intros Hwf Hc Hu. unfold ConversationService.create_message.
  assert (ConversationService.get_conversation cid uid db = Some c) as Hget.
  { unfold ConversationService.get_conversation.
    by rewrite Hc, bool_decide_true. }
  rewrite Hget. cbv zeta. rewrite (Hwf _ _ Hc).
  eexists _, _. split; [reflexivity|]. cbn [conversations messages].
  split_and!; try done.
  - apply fresh_message_id_new.
  - cbn [Conversation.id]. apply lookup_insert_eq.
  - intros other Hother. cbn [Conversation.id]. by rewrite lookup_insert_ne.
Qed.

Lemma create_message_appends_witness :
  ∃ m db',
    ConversationService.create_message 1 alice USER "one more" VNone 14 15
      sample_chat_db = (Some m, db')
    ∧ messages db' = messages sample_chat_db ++ [m]
    ∧ (Message.id m ∉ (Message.id <$> messages sample_chat_db))
    ∧ Message.conversation_id m = 1
    ∧ Message.role m = USER
    ∧ Message.content m = "one more"
    ∧ Message.tool_calls m = VNone
    ∧ Message.created_at m = 14
    ∧ Message.deleted_at m = None
    ∧ conversations db' !! 1
      = Some (Conversation.Build 1 (Conversation.user_id talk)
                (Conversation.title talk) (Conversation.created_at talk) 15
                (Conversation.deleted_at talk))
    ∧ ∀ other, other ≠ 1 →
               conversations db' !! other
               = conversations sample_chat_db !! other.
Proof.
  apply (create_message_appends 1 alice USER "one more" VNone 14 15
           sample_chat_db
           (Conversation.Build 1 alice None 5 12 None)).
  - apply (bool_decide_unpack _). vm_compute. exact I.
  - vm_compute. reflexivity.
  - reflexivity.
Defined.

Lemma merge_sort_orders_by_updated_desc :
  orders_by_updated_desc (merge_sort updated_desc).
Proof.
  intros rows. split; [apply merge_sort_Permutation|].
  apply StronglySorted_merge_sort; apply _.
Qed.

(** Two sorted arrangements of the same rows agree when no two rows tie. *)
Lemma sorted_by_updated_unique (l1 l2 : list Conversation.t) :
  NoDup (Conversation.updated_at <$> l1) →
  StronglySorted updated_desc l1 → StronglySorted updated_desc l2 →
  l1 ≡ₚ l2 → l1 = l2.
Proof.
  intros Hd Hs1 Hs2 Hp. apply (StronglySorted_unique_strong updated_desc);
    [|done..].
  intros x1 x2 H1 H2 R1 R2. apply (NoDup_fmap_eq Conversation.updated_at l1);
    [done|done|by rewrite Hp|].
  unfold updated_desc in *. lia.
Qed.

(** X16. Whatever order the store gives to conversations of equal
    [updated_at], [list_conversations] returns only stored conversations of
    the user, at most [limit] of them, most recently updated first. When no
    two conversations of the user have the same [updated_at], pages fetched
    by separate queries tile: the page of size [limit'] at [offset + limit]
    appended to the page of size [limit] at [offset] is the page of size
    [limit + limit'] at [offset]. *)
Theorem list_conversations_pages order_by uid limit offset db :
  orders_by_updated_desc order_by →
  (∀ c, c ∈ list_conversations order_by uid limit offset db →
        Conversation.user_id c = uid ∧ ∃ k, conversations db !! k = Some c)
  ∧ (length (list_conversations order_by uid limit offset db) ≤ limit)%nat
  ∧ StronglySorted updated_desc (list_conversations order_by uid limit offset db)
  ∧ (distinct_updates uid db →
     ∀ order_by' order_by'' limit',
       orders_by_updated_desc order_by' → orders_by_updated_desc order_by'' →
       list_conversations order_by uid limit offset db
         ++ list_conversations order_by' uid limit' (offset + limit) db
       = list_conversations order_by'' uid (limit + limit') offset db).
Proof.
  intros Hsort. unfold list_conversations.
  set (own := filter (λ c, Conversation.user_id c = uid)
                (map_to_list (conversations db)).*2).
  destruct (Hsort own) as [Hperm Hsorted].
  assert (take limit (drop offset (order_by own)) `sublist_of` order_by own)
    as Hsub.
  { etrans; [apply sublist_take|apply sublist_drop]. }
  split_and!.
  - intros c Hc. eapply elem_of_sublist in Hc; [|exact Hsub].
    rewrite Hperm in Hc.
    apply list_elem_of_filter in Hc as [Hu Hc].
    split; [done|].
    apply list_elem_of_fmap in Hc as ([k c'] & -> & Hc).
    exists k. by apply elem_of_map_to_list.
  - rewrite length_take. lia.
  - eapply sorted_sublist; [exact Hsub|done].
  - intros Hdistinct order_by' order_by'' limit' Hsort' Hsort''.
    unfold distinct_updates in Hdistinct. fold own in Hdistinct.
    destruct (Hsort' own) as [Hperm' Hsorted'].
    destruct (Hsort'' own) as [Hperm'' Hsorted''].
    assert (∀ l, l ≡ₚ own → StronglySorted updated_desc l → l = order_by own)
      as Hsame.
    { intros l Hl Hs. apply sorted_by_updated_unique; [|done|done|].
      - by rewrite Hl.
      - by rewrite Hl, Hperm. }
    rewrite (Hsame _ Hperm' Hsorted'), (Hsame _ Hperm'' Hsorted'').
    rewrite <- drop_drop. apply take_take_drop.
Qed.

Lemma list_conversations_pages_witness :
  list_conversations (merge_sort updated_desc) alice 1 0 several_conversations
    ++ list_conversations (merge_sort updated_desc) alice 1 1
         several_conversations
  = list_conversations (merge_sort updated_desc) alice 2 0
      several_conversations.
Proof.
  pose proof (list_conversations_pages (merge_sort updated_desc) alice 1 0
                several_conversations merge_sort_orders_by_updated_desc)
    as (_ & _ & _ & Htile).
  apply (Htile
           (bool_decide_unpack (distinct_updates alice several_conversations)
              ltac:(vm_compute; exact I))
           (merge_sort updated_desc) (merge_sort updated_desc) 1%nat
           merge_sort_orders_by_updated_desc merge_sort_orders_by_updated_desc).
Defined.

(* ===================================================================== *)
(** * The chat endpoints *)
(* ===================================================================== *)

Lemma substring_all s : String.substring 0 (String.length s) s = s.
Proof. induction s as [|c s IH]; [done|]. cbn. by rewrite IH. Qed.

Lemma substring_prefix_suffix n s :
  String.substring 0 n s +:+ String.substring n (String.length s - n) s = s.
Proof.
  revert s. induction n as [|n IH]; intros s.
  - rewrite Nat.sub_0_r, substring_all. by destruct s.
  - destruct s as [|c s]; [done|]. specialize (IH s).
    change (String c (String.substring 0 n s
                      +:+ String.substring n (String.length s - n) s)
            = String c s).
    by rewrite IH.
Qed.

Lemma substring_prefix_length n s :
  String.length (String.substring 0 n s) = Nat.min n (String.length s).
Proof.
  revert s. induction n as [|n IH]; intros s; destruct s as [|c s]; try done.
  cbn. by rewrite IH.
Qed.

Lemma substring_suffix_length n s :
  String.length (String.substring n (String.length s - n) s)
  = (String.length s - n)%nat.
Proof.
  revert s. induction n as [|n IH]; intros s.
  - by rewrite Nat.sub_0_r, substring_all.
  - destruct s as [|c s]; [done|]. cbn. apply IH.
Qed.

Lemma append_empty_r (x : string) : x +:+ "" = x.
Proof.
  induction x as [|c x IH]; [done|].
  change (String c (x +:+ "") = String c x). by rewrite IH.
Qed.

Lemma concat_empty_cons (x : string) (l : list string) :
  String.concat "" (x :: l) = x +:+ String.concat "" l.
Proof.
  destruct l as [|y l]; [|done].
  change (x = x +:+ ""). by rewrite append_empty_r.
Qed.

Lemma chunks_spec fuel n content :
  (0 < n)%nat → (String.length content ≤ fuel)%nat →
  String.concat "" (chunks fuel n content) = content
  ∧ Forall (λ chunk, (0 < String.length chunk ≤ n)%nat) (chunks fuel n content)
  ∧ (n * length (chunks fuel n content) < String.length content + n)%nat
  ∧ (String.length content ≤ n * length (chunks fuel n content))%nat.
Proof.
  intros Hn. revert content.
  induction fuel as [|fuel IH]; intros content Hlen.
  { destruct content; [|cbn in Hlen; lia]. cbn. split_and!; [done|done|lia|lia]. }
  destruct content as [|c s] eqn:Hcontent.
  { cbn. split_and!; [done|done|lia|lia]. }
  rewrite <- Hcontent in *.
  assert (0 < String.length content)%nat as Hpos by (subst; cbn; lia).
  assert (chunks (S fuel) n content
          = String.substring 0 n content
            :: chunks fuel n
                 (String.substring n (String.length content - n) content))
    as -> by by subst.
  pose proof (substring_prefix_length n content) as Hp.
  pose proof (substring_suffix_length n content) as Hs.
  destruct (IH (String.substring n (String.length content - n) content))
    as (Hcat & Hall & Hlo & Hhi); [lia|].
  set (rest := chunks fuel n
                 (String.substring n (String.length content - n) content)) in *.
  assert (String.length content < n → length rest = 0)%nat as Hshort.
  { intros Hlt. destruct (length rest) as [|k]; [done|].
    rewrite Nat.mul_succ_r in Hlo. lia. }
  split_and!.
  - rewrite concat_empty_cons, Hcat. apply substring_prefix_suffix.
  - constructor; [cbv beta; lia|done].
  - cbn [length]. rewrite Nat.mul_succ_r.
    destruct (Nat.le_gt_cases n (String.length content)) as [Hle|Hlt]; [lia|].
    rewrite (Hshort Hlt). lia.
  - cbn [length]. rewrite Nat.mul_succ_r. lia.
Qed.

(** X17. The chunking of the streaming endpoint loses nothing: the chunks
    of a content, joined in order, are the content again; no chunk is empty
    or longer than the chunk size; and there are exactly as many chunks as
    the length divided by the chunk size, rounded up (none for an empty
    content). *)
Theorem chunks_cover_content chunk_size content :
  (0 < chunk_size)%nat →
  let sent := chunks (String.length content) chunk_size content in
  String.concat "" sent = content
  ∧ Forall (λ chunk, (0 < String.length chunk ≤ chunk_size)%nat) sent
  ∧ length sent
    = ((String.length content + chunk_size - 1) / chunk_size)%nat.
Proof.
  intros Hn sent.
  destruct (chunks_spec (String.length content) chunk_size content Hn (le_n _))
    as (Hcat & Hall & Hlo & Hhi).
  split_and!; [done..|].
  fold sent in Hlo, Hhi.
  apply (Nat.div_unique _ _ _
           (String.length content + chunk_size - 1 - chunk_size * length sent));
    lia.
Qed.

Lemma chunks_cover_content_witness :
  let sent := chunks 23 10 "I've added it to tasks." in
  String.concat "" sent = "I've added it to tasks."
  ∧ Forall (λ chunk, (0 < String.length chunk ≤ 10)%nat) sent
  ∧ length sent = 3%nat.
Proof.
  apply (chunks_cover_content 10 "I've added it to tasks."). lia.
Defined.

(** X18. The history handed to the agent is a window on the conversation:
    at most 20 messages, all of them stored, of this conversation and not
    soft-deleted, oldest first; every live message of the conversation that
    is left out is at most as recent as each one that is kept; and when the
    conversation has no more than 20 live messages none is left out. *)
Theorem history_window cid msgs :
  let live := filter (λ m, Message.conversation_id m = cid
                           ∧ Message.deleted_at m = None) msgs in
  let history := history_messages cid msgs in
  (length history ≤ 20)%nat
  ∧ history ⊆ live
  ∧ Sorted (flip created_desc) history
  ∧ (∀ kept left_out, kept ∈ history → left_out ∈ live → left_out ∉ history →
       Message.created_at left_out ≤ Message.created_at kept)
  ∧ ((length live ≤ 20)%nat → history ≡ₚ live).
Proof.
  intros live history. unfold history, history_messages. fold live.
  set (sorted := merge_sort created_desc live).
  assert (StronglySorted created_desc sorted) as Hsorted
    by (apply StronglySorted_merge_sort; apply _).
  assert (sorted ≡ₚ live) as Hperm by apply merge_sort_Permutation.
  split_and!.
  - rewrite length_reverse, length_take. lia.
  - intros m Hm. apply (proj1 (elem_of_reverse _ _)) in Hm. rewrite <- Hperm.
    eapply elem_of_sublist; [exact Hm|apply sublist_take].
  - apply Sorted_reverse, StronglySorted_Sorted.
    eapply sorted_sublist; [apply sublist_take|exact Hsorted].
  - intros kept left_out Hkept Hlive Hout.
    apply (proj1 (elem_of_reverse _ _)) in Hkept.
    rewrite <- (take_drop 20 sorted) in Hsorted.
    apply StronglySorted_app in Hsorted as (Hcross & _ & _).
    apply (Hcross kept left_out Hkept).
    rewrite <- Hperm, <- (take_drop 20 sorted) in Hlive.
    apply elem_of_app in Hlive as [Hin|Hin]; [|done].
    destruct Hout. by apply elem_of_reverse.
  - intros Hlen. rewrite reverse_Permutation, take_ge; [done|].
    by rewrite Hperm.
Qed.

Lemma history_window_witness :
  history_messages 1 (messages sample_chat_db)
  ≡ₚ filter (λ m, Message.conversation_id m = 1 ∧ Message.deleted_at m = None)
       (messages sample_chat_db).
Proof.
  pose proof (history_window 1 (messages sample_chat_db)) as (_ & _ & _ & _ & Hall).
  apply Hall. vm_compute. lia.
Defined.

(** X19. The streaming endpoint refuses a conversation that is not the
    caller's with one error event and writes nothing; the event is the same
    "Conversation not found" whether the conversation belongs to another
    user or does not exist. A conversation of the caller that has been
    soft-deleted is refused with "Conversation was deleted". *)
Theorem stream_refuses_conversation uid cid message agent utcnow db :
  cid ≠ 0 →
  ((∀ c, conversations db !! cid = Some c → Conversation.user_id c ≠ uid) →
   event_generator uid (Build_ChatRequest message (Some cid)) agent utcnow db
   = ([error_event "Conversation not found"], db))
  ∧ (∀ c, conversations db !! cid = Some c → Conversation.user_id c = uid →
          Conversation.deleted_at c ≠ None →
          event_generator uid (Build_ChatRequest message (Some cid)) agent
            utcnow db
          = ([error_event "Conversation was deleted"], db)).
Proof.
  intros Hcid. unfold event_generator, stream_conversation.
  cbn [request_conversation_id]. rewrite bool_decide_false by done. split.
  - intros Hnot. destruct (conversations db !! cid) as [c|] eqn:Hc; [|done].
    by rewrite bool_decide_true by by apply Hnot.
  - intros c Hc Hu Hdel. rewrite Hc.
    rewrite bool_decide_false by (intros ?; done).
    by rewrite bool_decide_true by done.
Qed.

Lemma stream_refuses_conversation_witness :
  event_generator alice (Build_ChatRequest "hello" (Some 2)) sample_agent
    sample_clock with_deleted_conversation
  = ([error_event "Conversation not found"], with_deleted_conversation)
  ∧ event_generator alice (Build_ChatRequest "hello" (Some 9)) sample_agent
      sample_clock with_deleted_conversation
    = ([error_event "Conversation not found"], with_deleted_conversation)
  ∧ event_generator alice (Build_ChatRequest "hello" (Some 4)) sample_agent
      sample_clock with_deleted_conversation
    = ([error_event "Conversation was deleted"], with_deleted_conversation).
Proof.
  split_and!.
  - apply (stream_refuses_conversation alice 2 "hello" sample_agent sample_clock
             with_deleted_conversation); [lia|].
    intros c Hc. vm_compute in Hc. injection Hc as <-. vm_compute. discriminate.
  - apply (stream_refuses_conversation alice 9 "hello" sample_agent sample_clock
             with_deleted_conversation); [lia|].
    intros c Hc. vm_compute in Hc. discriminate.
  - apply (proj2 (stream_refuses_conversation alice 4 "hello" sample_agent
                    sample_clock with_deleted_conversation ltac:(lia))
             (Conversation.Build 4 alice None 7 30 (Some 31)));
      [vm_compute; reflexivity|reflexivity|discriminate].
Defined.

(* ===================================================================== *)
(** * Input validation *)
(* ===================================================================== *)

Lemma chars_append a b : chars (a +:+ b) = chars a ++ chars b.
Proof.
  induction a as [|c a IH]; [done|].
  change (c :: chars (a +:+ b) = c :: (chars a ++ chars b)). by rewrite IH.
Qed.

Lemma chars_replace_char old new s x :
  x ∈ chars (replace_char old new s) →
  (x ∈ chars s ∧ x ≠ old) ∨ x ∈ chars new.
Proof.
  induction s as [|c s IH]; [by intros ?%elem_of_nil|].
  cbn [replace_char]. destruct (Ascii.eqb_spec c old) as [->|Hne].
  - rewrite chars_append. intros [Hin|Hin]%elem_of_app; [by right|].
    destruct (IH Hin) as [[? ?]|?]; [left|by right].
    split; [by right|done].
  - cbn [chars]. intros [->|Hin]%elem_of_cons.
    + left. split; [by left|done].
    + destruct (IH Hin) as [[? ?]|?]; [left|by right].
      split; [by right|done].
Qed.

Ltac not_in_literal H :=
  cbn in H; repeat (apply elem_of_cons in H as [H|H]; [discriminate H|]);
  by apply elem_of_nil in H.

(** [html.escape] leaves none of the four characters it replaces after the
    ampersand, and brings in no [NUL]. *)
Lemma html_escape_clean s x :
  x ∈ chars (html_escape s) →
  x ≠ "<"%char ∧ x ≠ ">"%char ∧ x ≠ quotation_mark ∧ x ≠ apostrophe
  ∧ (x = nul → nul ∈ chars s).
Proof.
  unfold html_escape. intros H5.
  apply chars_replace_char in H5 as [[H4 N5]|H5].
  2:{ split_and!; try (intros ->; not_in_literal H5). }
  apply chars_replace_char in H4 as [[H3 N4]|H4].
  2:{ split_and!; try (intros ->; not_in_literal H4). }
  apply chars_replace_char in H3 as [[H2 N3]|H3].
  2:{ split_and!; try (intros ->; not_in_literal H3). }
  apply chars_replace_char in H2 as [[H1 N2]|H2].
  2:{ split_and!; try (intros ->; not_in_literal H2). }
  apply chars_replace_char in H1 as [[H0 N1]|H1].
  2:{ split_and!; try (intros ->; not_in_literal H1). }
  split_and!; try done. by intros ->.
Qed.

Lemma collapse_whitespace_chars in_run s x :
  x ∈ chars (collapse_whitespace in_run s) →
  (x ∈ chars s ∧ Py.isspace x = false) ∨ x = space.
Proof.
  revert in_run. induction s as [|c s IH]; intros in_run;
    [by intros ?%elem_of_nil|].
  cbn [collapse_whitespace]. destruct (Py.isspace c) eqn:Hc.
  - destruct in_run; cbn [chars].
    + intros Hin. destruct (IH _ Hin) as [[? ?]|?]; [left|by right].
      split; [by right|done].
    + intros [->|Hin]%elem_of_cons; [by right|].
      destruct (IH _ Hin) as [[? ?]|?]; [left|by right].
      split; [by right|done].
  - cbn [chars]. intros [->|Hin]%elem_of_cons.
    + left. split; [by left|done].
    + destruct (IH _ Hin) as [[? ?]|?]; [left|by right].
      split; [by right|done].
Qed.

Lemma collapse_whitespace_single_spaced in_run s :
  single_spaced (collapse_whitespace in_run s) = true
  ∧ (in_run = true →
     match collapse_whitespace in_run s with
     | String c _ => Py.isspace c = false
     | EmptyString => True
     end).
Proof.
  revert in_run. induction s as [|c s IH]; intros in_run; [done|].
  cbn [collapse_whitespace]. destruct (Py.isspace c) eqn:Hc.
  - destruct in_run.
    + apply IH.
    + split; [|done]. destruct (IH true) as [Hs Hh].
      cbn [single_spaced].
      destruct (collapse_whitespace true s) as [|c' rest]; [done|].
      by rewrite (Hh eq_refl), andb_false_r, Hs.
  - split; [|done]. destruct (IH false) as [Hs _].
    cbn [single_spaced].
    destruct (collapse_whitespace false s) as [|c' rest]; [done|].
    by rewrite Hc, Hs.
Qed.

Lemma sanitize_message_content_ok content max_length :
  (∃ out, sanitize_message_content content max_length = Return out)
  ↔ 0 < Py.len (Py.strip content) ≤ max_length.
Proof.
  unfold sanitize_message_content.
  destruct (Py.truthy (Some content)) eqn:Ht; cbn [negb].
  2:{ destruct content; [|done].
      split; [by intros [? [=]]|by vm_compute; intros [[=] _]]. }
  destruct (Py.str_eqb (Py.strip content) "") eqn:He.
  { split; [by intros [? [=]]|].
    unfold Py.str_eqb in He. apply String.eqb_eq in He. rewrite He.
    by vm_compute; intros [[=] _]. }
  apply str_eqb_empty_false in He.
  destruct (Z.ltb_spec max_length (Py.len (Py.strip content)));
    (split; [intros [? [=]]; lia|intros ?; try lia; by eexists]).
Qed.

(** X20. [sanitize_message_content] returns exactly for a content that,
    trimmed, has between 1 and [max_length] characters, and raises
    [ValueError] otherwise. What it returns contains none of the characters
    [<], [>], the two quote characters and [NUL]; its only white-space
    character is the space, and never two in a row. *)
Theorem sanitize_message_content_clean content max_length :
  ((∃ out, sanitize_message_content content max_length = Return out)
   ↔ 0 < Py.len (Py.strip content) ≤ max_length)
  ∧ (∀ e, sanitize_message_content content max_length = Raise e →
          exn_class e = "ValueError")
  ∧ ∀ out, sanitize_message_content content max_length = Return out →
      (∀ x, x ∈ chars out →
            x ≠ "<"%char ∧ x ≠ ">"%char ∧ x ≠ quotation_mark
            ∧ x ≠ apostrophe ∧ x ≠ nul
            ∧ (Py.isspace x = true → x = space))
      ∧ single_spaced out = true.
Proof.
  unfold sanitize_message_content.
  destruct (Py.truthy (Some content)) eqn:Ht; cbn [negb].
  2:{ destruct content; [|done].
      split_and!; [split; [by intros [? [=]]|by vm_compute; intros [[=] _]]
                  |by intros e [= <-]|by intros ? [=]]. }
  destruct (Py.str_eqb (Py.strip content) "") eqn:He.
  { split_and!; [split; [by intros [? [=]]|]|by intros e [= <-]|by intros ? [=]].
    unfold Py.str_eqb in He. apply String.eqb_eq in He. rewrite He.
    by vm_compute; intros [[=] _]. }
  apply str_eqb_empty_false in He.
  destruct (Z.ltb_spec max_length (Py.len (Py.strip content))).
  { split_and!; [split; [by intros [? [=]]|lia]|by intros e [= <-]
                |by intros ? [=]]. }
  split_and!; [split; [lia|by eexists]|by intros e [=]|].
  intros out [= <-]. split; [|apply collapse_whitespace_single_spaced].
  intros x Hx.
  assert (Py.isspace x = true → x = space) as Hspace.
  { intros Hs. apply collapse_whitespace_chars in Hx as [[_ Hns]|?];
      [congruence|done]. }
  assert (x ≠ space → x ∈ chars (html_escape (Py.strip content)) ∧ x ≠ nul)
    as Hin.
  { intros Hx'. apply collapse_whitespace_chars in Hx as [[Hx _]|?]; [|done].
    apply chars_replace_char in Hx as [[? ?]|Hx]; [done|].
    by apply elem_of_nil in Hx. }
  destruct (decide (x = space)) as [->|Hnsp].
  { split_and!; done. }
  destruct (Hin Hnsp) as [Hesc Hnul].
  destruct (html_escape_clean _ _ Hesc) as (? & ? & ? & ? & _).
  split_and!; done.
Qed.

Lemma sanitize_message_content_clean_witness :
  (∀ x, x ∈ chars "&lt;b&gt;hi there&lt;/b&gt;" →
        x ≠ "<"%char ∧ x ≠ ">"%char ∧ x ≠ quotation_mark
        ∧ x ≠ apostrophe ∧ x ≠ nul
        ∧ (Py.isspace x = true → x = space))
  ∧ single_spaced "&lt;b&gt;hi there&lt;/b&gt;" = true.
Proof.
  pose proof (sanitize_message_content_clean "  <b>hi   there</b> " 2000)
    as (_ & _ & Hout).
  apply Hout. vm_compute. reflexivity.
Defined.

Lemma escaped_markup_free s : markup_free (replace_char nul "" (html_escape s)).
Proof.
  intros x Hx. apply chars_replace_char in Hx as [[Hx Hnul]|Hx];
    [|by apply elem_of_nil in Hx].
  destruct (html_escape_clean _ _ Hx) as (? & ? & ? & ? & _). done.
Qed.

(** X21. [validate_task_title] returns exactly for a title that, trimmed,
    has between 1 and [max_length] characters. [validate_task_description]
    raises exactly for a description that, trimmed, is longer than
    [max_length], and returns [None] for a missing or blank one. The text
    either of them returns contains none of [<], [>], the two quote
    characters and [NUL]. *)
Theorem task_field_validators title description max_length :
  ((∃ out, validate_task_title title max_length = Return out)
   ↔ 0 < Py.len (Py.strip title) ≤ max_length)
  ∧ (∀ out, validate_task_title title max_length = Return out →
            markup_free out)
  ∧ ((∃ e, validate_task_description description max_length = Raise e)
     ↔ ∃ d, description = Some d ∧ Py.strip d ≠ ""
            ∧ max_length < Py.len (Py.strip d))
  ∧ (validate_task_description description max_length = Return None
     ↔ description = None ∨ ∃ d, description = Some d ∧ Py.strip d = "")
  ∧ (∀ out, validate_task_description description max_length
            = Return (Some out) → markup_free out).
Proof.
  split_and!.
  - unfold validate_task_title.
    destruct (Py.truthy (Some title)) eqn:Ht; cbn [negb].
    2:{ destruct title; [|done].
        split; [by intros [? [=]]|by vm_compute; intros [[=] _]]. }
    destruct (Py.str_eqb (Py.strip title) "") eqn:He.
    { split; [by intros [? [=]]|].
      unfold Py.str_eqb in He. apply String.eqb_eq in He. rewrite He.
      by vm_compute; intros [[=] _]. }
    apply str_eqb_empty_false in He.
    destruct (Z.ltb_spec max_length (Py.len (Py.strip title)));
      (split; [intros [? [=]]; lia|intros ?; try lia; by eexists]).
  - unfold validate_task_title. intros out.
    repeat case_match; intros [=]; subst. apply escaped_markup_free.
  - unfold validate_task_description. split.
    + intros [e He]. destruct description as [[|c d]|]; try done.
      exists (String c d). split; [done|].
      destruct (Py.str_eqb (Py.strip (String c d)) "") eqn:Hs; [done|].
      split.
      * intros Heq. rewrite Heq in Hs. done.
      * destruct (Z.ltb_spec max_length (Py.len (Py.strip (String c d))));
          [done|done].
    + intros (d & -> & Hne & Hlen). destruct d as [|c d]; [done|].
      destruct (Py.str_eqb (Py.strip (String c d)) "") eqn:Hs.
      { unfold Py.str_eqb in Hs. by apply String.eqb_eq in Hs. }
      destruct (Z.ltb_spec max_length (Py.len (Py.strip (String c d))));
        [by eexists|lia].
  - unfold validate_task_description. split.
    + destruct description as [[|c d]|]; [right; by exists ""| |by left].
      destruct (Py.str_eqb (Py.strip (String c d)) "") eqn:Hs.
      * intros _. right. exists (String c d). split; [done|].
        unfold Py.str_eqb in Hs. by apply String.eqb_eq in Hs.
      * by case_match.
    + intros [->|(d & -> & Hd)]; [done|]. destruct d as [|c d]; [done|].
      by rewrite Hd.
  - unfold validate_task_description. intros out.
    repeat case_match; intros [=]; subst. apply escaped_markup_free.
Qed.

Lemma task_field_validators_witness :
  markup_free "Tom &amp; &lt;Jerry&gt;" ∧ markup_free "&#x27;quoted&#x27;".
Proof.
  pose proof (task_field_validators " Tom & <Jerry> " (Some "'quoted'") 200)
    as (_ & Ht & _ & _ & Hd).
  split; [apply Ht|apply Hd]; vm_compute; reflexivity.
Defined.

(** ** Trimming *)

Lemma lstrip_length s : (String.length (Py.lstrip s) ≤ String.length s)%nat.
Proof.
  induction s as [|c s IH]; [done|]. cbn [Py.lstrip].
  destruct (Py.isspace c); cbn [String.length]; lia.
Qed.

Lemma rstrip_length s : (String.length (Py.rstrip s) ≤ String.length s)%nat.
Proof.
  induction s as [|c s IH]; [done|]. cbn [Py.rstrip].
  destruct (Py.rstrip s) as [|c' r]; [destruct (Py.isspace c)|];
    cbn [String.length] in *; lia.
Qed.

Lemma strip_length s : Py.len (Py.strip s) ≤ Py.len s.
Proof.
  unfold Py.len, Py.strip.
  pose proof (rstrip_length (Py.lstrip s)). pose proof (lstrip_length s). lia.
Qed.

Lemma rstrip_idemp s : Py.rstrip (Py.rstrip s) = Py.rstrip s.
Proof.
  induction s as [|c s IH]; [done|]. cbn [Py.rstrip].
  destruct (Py.rstrip s) as [|c' r] eqn:Hr.
  - destruct (Py.isspace c) eqn:Hc; [done|]. cbn [Py.rstrip]. by rewrite Hc.
  - cbn [Py.rstrip] in *. by rewrite IH.
Qed.

(** A trimmed string does not begin with white space. *)
Lemma lstrip_head s :
  match Py.lstrip s with
  | String c _ => Py.isspace c = false
  | EmptyString => True
  end.
Proof.
  induction s as [|c s IH]; [done|]. cbn [Py.lstrip].
  by destruct (Py.isspace c) eqn:Hc.
Qed.

Lemma strip_idemp s : Py.strip (Py.strip s) = Py.strip s.
Proof.
  unfold Py.strip. pose proof (lstrip_head s) as Hh.
  destruct (Py.lstrip s) as [|c t]; [done|].
  assert (Py.lstrip (Py.rstrip (String c t)) = Py.rstrip (String c t)) as ->.
  { cbn [Py.rstrip]. destruct (Py.rstrip t); rewrite ?Hh; cbn [Py.lstrip];
      by rewrite Hh. }
  apply rstrip_idemp.
Qed.

(** X22. A message accepted by the request model [ChatRequest] always
    passes [sanitize_message_content]: the only request [chat] answers with
    400 is one whose conversation id is not positive. *)
Theorem chat_request_passes_sanitizer message conversation_id chat_request :
  ChatRequest_validate message conversation_id = Some chat_request →
  (∃ out, sanitize_message_content (request_message chat_request) 2000
          = Return out)
  ∧ ∀ user_id current_user_id allowed agent utcnow db err db',
      chat user_id chat_request current_user_id allowed agent utcnow db
      = (inl err, db') →
      status_code err = 400 →
      detail err = "Conversation ID must be positive"
      ∧ ∃ n, conversation_id = Some n ∧ n ≤ 0.
Proof.
  unfold ChatRequest_validate. intros Hv.
  destruct (Z.ltb_spec (Py.len message) 1); [done|].
  destruct (Z.ltb_spec 2000 (Py.len message)); [done|].
  cbn [orb] in Hv.
  destruct (Py.truthy (Some message)) eqn:Ht; [|done].
  destruct (Py.str_eqb (Py.strip message) "") eqn:He; [done|].
  cbn in Hv. injection Hv as <-. cbn [request_message].
  assert (∃ out, sanitize_message_content (Py.strip message) 2000 = Return out)
    as [out Hout].
  { apply (proj2 (sanitize_message_content_ok _ _)).
    rewrite strip_idemp. apply str_eqb_empty_false in He.
    pose proof (strip_length message). lia. }
  split; [by exists out|].
  intros user_id current_user_id allowed agent utcnow db err db'.
  unfold chat, chat_validate. cbn [request_message request_conversation_id].
  rewrite Hout.
  destruct allowed; cbn [negb]; [|by intros [= <- <-]].
  case_bool_decide; [by intros [= <- <-]|].
  unfold validate_conversation_id.
  destruct conversation_id as [n|].
  - destruct (Z.leb_spec n 0).
    + intros [= <- <-] _. split; [done|]. by exists n.
    + destruct (chat_conversation _ _ _ _) as [e|[c db1]] eqn:Hc.
      * intros [= <- <-] Hs. unfold chat_conversation in Hc.
        cbn [request_conversation_id] in Hc.
        repeat case_match; simplify_eq; done.
      * destruct (agent _ _) as [[[content tool_calls]|e]|];
          intros [= <- <-]; done.
  - destruct (chat_conversation _ _ _ _) as [e|[c db1]] eqn:Hc.
    + intros [= <- <-] Hs. unfold chat_conversation in Hc.
      cbn [request_conversation_id] in Hc. done.
    + destruct (agent _ _) as [[[content tool_calls]|e]|];
        intros [= <- <-]; done.
Qed.

Lemma chat_request_passes_sanitizer_witness :
  ∃ out, sanitize_message_content "add milk" 2000 = Return out.
Proof.
  refine (proj1 (chat_request_passes_sanitizer "  add milk " (Some 3)
                   (Build_ChatRequest "add milk" (Some 3)) _)).
  vm_compute. reflexivity.
Defined.

(* ===================================================================== *)
(** * The chat endpoint *)
(* ===================================================================== *)

Lemma fresh_conversation_id_above convs k :
  is_Some (convs !! k) → k < fresh_conversation_id convs.
Proof.
  unfold fresh_conversation_id. revert k.
  apply (map_fold_weak_ind
           (λ acc (m : gmap Z Conversation.t),
              ∀ k, is_Some (m !! k) → k < 1 + acc)).
  - intros k [r Hr]. by rewrite lookup_empty in Hr.
  - intros i x m acc _ Hall k [r Hr].
    destruct (decide (i = k)) as [->|Hne]; [lia|].
    rewrite lookup_insert_ne in Hr by done.
    specialize (Hall k (ex_intro _ r Hr)). lia.
Qed.

Lemma fresh_conversation_id_new convs :
  convs !! fresh_conversation_id convs = None.
Proof.
  destruct (convs !! fresh_conversation_id convs) as [c|] eqn:Hc; [|done].
  pose proof (fresh_conversation_id_above convs _ (ex_intro _ c Hc)). lia.
Qed.

Lemma conversations_wf_insert convs msgs msgs' c :
  conversations_wf (ChatDb convs msgs) →
  conversations_wf (ChatDb (<[Conversation.id c := c]> convs) msgs').
Proof.
  unfold conversations_wf. cbn [conversations]. intros Hwf.
  apply map_Forall_insert_2; [done|apply Hwf].
Qed.

(** The conversation [chat] goes on with is a live conversation of the
    caller, stored under its id; the messages are as before and no other
    conversation has changed. *)
Lemma chat_conversation_inr user_id chat_request utcnow db c db1 :
  conversations_wf db →
  chat_conversation user_id chat_request utcnow db = inr (c, db1) →
  messages db1 = messages db
  ∧ conversations db ⊆ conversations db1
  ∧ conversations db1 !! Conversation.id c = Some c
  ∧ Conversation.user_id c = user_id
  ∧ Conversation.deleted_at c = None
  ∧ conversations_wf db1
  ∧ ∀ k, k ≠ Conversation.id c → conversations db1 !! k = conversations db !! k.
Proof.
  intros Hwf. unfold chat_conversation.
  assert (∀ c0, c0 = Conversation.Build (fresh_conversation_id (conversations db))
                       user_id None (utcnow 0%nat) (utcnow 1%nat) None →
            (c0, ChatDb (<[Conversation.id c0 := c0]> (conversations db))
                        (messages db)) = (c, db1) →
            messages db1 = messages db
            ∧ conversations db ⊆ conversations db1
            ∧ conversations db1 !! Conversation.id c = Some c
            ∧ Conversation.user_id c = user_id
            ∧ Conversation.deleted_at c = None
            ∧ conversations_wf db1
            ∧ ∀ k, k ≠ Conversation.id c →
                   conversations db1 !! k = conversations db !! k) as Hnew.
  { intros c0 -> [= <- <-]. cbn [messages conversations Conversation.id
      Conversation.user_id Conversation.deleted_at]. split_and!; try done.
    - apply insert_subseteq, fresh_conversation_id_new.
    - by rewrite lookup_insert_eq.
    - destruct db. by eapply (conversations_wf_insert _ _ _
        (Conversation.Build _ _ _ _ _ _)).
    - intros k Hk. by rewrite lookup_insert_ne. }
  cbv zeta.
  destruct (request_conversation_id chat_request) as [cid|].
  - case_bool_decide.
    + intros Heq. eapply Hnew; [done|congruence].
    + destruct (conversations db !! cid) as [c0|] eqn:Hc0; [|done].
      case_bool_decide as Hu; [done|]. case_bool_decide as Hd; [done|].
      intros [= <- <-]. pose proof (Hwf _ _ Hc0) as Hid. cbn in Hid.
      rewrite Hid. split_and!; done.
  - intros Heq. eapply Hnew; [done|congruence].
Qed.

Lemma chat_conversation_inl user_id chat_request utcnow db err :
  chat_conversation user_id chat_request utcnow db = inl err →
  status_code err = 403 ∨ status_code err = 404.
Proof.
  unfold chat_conversation. cbv zeta.
  repeat case_match; intros [= <-]; cbn; auto.
Qed.

Lemma chat_conversation_messages user_id chat_request utcnow db c db1 :
  chat_conversation user_id chat_request utcnow db = inr (c, db1) →
  messages db1 = messages db ∧ conversations db ⊆ conversations db1.
Proof.
  unfold chat_conversation. cbv zeta.
  repeat case_match; intros [= <- <-]; cbn [messages conversations];
    (split; [done|]); try done;
    apply insert_subseteq, fresh_conversation_id_new.
Qed.

Lemma chat_validate_inl chat_request err :
  chat_validate chat_request = inl err → status_code err = 400.
Proof. unfold chat_validate. repeat case_match; by intros [= <-]. Qed.


(** X23. With the rate limit and the token in order and a valid message,
    [chat] refuses a conversation id that names no conversation with 404, a
    conversation of another user with 403 "Permission denied", and a
    soft-deleted conversation of the caller with 404; in each case nothing
    is written. *)
Theorem chat_refuses_conversation uid cid message agent utcnow db :
  0 < cid →
  0 < Py.len (Py.strip message) ≤ 2000 →
  let request := Build_ChatRequest message (Some cid) in
  (conversations db !! cid = None →
   chat uid request uid true agent utcnow db
   = (inl (Build_HTTPException 404 "Conversation not found"
             (Some ("conversation_id " +:+ pretty cid +:+ " does not exist"))),
      db))
  ∧ (∀ c, conversations db !! cid = Some c → Conversation.user_id c ≠ uid →
          chat uid request uid true agent utcnow db
          = (inl (Build_HTTPException 403 "Permission denied"
                    (Some "Conversation belongs to different user")), db))
  ∧ (∀ c, conversations db !! cid = Some c → Conversation.user_id c = uid →
          Conversation.deleted_at c ≠ None →
          chat uid request uid true agent utcnow db
          = (inl (Build_HTTPException 404 "Conversation not found"
                    (Some "Conversation was deleted")), db)).
Proof.
  intros Hcid Hlen request.
  destruct (proj2 (sanitize_message_content_ok message 2000) Hlen) as [out Hout].
  assert (chat_validate request = inr out) as Hv.
  { unfold chat_validate, request, validate_conversation_id.
    cbn [request_message request_conversation_id]. rewrite Hout.
    by destruct (Z.leb_spec cid 0); [lia|]. }
  unfold chat. cbn [negb]. rewrite bool_decide_false by (intros ?; done).
  rewrite Hv. unfold chat_conversation, request.
  cbn [request_conversation_id]. cbv zeta.
  rewrite bool_decide_false by lia. split_and!.
  - by intros ->.
  - intros c -> Hu. by rewrite bool_decide_true by done.
  - intros c -> Hu Hd. rewrite bool_decide_false by (intros ?; done).
    by rewrite bool_decide_true by done.
Qed.

Lemma chat_refuses_conversation_witness :
  chat alice (Build_ChatRequest "hello" (Some 2)) alice true answering_agent
    sample_clock with_deleted_conversation
  = (inl (Build_HTTPException 403 "Permission denied"
            (Some "Conversation belongs to different user")),
     with_deleted_conversation).
Proof.
  refine (proj1 (proj2 (chat_refuses_conversation alice 2 "hello"
                          answering_agent sample_clock
                          with_deleted_conversation _ _))
            (Conversation.Build 2 bob None 6 20 None) _ _).
  - lia.
  - vm_compute. split; [reflexivity|discriminate].
  - vm_compute. reflexivity.
  - vm_compute. discriminate.
Defined.

(** X24. Whatever [chat] refuses with a status other than 500 and 504, it
    refuses without writing anything, and the status is then 429, 403, 400
    or 404. The rate limit is checked first and the token second: a request
    over the limit gets 429 whoever sends it, and a token for another user
    gets 403 whatever the request contains. *)
Theorem chat_refusal_writes_nothing user_id chat_request current_user_id
    allowed agent utcnow db err db' :
  chat user_id chat_request current_user_id allowed agent utcnow db
  = (inl err, db') →
  status_code err ∈ [429; 403; 400; 404; 500; 504]
  ∧ (status_code err ≠ 500 → status_code err ≠ 504 → db' = db)
  ∧ (allowed = false → status_code err = 429)
  ∧ (allowed = true → current_user_id ≠ user_id → status_code err = 403).
Proof.
  unfold chat. destruct allowed; cbn [negb].
  2:{ intros [= <- <-]. cbn. split_and!; try done. set_solver. }
  case_bool_decide as Hu.
  { intros [= <- <-]. cbn. split_and!; try done. set_solver. }
  destruct (chat_validate chat_request) as [e|sanitized] eqn:Hv.
  { intros [= <- <-]. rewrite (chat_validate_inl _ _ Hv).
    split_and!; try done. set_solver. }
  destruct (chat_conversation _ _ _ _) as [e|[c db1]] eqn:Hc.
  { intros [= <- <-].
    destruct (chat_conversation_inl _ _ _ _ _ Hc) as [-> | ->];
      split_and!; try done; set_solver. }
  destruct (agent _ _) as [[[content tool_calls]|e]|]; intros [= <- <-];
    cbn; split_and!; try done; set_solver.
Qed.

Lemma chat_refusal_writes_nothing_witness :
  status_code (Build_HTTPException 400 "Conversation ID must be positive" None)
  ∈ [429; 403; 400; 404; 500; 504].
Proof.
  refine (proj1 (chat_refusal_writes_nothing alice
                   (Build_ChatRequest "hello" (Some (-1))) alice true
                   answering_agent sample_clock several_conversations
                   _ several_conversations _)).
  vm_compute. reflexivity.
Defined.



(** X26. A request [chat] answers with a response has passed the rate
    limit and carries the caller's own token. It appends exactly two
    messages, the user message with the text of the request and the
    assistant message with the text of the response, both in the
    conversation named by the response, with new distinct primary keys and
    consecutive sequence numbers. That conversation is then a live
    conversation of the caller with its [updated_at] set, and every other
    conversation is as before. *)
Theorem chat_successful_turn user_id chat_request current_user_id allowed agent
    utcnow db response db' :
  conversations_wf db →
  chat user_id chat_request current_user_id allowed agent utcnow db
  = (inr response, db') →
  allowed = true ∧ current_user_id = user_id
  ∧ (∃ u a,
       messages db' = messages db ++ [u; a]
       ∧ Message.conversation_id u = response_conversation_id response
       ∧ Message.conversation_id a = response_conversation_id response
       ∧ Message.role u = USER ∧ Message.role a = ASSISTANT
       ∧ Message.content u = request_message chat_request
       ∧ Message.content a = response_assistant_message response
       ∧ Message.tool_calls a = response_tool_calls response
       ∧ Message.id a = response_message_id response
       ∧ Message.id u ≠ Message.id a
       ∧ (Message.id u ∉ (Message.id <$> messages db))
       ∧ (Message.id a ∉ (Message.id <$> messages db))
       ∧ Message.sequence_number u
         = existing_message_count (response_conversation_id response)
             (messages db) + 1
       ∧ Message.sequence_number a = Message.sequence_number u + 1)
  ∧ (∃ c, conversations db' !! response_conversation_id response = Some c
          ∧ Conversation.id c = response_conversation_id response
          ∧ Conversation.user_id c = user_id
          ∧ Conversation.deleted_at c = None
          ∧ Conversation.updated_at c = utcnow 4%nat)
  ∧ (∀ k, k ≠ response_conversation_id response →
          conversations db' !! k = conversations db !! k)
  ∧ conversations_wf db'.
Proof.
  intros Hwf. unfold chat. destruct allowed; cbn [negb]; [|done].
  case_bool_decide as Hu; [done|].
  destruct (chat_validate chat_request) as [e|sanitized] eqn:Hv; [done|].
  destruct (chat_conversation _ _ _ _) as [e|[c db1]] eqn:Hc; [done|].
  destruct (chat_conversation_inr _ _ _ _ _ _ Hwf Hc)
    as (Hm & Hsub & Hlook & Hown & Hlive & Hwf1 & Hothers).
  destruct (agent _ _) as [[[content tool_calls]|e]|]; [|done..].
  intros [= <- <-].
  cbn [messages conversations response_conversation_id response_message_id
       response_assistant_message response_tool_calls].
  rewrite !Hm. split_and!.
  - done.
  - by destruct (decide (current_user_id = user_id)).
  - eexists _, _. split; [by rewrite <- app_assoc|].
    cbn [Message.conversation_id Message.role Message.content
         Message.tool_calls Message.id Message.sequence_number].
    split_and!; try done.
    + intros Heq.
      apply (fresh_message_id_new
               (messages db
                ++ [Message.Build (fresh_message_id (messages db))
                      (Conversation.id c) USER (request_message chat_request)
                      VNone
                      (existing_message_count (Conversation.id c) (messages db)
                       + 1) (utcnow 2%nat) None])).
      rewrite <- Heq, fmap_app. apply elem_of_app. right. cbn. by left.
    + apply fresh_message_id_new.
    + intros Hin. eapply fresh_message_id_new.
      rewrite fmap_app. apply elem_of_app. left. exact Hin.
  - eexists. rewrite lookup_insert_eq. split; [done|]. cbn. done.
  - intros k Hk. rewrite lookup_insert_ne by done. by apply Hothers.
  - destruct db1 as [convs1 msgs1]. cbn [conversations messages] in *.
    by eapply (conversations_wf_insert _ _ _
                 (Conversation.Build (Conversation.id c) _ _ _ _ _)).
Qed.

Lemma chat_successful_turn_witness :
  ∃ c, conversations
         (chat alice (Build_ChatRequest "thanks" (Some 1)) alice true
            answering_agent sample_clock three_messages_db).2 !! 1 = Some c
       ∧ Conversation.id c = 1
       ∧ Conversation.user_id c = alice
       ∧ Conversation.deleted_at c = None
       ∧ Conversation.updated_at c = sample_clock 4%nat.
Proof.
  refine (proj1 (proj2 (proj2 (proj2
            (chat_successful_turn alice (Build_ChatRequest "thanks" (Some 1))
               alice true answering_agent sample_clock three_messages_db
               (Build_ChatResponse 1 5 "I've added 'Buy milk' to your tasks."
                  VNone 103) _ _ _))))).
  - apply (bool_decide_unpack (conversations_wf three_messages_db)).
    vm_compute. exact I.
  - vm_compute. reflexivity.
Defined.

Lemma existing_message_count_all db cid :
  none_deleted db →
  existing_message_count cid (messages db)
  = Z.of_nat (length (sequence_numbers cid (messages db))).
Proof.
  unfold none_deleted, existing_message_count, sequence_numbers.
  intros Hall. rewrite length_fmap. do 2 f_equal.
  induction Hall as [|m msgs Hm Hall IH]; [done|].
  rewrite !filter_cons, IH.
  destruct (decide (Message.conversation_id m = cid)) as [Hc|Hc].
  - rewrite decide_True by done. done.
  - rewrite decide_False by tauto. done.
Qed.

(** Appending a live message that carries a new primary key and the count
    of its conversation plus 1 keeps the table numbered. *)
Lemma append_message_numbered convs convs' msgs m :
  numbered (ChatDb convs msgs) → none_deleted (ChatDb convs msgs) →
  Message.id m ∉ (Message.id <$> msgs) →
  Message.deleted_at m = None →
  Message.sequence_number m
  = existing_message_count (Message.conversation_id m) msgs + 1 →
  numbered (ChatDb convs' (msgs ++ [m]))
  ∧ none_deleted (ChatDb convs' (msgs ++ [m])).
Proof.
  intros [Hids Hseq] Hlive Hid Hdel Hnum. cbn [messages] in *.
  split; [split|].
  - cbn [messages]. rewrite fmap_app. apply NoDup_app.
    split_and!; [done| |apply NoDup_singleton].
    by intros x Hx ->%list_elem_of_singleton.
  - cbn [messages]. intros cid. rewrite sequence_numbers_snoc.
    case_decide as Hc.
    + rewrite length_app. cbn [length]. rewrite Nat.add_1_r.
      rewrite numbers_upto_snoc, <- Hseq. f_equal.
      rewrite Hnum, Hc.
      pose proof (existing_message_count_all (ChatDb convs msgs) cid Hlive)
        as Hcount.
      cbn [messages] in Hcount. rewrite Hcount. f_equal. lia.
    + rewrite app_nil_r. apply Hseq.
  - unfold none_deleted. cbn [messages]. apply Forall_app. split; [done|].
    by apply Forall_singleton.
Qed.

Lemma chat_numbered user_id chat_request current_user_id allowed agent utcnow db :
  numbered db → none_deleted db →
  numbered (chat user_id chat_request current_user_id allowed agent utcnow db).2
  ∧ none_deleted
      (chat user_id chat_request current_user_id allowed agent utcnow db).2.
Proof.
  intros Hn Hl. unfold chat. destruct allowed; cbn [negb]; [|done].
  case_bool_decide as Hu; [done|].
  destruct (chat_validate chat_request) as [e|sanitized] eqn:Hv; [done|].
  destruct (chat_conversation _ _ _ _) as [e|[c db1]] eqn:Hc; [done|].
  destruct (chat_conversation_messages _ _ _ _ _ _ Hc) as [Hm _].
  destruct db as [convs msgs], db1 as [convs1 msgs1].
  cbn [messages conversations] in *. subst msgs1.
  cbv zeta.
  set (u := Message.Build (fresh_message_id msgs) (Conversation.id c) USER
              (request_message chat_request) VNone
              (existing_message_count (Conversation.id c) msgs + 1)
              (utcnow 2%nat) None).
  assert (numbered (ChatDb convs1 (msgs ++ [u]))
          ∧ none_deleted (ChatDb convs1 (msgs ++ [u]))) as [Hn1 Hl1].
  { apply (append_message_numbered convs convs1 msgs u); try done.
    apply fresh_message_id_new. }
  destruct (agent _ _) as [[[content tool_calls]|e]|]; cbn [snd]; [|done..].
  apply (append_message_numbered convs1); try done.
  - apply fresh_message_id_new.
  - cbn [Message.sequence_number Message.conversation_id].
    unfold existing_message_count. rewrite filter_app, length_app.
    rewrite filter_cons, filter_nil. subst u.
    cbn [Message.conversation_id Message.deleted_at].
    rewrite decide_True by done. cbn [length]. lia.
Qed.

(** X27. As long as no message has been soft-deleted, [chat] keeps the
    [messages] table numbered: after any run of requests, accepted, refused
    or failed, the primary keys are distinct, every conversation carries
    exactly the numbers [1..N] in the order its messages were stored, and
    still no message is soft-deleted. *)
Theorem chat_run_numbered calls db :
  numbered db → none_deleted db →
  numbered (chat_run calls db) ∧ none_deleted (chat_run calls db).
Proof.
  unfold chat_run. revert db.
  induction calls as [|c calls IH]; intros db Hn Hl; [done|].
  cbn [foldl]. destruct (chat_numbered (call_user_id c) (call_request c)
    (call_current_user_id c) (call_allowed c) (call_agent c) (call_utcnow c)
    db Hn Hl) as [Hn1 Hl1]. by apply IH.
Qed.

Lemma chat_run_numbered_witness :
  numbered (chat_run three_turns several_conversations)
  ∧ none_deleted (chat_run three_turns several_conversations).
Proof.
  apply (chat_run_numbered three_turns several_conversations).
  - split; [vm_compute; constructor|reflexivity].
  - vm_compute. constructor.
Defined.

(* ===================================================================== *)
(** * The listing endpoints *)
(* ===================================================================== *)

#[local] Instance created_asc_total : Total created_asc.
Proof. intros a b. unfold created_asc. lia. Qed.

#[local] Instance created_asc_trans : Transitive created_asc.
Proof. intros a b c. unfold created_asc. lia. Qed.

(** X28. [get_conversation_messages] answers the same 404 for a
    conversation of another user and for one that does not exist. To its
    owner it returns the messages of the conversation that are not
    soft-deleted, each one once and none of another conversation, ordered
    by creation time, whether or not the conversation itself has been
    soft-deleted; [total] is their number, the count the chat endpoints
    number the next message from. *)
Theorem conversation_messages_listing uid cid db :
  ((∀ c, conversations db !! cid = Some c → Conversation.user_id c ≠ uid) →
   Api.get_conversation_messages uid cid uid db
   = inl (Build_HTTPException 404 "Conversation not found" None))
  ∧ (∀ c, conversations db !! cid = Some c → Conversation.user_id c = uid →
          ∃ msgs,
            Api.get_conversation_messages uid cid uid db
            = inr (cid, Api.message_entry <$> msgs,
                   existing_message_count cid (messages db))
            ∧ StronglySorted created_asc msgs
            ∧ msgs ≡ₚ filter (λ m, Message.conversation_id m = cid
                                   ∧ Message.deleted_at m = None)
                        (messages db)).
Proof.
  unfold Api.get_conversation_messages.
  rewrite bool_decide_false by (intros ?; done). split.
  - intros Hnot. destruct (conversations db !! cid) as [c|] eqn:Hc; [|done].
    by rewrite bool_decide_true by by apply Hnot.
  - intros c -> Hu. rewrite bool_decide_false by (intros ?; done).
    cbv zeta. eexists. split_and!.
    + unfold existing_message_count. do 3 f_equal.
      apply Permutation_length, merge_sort_Permutation.
    + apply StronglySorted_merge_sort; apply _.
    + apply merge_sort_Permutation.
Qed.

Lemma conversation_messages_listing_witness :
  Api.get_conversation_messages bob 1 bob sample_chat_db
  = inl (Build_HTTPException 404 "Conversation not found" None)
  ∧ ∃ msgs,
      Api.get_conversation_messages alice 1 alice sample_chat_db
      = inr (1, Api.message_entry <$> msgs,
             existing_message_count 1 (messages sample_chat_db))
      ∧ StronglySorted created_asc msgs
      ∧ msgs ≡ₚ filter (λ m, Message.conversation_id m = 1
                             ∧ Message.deleted_at m = None)
                  (messages sample_chat_db).
Proof.
  split.
  - apply (conversation_messages_listing bob 1 sample_chat_db).
    intros c Hc. vm_compute in Hc. injection Hc as <-. vm_compute. discriminate.
  - apply (proj2 (conversation_messages_listing alice 1 sample_chat_db)
             (Conversation.Build 1 alice None 5 12 None)).
    + vm_compute. reflexivity.
    + reflexivity.
Defined.

Lemma conversations_wf_values db c :
  conversations_wf db →
  c ∈ (map_to_list (conversations db)).*2
  ↔ conversations db !! Conversation.id c = Some c.
Proof.
  intros Hwf. rewrite list_elem_of_fmap. split.
  - intros ([k c'] & -> & Hc%elem_of_map_to_list). cbn.
    by rewrite (Hwf _ _ Hc).
  - intros Hc. exists (Conversation.id c, c). split; [done|].
    by apply elem_of_map_to_list.
Qed.

Lemma conversations_wf_ids db :
  conversations_wf db →
  Conversation.id <$> (map_to_list (conversations db)).*2
  = (map_to_list (conversations db)).*1.
Proof.
  intros Hwf. rewrite <- list_fmap_compose. apply list_fmap_ext.
  intros i [k c] Hkc%list_elem_of_lookup_2%elem_of_map_to_list. cbn.
  exact (Hwf _ _ Hkc).
Qed.

(** X29. With the caller's own token, [list_conversations] returns the
    conversations of the caller that are not soft-deleted, each one once,
    most recently updated first, and [total] is their number. They are
    exactly the conversations a [chat] request of the caller may name: an
    id is listed if and only if [chat] goes on with that conversation. *)
Theorem conversation_listing uid db :
  conversations_wf db →
  ∃ convs,
    Api.list_conversations uid uid db
    = inr (Api.conversation_entry <$> convs, Z.of_nat (length convs))
    ∧ StronglySorted updated_desc convs
    ∧ NoDup (Conversation.id <$> convs)
    ∧ (∀ c, c ∈ convs
            ↔ conversations db !! Conversation.id c = Some c
              ∧ Conversation.user_id c = uid
              ∧ Conversation.deleted_at c = None)
    ∧ (∀ cid message utcnow,
         cid ≠ 0 →
         cid ∈ (Conversation.id <$> convs)
         ↔ ∃ c, chat_conversation uid (Build_ChatRequest message (Some cid))
                  utcnow db = inr (c, db)).
Proof.
  intros Hwf. unfold Api.list_conversations.
  rewrite bool_decide_false by (intros ?; done). cbv zeta.
  set (own := filter (λ c, Conversation.user_id c = uid
                           ∧ Conversation.deleted_at c = None)
                (map_to_list (conversations db)).*2).
  assert (∀ c, c ∈ merge_sort updated_desc own
               ↔ conversations db !! Conversation.id c = Some c
                 ∧ Conversation.user_id c = uid
                 ∧ Conversation.deleted_at c = None) as Hin.
  { intros c. rewrite merge_sort_Permutation. unfold own.
    rewrite list_elem_of_filter, (conversations_wf_values db c Hwf). tauto. }
  exists (merge_sort updated_desc own). split_and!.
  - done.
  - apply StronglySorted_merge_sort; apply _.
  - rewrite merge_sort_Permutation.
    apply (sublist_NoDup _ (Conversation.id <$> (map_to_list (conversations db)).*2)).
    + rewrite (conversations_wf_ids db Hwf). apply NoDup_fst_map_to_list.
    + apply fmap_sublist, sublist_filter.
  - exact Hin.
  - intros cid message utcnow Hcid. unfold chat_conversation.
    cbn [request_conversation_id]. cbv zeta.
    rewrite bool_decide_false by done. rewrite list_elem_of_fmap. split.
    + intros (c & -> & (Hc & Hu & Hd)%Hin). rewrite Hc.
      rewrite bool_decide_false by (intros ?; done).
      rewrite bool_decide_false by (intros ?; done). by exists c.
    + intros [c Hc]. destruct (conversations db !! cid) as [c0|] eqn:Hc0; [|done].
      case_bool_decide as Hu; [done|]. case_bool_decide as Hd; [done|].
      injection Hc as <-. exists c0. pose proof (Hwf _ _ Hc0) as Hid.
      cbn in Hid. split; [done|]. apply Hin. rewrite Hid. split_and!; [done| |].
      * by destruct (decide (Conversation.user_id c0 = uid)).
      * by destruct (decide (Conversation.deleted_at c0 = None)).
Qed.

Lemma conversation_listing_witness :
  ∃ convs,
    Api.list_conversations alice alice with_deleted_conversation
    = inr (Api.conversation_entry <$> convs, Z.of_nat (length convs))
    ∧ StronglySorted updated_desc convs
    ∧ NoDup (Conversation.id <$> convs)
    ∧ (∀ c, c ∈ convs
            ↔ conversations with_deleted_conversation !! Conversation.id c
              = Some c
              ∧ Conversation.user_id c = alice
              ∧ Conversation.deleted_at c = None)
    ∧ (∀ cid message utcnow,
         cid ≠ 0 →
         cid ∈ (Conversation.id <$> convs)
         ↔ ∃ c, chat_conversation alice
                  (Build_ChatRequest message (Some cid)) utcnow
                  with_deleted_conversation
                = inr (c, with_deleted_conversation)).
Proof.
  apply (conversation_listing alice with_deleted_conversation).
  apply (bool_decide_unpack (conversations_wf with_deleted_conversation)).
  vm_compute. exact I.
Defined.

(* ===================================================================== *)
(** * The retention job *)
(* ===================================================================== *)

Lemma filter_none {A} (P : A → Prop) `{!∀ x, Decision (P x)} (l : list A) :
  (∀ x, x ∈ l → ¬ P x) → filter P l = [].
Proof.
  induction l as [|x l IH]; intros Hall; [done|].
  rewrite filter_cons_False by (apply Hall; by left).
  apply IH. intros y Hy. apply Hall. by right.
Qed.

Lemma filter_member_cons_length (i : Z) (ids : list Z) (msgs : list Message.t) :
  (length (filter (λ m, Message.conversation_id m = i) msgs)
   + length (filter (λ m, Message.conversation_id m ∈ ids)
               (filter (λ m, Message.conversation_id m ≠ i) msgs))
   = length (filter (λ m, Message.conversation_id m ∈ i :: ids) msgs))%nat.
Proof.
  induction msgs as [|m msgs IH]; [done|].
  rewrite !filter_cons.
  destruct (decide (Message.conversation_id m = i)) as [Hi|Hi].
  - rewrite decide_False by (intros ?; done).
    rewrite decide_True by (rewrite Hi; by left). cbn [length]. lia.
  - rewrite decide_True by done. rewrite filter_cons.
    destruct (decide (Message.conversation_id m ∈ ids)) as [Hin|Hin].
    + rewrite decide_True by by right. cbn [length]. lia.
    + rewrite decide_False; [lia|].
      intros [?|?]%elem_of_cons; done.
Qed.

Lemma filter_member_fresh_length (i : Z) (ids : list Z) (msgs : list Message.t) :
  i ∉ ids →
  (length (filter (λ m, Message.conversation_id m = i) msgs)
   + length (filter (λ m, Message.conversation_id m ∈ ids) msgs)
   = length (filter (λ m, Message.conversation_id m ∈ i :: ids) msgs))%nat.
Proof.
  intros Hi. rewrite <- filter_member_cons_length. f_equal.
  rewrite list_filter_filter. f_equal. apply list_filter_iff.
  intros m. split; [|tauto]. intros Hin. split; [done|].
  intros Heq. apply Hi. by rewrite <- Heq.
Qed.

(** The deleting loop over the conversations [cs]: it counts the messages
    of these conversations and removes them with the conversations. *)
Lemma delete_with_messages_fold cs n db :
  foldl delete_with_messages (n, db) cs
  = (n + Z.of_nat (length (filter (λ m, Message.conversation_id m
                                        ∈ Conversation.id <$> cs)
                             (messages db))),
     ChatDb (foldl (λ convs c, delete (Conversation.id c) convs)
               (conversations db) cs)
            (filter (λ m, Message.conversation_id m ∉ Conversation.id <$> cs)
                    (messages db))).
Proof.
  revert n db. induction cs as [|c cs IH]; intros n db.
  - cbn [foldl fmap list_fmap]. destruct db as [convs msgs]. cbn [messages
      conversations]. f_equal.
    + rewrite filter_none; [cbn; lia|].
      intros m _ Hm. by apply elem_of_nil in Hm.
    + f_equal. symmetry. apply filter_all. intros m _ Hm.
      by apply elem_of_nil in Hm.
  - cbn [foldl]. unfold delete_with_messages at 2. cbn [fst snd].
    rewrite IH. cbn [messages conversations]. unfold messages_of.
    rewrite fmap_cons. f_equal.
    + rewrite <- (filter_member_cons_length (Conversation.id c)). lia.
    + f_equal. rewrite list_filter_filter. apply list_filter_iff.
      intros m. rewrite not_elem_of_cons. tauto.
Qed.

Lemma count_messages_fold cs n db :
  NoDup (Conversation.id <$> cs) →
  foldl (λ message_count conversation,
           message_count
           + Z.of_nat (length (messages_of (Conversation.id conversation) db)))
        n cs
  = n + Z.of_nat (length (filter (λ m, Message.conversation_id m
                                       ∈ Conversation.id <$> cs)
                            (messages db))).
Proof.
  revert n. induction cs as [|c cs IH]; intros n Hnd.
  - cbn [foldl fmap list_fmap].
    rewrite filter_none; [cbn; lia|].
    intros m _ Hm. by apply elem_of_nil in Hm.
  - rewrite fmap_cons in Hnd. apply NoDup_cons in Hnd as [Hc Hnd].
    cbn [foldl]. rewrite IH by done. unfold messages_of. rewrite fmap_cons.
    rewrite <- (filter_member_fresh_length (Conversation.id c)) by done. lia.
Qed.

Lemma lookup_foldl_delete (cs : list Conversation.t)
    (convs : gmap Z Conversation.t) k :
  foldl (λ convs c, delete (Conversation.id c) convs) convs cs !! k
  = if decide (k ∈ Conversation.id <$> cs) then None else convs !! k.
Proof.
  revert convs. induction cs as [|c cs IH]; intros convs.
  - cbn. rewrite decide_False; [done|]. by intros ?%elem_of_nil.
  - cbn [foldl]. rewrite IH, fmap_cons.
    destruct (decide (k ∈ Conversation.id <$> cs)) as [Hin|Hin].
    + rewrite decide_True by by right. done.
    + destruct (decide (k = Conversation.id c)) as [->|Hne].
      * rewrite decide_True by by left. by rewrite lookup_delete_eq.
      * rewrite decide_False by (intros [?|?]%elem_of_cons; done).
        by rewrite lookup_delete_ne.
Qed.

Lemma size_foldl_delete (cs : list Conversation.t)
    (convs : gmap Z Conversation.t) :
  NoDup (Conversation.id <$> cs) →
  (∀ c, c ∈ cs → is_Some (convs !! Conversation.id c)) →
  (size (foldl (λ convs c, delete (Conversation.id c) convs) convs cs)
   + length cs = size convs)%nat.
Proof.
  revert convs. induction cs as [|c cs IH]; intros convs Hnd Hall.
  - cbn. lia.
  - rewrite fmap_cons in Hnd. apply NoDup_cons in Hnd as [Hc Hnd].
    cbn [foldl length].
    pose proof (map_size_delete_Some (Conversation.id c) convs
                  (Hall c ltac:(by left))) as Hsize.
    assert (is_Some (convs !! Conversation.id c)) as [c0 Hc0]
      by (apply Hall; by left).
    assert (size convs ≠ 0%nat) as Hpos.
    { apply map_size_ne_0_lookup. by exists (Conversation.id c), c0. }
    assert (∀ c', c' ∈ cs →
                  is_Some (delete (Conversation.id c) convs
                             !! Conversation.id c')) as Hall'.
    { intros c' Hc'. rewrite lookup_delete_ne; [apply Hall; by right|].
      intros Heq. apply Hc. rewrite Heq. apply list_elem_of_fmap.
      by exists c'. }
    pose proof (IH (delete (Conversation.id c) convs) Hnd Hall') as HIH.
    lia.
Qed.

(** The ids of the conversations to delete. *)
Lemma conversations_to_delete_ids cutoff_date db k :
  conversations_wf db →
  k ∈ Conversation.id <$> conversations_to_delete cutoff_date db
  ↔ expired_conversation cutoff_date db k.
Proof.
  intros Hwf. unfold conversations_to_delete, expired_conversation.
  rewrite list_elem_of_fmap. split.
  - intros (c & -> & [He Hc]%list_elem_of_filter).
    apply (conversations_wf_values db c Hwf) in Hc. by rewrite Hc.
  - destruct (conversations db !! k) as [c|] eqn:Hc; [|done].
    intros He. exists c. pose proof (Hwf _ _ Hc) as Hid. cbn in Hid.
    split; [done|]. apply list_elem_of_filter. split; [done|].
    apply (conversations_wf_values db c Hwf). by rewrite Hid.
Qed.

Lemma conversations_to_delete_NoDup cutoff_date db :
  conversations_wf db →
  NoDup (Conversation.id <$> conversations_to_delete cutoff_date db).
Proof.
  intros Hwf.
  apply (sublist_NoDup _ (Conversation.id <$> (map_to_list (conversations db)).*2)).
  - rewrite (conversations_wf_ids db Hwf). apply NoDup_fst_map_to_list.
  - apply fmap_sublist, sublist_filter.
Qed.

(** Nothing is orphaned in a table that is well formed and orphan free. *)
Lemma cleanup_orphaned_messages_nothing db :
  conversations_wf db → orphan_free db →
  cleanup_orphaned_messages db
  = (VDict [("orphaned_messages_deleted", VInt 0)], db).
Proof.
  intros Hwf Hfree. unfold cleanup_orphaned_messages. cbv zeta.
  rewrite (conversations_wf_ids db Hwf).
  assert (∀ m, m ∈ messages db →
               Message.conversation_id m ∈ (map_to_list (conversations db)).*1)
    as Hin.
  { intros m Hm. unfold orphan_free in Hfree. rewrite Forall_forall in Hfree.
    destruct (Hfree m Hm) as [c Hc]. apply list_elem_of_fmap.
    exists (Message.conversation_id m, c). split; [done|].
    by apply elem_of_map_to_list. }
  f_equal.
  - rewrite filter_none; [done|].
    intros m Hm Hnot. by apply Hnot, Hin.
  - destruct db as [convs msgs]. cbn [conversations messages] in *. f_equal.
    by apply filter_all.
Qed.

(** X30. On a well-formed table, [cleanup_old_conversations] removes the
    conversations soft-deleted before the cutoff and keeps every other
    conversation as it is; it removes the messages of the removed
    conversations and no other message. The two counts it reports are the
    numbers of rows gone from the two tables. A dry run changes nothing and
    reports the same two counts. If no message was orphaned before, none is
    afterwards, and [cleanup_orphaned_messages] then deletes nothing. *)
Theorem cleanup_old_conversations_effect cutoff_date db :
  conversations_wf db →
  let run := cleanup_old_conversations false cutoff_date db in
  let dry := cleanup_old_conversations true cutoff_date db in
  (∀ k c, conversations run.2 !! k = Some c
          ↔ conversations db !! k = Some c ∧ ¬ expired cutoff_date c)
  ∧ messages run.2
    = filter (λ m, ¬ expired_conversation cutoff_date db
                       (Message.conversation_id m)) (messages db)
  ∧ dict_get "conversations_deleted" (dict_of run.1)
    = Some (VInt (Z.of_nat (size (conversations db))
                  - Z.of_nat (size (conversations run.2))))
  ∧ dict_get "messages_deleted" (dict_of run.1)
    = Some (VInt (Z.of_nat (length (messages db))
                  - Z.of_nat (length (messages run.2))))
  ∧ dry.2 = db
  ∧ dict_get "conversations_deleted" (dict_of dry.1)
    = dict_get "conversations_deleted" (dict_of run.1)
  ∧ dict_get "messages_deleted" (dict_of dry.1)
    = dict_get "messages_deleted" (dict_of run.1)
  ∧ (orphan_free db →
     orphan_free run.2
     ∧ cleanup_orphaned_messages run.2
       = (VDict [("orphaned_messages_deleted", VInt 0)], run.2)).
Proof.
  intros Hwf run dry.
  pose proof (conversations_to_delete_NoDup cutoff_date db Hwf) as Hnd.
  pose proof (λ k, conversations_to_delete_ids cutoff_date db k Hwf) as Hids.
  set (cs := conversations_to_delete cutoff_date db) in *.
  assert (run = (VDict [("conversations_deleted", VInt (Z.of_nat (length cs)));
                        ("messages_deleted",
                         VInt (0 + Z.of_nat (length
                            (filter (λ m, Message.conversation_id m
                                          ∈ Conversation.id <$> cs)
                                    (messages db)))));
                        ("cutoff_date", VIsoformat cutoff_date);
                        ("dry_run", VBool false)],
                 ChatDb (foldl (λ convs c, delete (Conversation.id c) convs)
                           (conversations db) cs)
                        (filter (λ m, Message.conversation_id m
                                      ∉ Conversation.id <$> cs)
                                (messages db)))) as Hrun.
  { unfold run, cleanup_old_conversations. cbv zeta. cbn [negb]. fold cs.
    by rewrite delete_with_messages_fold. }
  assert (dry = (VDict [("conversations_deleted", VInt (Z.of_nat (length cs)));
                        ("messages_deleted",
                         VInt (0 + Z.of_nat (length
                            (filter (λ m, Message.conversation_id m
                                          ∈ Conversation.id <$> cs)
                                    (messages db)))));
                        ("cutoff_date", VIsoformat cutoff_date);
                        ("dry_run", VBool true)], db)) as Hdry.
  { unfold dry, cleanup_old_conversations. cbv zeta. cbn [negb]. fold cs.
    cbn [fst snd]. by rewrite count_messages_fold. }
  clearbody run dry. subst run dry. cbn [fst snd conversations messages dict_of].
  assert (∀ k c,
            foldl (λ convs c, delete (Conversation.id c) convs)
              (conversations db) cs !! k = Some c
            ↔ conversations db !! k = Some c ∧ ¬ expired cutoff_date c)
    as Hconvs.
  { intros k c. rewrite lookup_foldl_delete.
    specialize (Hids k). unfold expired_conversation in Hids.
    destruct (decide (k ∈ Conversation.id <$> cs)) as [Hin|Hin].
    - apply Hids in Hin. split; [done|]. intros [Hc Hne].
      rewrite Hc in Hin. done.
    - split.
      + intros Hc. split; [done|]. intros He. apply Hin, Hids.
        by rewrite Hc.
      + by intros [Hc _]. }
  assert (filter (λ m, Message.conversation_id m ∉ Conversation.id <$> cs)
            (messages db)
          = filter (λ m, ¬ expired_conversation cutoff_date db
                             (Message.conversation_id m)) (messages db))
    as Hmsgs.
  { apply list_filter_iff. intros m. by rewrite Hids. }
  split_and!.
  - exact Hconvs.
  - exact Hmsgs.
  - assert (size (foldl (λ convs c, delete (Conversation.id c) convs)
                    (conversations db) cs) + length cs
            = size (conversations db))%nat as Hsize.
    { apply size_foldl_delete; [done|].
      intros c [He Hc]%list_elem_of_filter.
      apply (conversations_wf_values db c Hwf) in Hc. by exists c. }
    replace (Z.of_nat (size (conversations db))
             - Z.of_nat (size (foldl (λ convs c, delete (Conversation.id c) convs)
                                (conversations db) cs)))
      with (Z.of_nat (length cs)) by lia.
    reflexivity.
  - assert (length (filter (λ m, Message.conversation_id m
                                 ∈ Conversation.id <$> cs) (messages db))
            + length (filter (λ m, Message.conversation_id m
                                   ∉ Conversation.id <$> cs) (messages db))
            = length (messages db))%nat as Hlen.
    { apply filter_complement_length. intros m. split; [tauto|].
      intros Hnn. by destruct (decide (Message.conversation_id m
                                       ∈ Conversation.id <$> cs)). }
    replace (Z.of_nat (length (messages db))
             - Z.of_nat (length (filter (λ m, Message.conversation_id m
                                             ∉ Conversation.id <$> cs)
                                   (messages db))))
      with (0 + Z.of_nat (length (filter (λ m, Message.conversation_id m
                                               ∈ Conversation.id <$> cs)
                                     (messages db)))) by lia.
    reflexivity.
  - done.
  - done.
  - done.
  - intros Hfree.
    assert (orphan_free
              (ChatDb (foldl (λ convs c, delete (Conversation.id c) convs)
                         (conversations db) cs)
                      (filter (λ m, Message.conversation_id m
                                    ∉ Conversation.id <$> cs) (messages db))))
      as Hfree'.
    { unfold orphan_free in *. cbn [conversations messages].
      rewrite Forall_forall in Hfree |- *.
      intros m [Hnot Hm]%list_elem_of_filter.
      destruct (Hfree m Hm) as [c Hc]. exists c. apply Hconvs.
      split; [done|]. intros He. apply Hnot, Hids.
      unfold expired_conversation. by rewrite Hc. }
    split; [done|]. apply cleanup_orphaned_messages_nothing; [|done].
    unfold conversations_wf. cbn [conversations]. intros k c Hc.
    apply Hconvs in Hc as [Hc _]. exact (Hwf _ _ Hc).
Qed.

Lemma cleanup_old_conversations_effect_witness :
  let run := cleanup_old_conversations false 100 retention_db in
  messages run.2
  = filter (λ m, ¬ expired_conversation 100 retention_db
                     (Message.conversation_id m)) (messages retention_db)
  ∧ dict_get "messages_deleted" (dict_of run.1)
    = Some (VInt (Z.of_nat (length (messages retention_db))
                  - Z.of_nat (length (messages run.2)))).
Proof.
  pose proof (cleanup_old_conversations_effect 100 retention_db) as H.
  destruct H as (_ & Hm & _ & Hc & _).
  - apply (bool_decide_unpack (conversations_wf retention_db)).
    vm_compute. exact I.
  - split; [exact Hm|exact Hc].
Defined.
